(** * star-agents: the data-cleaning and anomaly-detection pipeline

    A shallow embedding of [backend/agents/nodes.py] (the Cleaner, the
    Statistics Summarizer and the Anomaly Detector), of the node graph of
    [backend/agents/graph.py] with the state of [backend/agents/state.py],
    and of the two HTTP handlers of [backend/main.py] that gate the file
    extension and decide the status of an analysis run.

    Conventions of the embedding.
    - A pandas DataFrame is a header (column name and dtype, in insertion
      order) and a list of rows; every row carries its index label, because
      [dropna] and [drop_duplicates] keep the labels of the rows they keep
      and the Anomaly Detector reports labels.
    - A cell is null (NaN / None), a number, a text or a boolean.  A
      number is the rational it denotes.  The quartiles and the fences of
      the outlier rule are computed as the code computes them, every
      operation rounded to binary64; the sums, means and medians of the
      other parts are exact, and an int64 is taken without its
      wrap-around.  The dtypes are the ones [pandas.read_csv] produces
      (object, float64, int64, bool); temporal columns are left out, and
      no statement is made about a table that has one.
    - Strings are byte strings; [strip] and [lower] act on the ASCII range.
    - Library functions that are not part of the repository and whose
      result the embedding cannot compute are parameters: the number
      parser behind [pd.to_numeric], the isolation forest, the clock, the
      file readers and writer, and the outcome of the rendering, text
      generation and SQL collaborators.
    - The plan of the charts and the SQL script of [nodes.py], the
      text-to-SQL agent of [backend/agents/text_to_sql_agent.py] and the
      analysis records written by [backend/main.py] are embedded after
      the examples; there the plotter, the language model and the ids of
      the database are parameters. *)

From Stdlib Require Import String Ascii Bool Arith ZArith QArith Qround Qpower.
From Stdlib Require Import Reals Qreals Lra Lia Lqa List.
Import ListNotations.

Set Implicit Arguments.
Set Warnings "-register-all".

Local Open Scope string_scope.
Local Open Scope list_scope.

(* ================================================================== *)
(** * Python strings *)
(* ================================================================== *)

Module Py.

(** [str.isspace] on one ASCII character: tab, line feed, vertical tab,
    form feed, carriage return, the four separators 0x1c-0x1f and space. *)
Definition isspace (c : ascii) : bool :=
  let n := nat_of_ascii c in
  ((9 <=? n)%nat && (n <=? 13)%nat) || ((28 <=? n)%nat && (n <=? 32)%nat).

Fixpoint lstrip (s : string) : string :=
  match s with
  | EmptyString => EmptyString
  | String c s' => if isspace c then lstrip s' else s
  end.

Fixpoint rstrip (s : string) : string :=
  match s with
  | EmptyString => EmptyString
  | String c s' =>
      match rstrip s' with
      | EmptyString => if isspace c then EmptyString else String c EmptyString
      | r => String c r
      end
  end.

(** [s.strip()] *)
Definition strip (s : string) : string := lstrip (rstrip s).

Definition lower_char (c : ascii) : ascii :=
  let n := nat_of_ascii c in
  if ((65 <=? n)%nat && (n <=? 90)%nat)%bool then ascii_of_nat (n + 32) else c.

(** [s.lower()] *)
Fixpoint lower (s : string) : string :=
  match s with
  | EmptyString => EmptyString
  | String c s' => String (lower_char c) (lower s')
  end.

Definition upper_char (c : ascii) : ascii :=
  let n := nat_of_ascii c in
  if ((97 <=? n)%nat && (n <=? 122)%nat)%bool then ascii_of_nat (n - 32) else c.

(** [s.endswith(suffix)] *)
Fixpoint endswith (s suffix : string) : bool :=
  if String.eqb s suffix then true
  else match s with
       | EmptyString => false
       | String _ s' => endswith s' suffix
       end.

(** [s.endswith((a, b, ...))]: a tuple of suffixes. *)
Definition endswith_any (s : string) (suffixes : list string) : bool :=
  existsb (endswith s) suffixes.

(** [x in xs] for a list of strings. *)
Definition str_in (x : string) (xs : list string) : bool :=
  existsb (String.eqb x) xs.

(** The exception monad: a computation returns a value or raises. *)
Inductive result (A : Type) : Type :=
| Ok (a : A)
| Raise (msg : string).
Arguments Ok {A} a.
Arguments Raise {A} msg.

Definition bind {A B} (m : result A) (f : A -> result B) : result B :=
  match m with
  | Ok a => f a
  | Raise e => Raise e
  end.

Fixpoint mapM {A B} (f : A -> result B) (l : list A) : result (list B) :=
  match l with
  | [] => Ok []
  | x :: t =>
      bind (f x) (fun y => bind (mapM f t) (fun ys => Ok (y :: ys)))
  end.

(** A Python dict with string keys: insertion ordered, [d[k] = v]
    overwrites in place when the key is present and appends otherwise. *)
Definition dict (V : Type) := list (string * V).

Fixpoint dict_set {V} (d : dict V) (k : string) (v : V) : dict V :=
  match d with
  | [] => [(k, v)]
  | (k', v') :: t =>
      if String.eqb k' k then (k', v) :: t else (k', v') :: dict_set t k v
  end.

Fixpoint dict_get {V} (d : dict V) (k : string) : option V :=
  match d with
  | [] => None
  | (k', v') :: t => if String.eqb k' k then Some v' else dict_get t k
  end.

End Py.

Notation "x <- m ;; k" := (Py.bind m (fun x => k))
  (at level 61, m at next level, right associativity).

(** [a + b] on two strings. *)
Infix "+++" := String.append (right associativity, at level 60).

(* ================================================================== *)
(** * Cells, columns and data frames *)
(* ================================================================== *)

Inductive DType : Type := Object | Float64 | Int64 | BoolT.

Definition DType_eqb (a b : DType) : bool :=
  match a, b with
  | Object, Object | Float64, Float64 | Int64, Int64 | BoolT, BoolT => true
  | _, _ => false
  end.

(** [str(dtype)] *)
Definition dtype_name (d : DType) : string :=
  match d with
  | Object => "object"
  | Float64 => "float64"
  | Int64 => "int64"
  | BoolT => "bool"
  end.

Inductive Cell : Type :=
| NA                    (* NaN or None *)
| Num (q : Q)
| Str (s : string)
| Boolean (b : bool).

Definition isnull (c : Cell) : bool :=
  match c with NA => true | _ => false end.

Definition notna (c : Cell) : bool := negb (isnull c).

(** Equality of two cells as [duplicated] sees it: nulls are equal to one
    another, numbers are compared by value. *)
Definition cell_eqb (a b : Cell) : bool :=
  match a, b with
  | NA, NA => true
  | Num x, Num y => Qeq_bool x y
  | Str s, Str t => String.eqb s t
  | Boolean x, Boolean y => Bool.eqb x y
  | _, _ => false
  end.

Fixpoint row_eqb (r1 r2 : list Cell) : bool :=
  match r1, r2 with
  | [], [] => true
  | a :: r1', b :: r2' => cell_eqb a b && row_eqb r1' r2'
  | _, _ => false
  end.

Record DataFrame : Type := mkDF {
  df_columns : list (string * DType);
  df_rows : list (Z * list Cell)
}.

Definition nrows (df : DataFrame) : nat := length (df_rows df).
Definition ncols (df : DataFrame) : nat := length (df_columns df).

(** [df.shape] *)
Definition shape (df : DataFrame) : Z * Z :=
  (Z.of_nat (nrows df), Z.of_nat (ncols df)).

(** [df.index.tolist()] *)
Definition index (df : DataFrame) : list Z := map fst (df_rows df).

Definition column_names (df : DataFrame) : list string :=
  map fst (df_columns df).

(** The cells of the column at position [j]. *)
Definition column (j : nat) (df : DataFrame) : list Cell :=
  map (fun r => nth j (snd r) NA) (df_rows df).

Definition dtype_at (j : nat) (df : DataFrame) : DType :=
  nth j (map snd (df_columns df)) Object.

Definition name_at (j : nat) (df : DataFrame) : string :=
  nth j (column_names df) EmptyString.

(** Position of the column called [name]; [name in df] is [Some _]. *)
Fixpoint find_name (name : string) (names : list string) : option nat :=
  match names with
  | [] => None
  | n :: t => if String.eqb n name then Some O
              else option_map S (find_name name t)
  end.

Definition col_pos (name : string) (df : DataFrame) : option nat :=
  find_name name (column_names df).

Fixpoint set_nth {A} (j : nat) (v : A) (l : list A) : list A :=
  match l, j with
  | [], _ => []
  | _ :: t, O => v :: t
  | x :: t, S j' => x :: set_nth j' v t
  end.

Fixpoint zip_with {A B C} (f : A -> B -> C) (l : list A) (m : list B) : list C :=
  match l, m with
  | a :: l', b :: m' => f a b :: zip_with f l' m'
  | _, _ => []
  end.

(** [df[col] = series]: the column at position [j] gets new cells and a
    new dtype. *)
Definition set_column (j : nat) (dt : DType) (vals : list Cell)
  (df : DataFrame) : DataFrame :=
  {| df_columns :=
       match nth_error (df_columns df) j with
       | Some (n, _) => set_nth j (n, dt) (df_columns df)
       | None => df_columns df
       end;
     df_rows :=
       zip_with (fun r v => (fst r, set_nth j v (snd r))) (df_rows df) vals |}.

(** [df[mask]]: the rows whose mask entry is true. *)
Fixpoint select {A} (mask : list bool) (l : list A) : list A :=
  match mask, l with
  | b :: mask', x :: l' => if b then x :: select mask' l' else select mask' l'
  | _, _ => []
  end.

Definition count_true (mask : list bool) : nat :=
  length (filter (fun b => b) mask).

Definition df_select (mask : list bool) (df : DataFrame) : DataFrame :=
  {| df_columns := df_columns df; df_rows := select mask (df_rows df) |}.

(* ================================================================== *)
(** * Binary64 arithmetic *)
(* ================================================================== *)

(** The float operations of Python round their exact result to the
    nearest binary64 number, ties to the even significand.  A number is
    kept as the rational it denotes.  The subnormal numbers are there;
    the exponent is not bounded above, so that the overflow to an
    infinity is not modelled: the statements about quartiles and fences
    take columns whose numbers stay below [2 ^ 1021], where no
    operation overflows. *)

Definition pow2 (e : Z) : Q := (2 ^ e)%Q.

(** The nearest integer, ties to even. *)
Definition round_half_even (x : Q) : Z :=
  let f := Qfloor x in
  let r := (x - inject_Z f)%Q in
  if Qle_bool (1 # 2) r
  then (if Qle_bool r (1 # 2)
        then (if Z.even f then f else (f + 1)%Z)
        else (f + 1)%Z)
  else f.

(** [floor (log2 x)] for a positive [x]. *)
Definition ilog2 (x : Q) : Z :=
  let a := (Z.log2 (Qnum x) - Z.log2 (Zpos (Qden x)))%Z in
  if Qle_bool (pow2 a) x then a else (a - 1)%Z.

(** The exponent of the last place: 53 significant bits, and the
    spacing [2 ^ -1074] of the subnormal numbers at the bottom. *)
Definition b64_exponent (x : Q) : Z := Z.max (ilog2 x - 52) (-1074).

Definition b64_pos (x : Q) : Q :=
  let e := b64_exponent x in
  (inject_Z (round_half_even (x / pow2 e)) * pow2 e)%Q.

(** Rounding to binary64. *)
Definition b64 (x : Q) : Q :=
  Qred (if Qle_bool 0 x then b64_pos x else (- b64_pos (- x))%Q).

(** [x + y], [x - y] and [x * y] on floats. *)
Definition fadd (x y : Q) : Q := b64 (x + y).
Definition fsub (x y : Q) : Q := b64 (x - y).
Definition fmul (x y : Q) : Q := b64 (x * y).

(* ================================================================== *)
(** * Order statistics on a column *)
(* ================================================================== *)

Fixpoint insert_sorted {A} (leb : A -> A -> bool) (x : A) (l : list A) : list A :=
  match l with
  | [] => [x]
  | y :: t => if leb x y then x :: l else y :: insert_sorted leb x t
  end.

Definition sort_by {A} (leb : A -> A -> bool) (l : list A) : list A :=
  fold_right (insert_sorted leb) [] l.

(** The non-null numbers of a column ([skipna=True]); a boolean counts as
    0 or 1, a text is not a number. *)
Fixpoint numbers (cells : list Cell) : list Q :=
  match cells with
  | [] => []
  | Num q :: t => q :: numbers t
  | Boolean b :: t => (if b then 1 else 0)%Q :: numbers t
  | _ :: t => numbers t
  end.

Definition sorted_numbers (cells : list Cell) : list Q :=
  sort_by Qle_bool (numbers cells).

(** [series.median()]: NaN on a column without a non-null value. *)
Definition median (cells : list Cell) : Cell :=
  let xs := sorted_numbers cells in
  let n := length xs in
  match n with
  | O => NA
  | _ =>
      if Nat.even n
      then Num ((nth (n / 2 - 1) xs 0 + nth (n / 2) xs 0) / 2)%Q
      else Num (nth (n / 2) xs 0%Q)
  end.

(** numpy's [_lerp], the interpolation of [np.percentile]:
    [a + (b - a) * t], and [b - (b - a) * (1 - t)] from [t = 0.5] on,
    every operation rounded. *)
Definition lerp (a b t : Q) : Q :=
  let diff_b_a := fsub b a in
  if Qle_bool (1 # 2) t
  then fsub b (fmul diff_b_a (fsub 1 t))
  else fadd a (fmul diff_b_a t).

(** [series.quantile(q)] with linear interpolation: the position
    [q * (n - 1)] in the sorted non-null values, between its two
    neighbours.  [None] is NaN (no non-null value).  The position and
    its fractional part are exact in binary64 for the two quartiles the
    code asks for. *)
Definition quantile_sorted (q : Q) (xs : list Q) : option Q :=
  match xs with
  | [] => None
  | _ =>
      let pos := (q * inject_Z (Z.of_nat (length xs - 1)))%Q in
      let lo := Z.to_nat (Qfloor pos) in
      let frac := (pos - inject_Z (Qfloor pos))%Q in
      let a := nth lo xs 0%Q in
      let b := nth (Nat.min (S lo) (length xs - 1)) xs 0%Q in
      Some (lerp a b frac)
  end.

Definition quantile (q : Q) (cells : list Cell) : option Q :=
  quantile_sorted q (sorted_numbers cells).

(** A total preorder on cells, used to sort the modes: numbers by value,
    texts by code point, false before true.  pandas does not sort values
    of different kinds; the order between kinds is fixed here as
    number, boolean, text. *)
Definition cell_leb (a b : Cell) : bool :=
  match a, b with
  | NA, _ => true
  | _, NA => false
  | Num x, Num y => Qle_bool x y
  | Num _, _ => true
  | Boolean _, Num _ => false
  | Boolean x, Boolean y => implb x y
  | Boolean _, Str _ => true
  | Str s, Str t => String.leb s t
  | Str _, _ => false
  end.

Definition count_eq (c : Cell) (cells : list Cell) : nat :=
  length (filter (cell_eqb c) cells).

Fixpoint dedup_cells (cells : list Cell) : list Cell :=
  match cells with
  | [] => []
  | c :: t => c :: filter (fun d => negb (cell_eqb c d)) (dedup_cells t)
  end.

(** [series.mode()]: the most frequent non-null values, sorted. *)
Definition mode (cells : list Cell) : list Cell :=
  let present := filter notna cells in
  let best := fold_right (fun c m => Nat.max (count_eq c present) m) O present in
  sort_by cell_leb
    (filter (fun c => Nat.eqb (count_eq c present) best) (dedup_cells present)).

(** [series.fillna(value)] *)
Definition fillna (value : Cell) (cells : list Cell) : list Cell :=
  map (fun c => if isnull c then value else c) cells.

(* ================================================================== *)
(** * The Cleaner: [clean_data_node] *)
(* ================================================================== *)

(** [df.dropna(how='all')] *)
Definition dropna_all (df : DataFrame) : DataFrame :=
  {| df_columns := df_columns df;
     df_rows := filter (fun r => negb (forallb isnull (snd r))) (df_rows df) |}.

(** [lambda x: x.strip() if isinstance(x, str) else x] *)
Definition strip_cell (c : Cell) : Cell :=
  match c with
  | Str s => Str (Py.strip s)
  | _ => c
  end.

(** [df.applymap(f)] *)
Definition applymap (f : Cell -> Cell) (df : DataFrame) : DataFrame :=
  {| df_columns := df_columns df;
     df_rows := map (fun r => (fst r, map f (snd r))) (df_rows df) |}.

(** [df.duplicated()] keeps the first occurrence: a row is marked when an
    earlier row is equal to it. *)
Fixpoint duplicated_from (seen rows : list (list Cell)) : list bool :=
  match rows with
  | [] => []
  | r :: t => existsb (row_eqb r) seen :: duplicated_from (r :: seen) t
  end.

Definition duplicated (df : DataFrame) : list bool :=
  duplicated_from [] (map snd (df_rows df)).

(** [df.drop_duplicates()] is [df[~df.duplicated()]]. *)
Definition drop_duplicates (df : DataFrame) : DataFrame :=
  df_select (map negb (duplicated df)) df.

(** [df.duplicated(keep=False)]: every row that has an equal row
    elsewhere in the frame. *)
Definition duplicated_all (df : DataFrame) : list bool :=
  let rows := map snd (df_rows df) in
  map (fun r => (2 <=? length (filter (row_eqb r) rows))%nat) rows.

(** [series.isnull().sum()] *)
Definition null_count (cells : list Cell) : Z :=
  Z.of_nat (length (filter isnull cells)).

(** [df.isnull().sum()]: one count per column, in column order. *)
Definition isnull_sum (df : DataFrame) : list (string * Z) :=
  map (fun j => (name_at j df, null_count (column j df))) (seq 0 (ncols df)).

(** [series.to_dict()] *)
Definition to_dict {V} (s : list (string * V)) : Py.dict V :=
  fold_left (fun d kv => Py.dict_set d (fst kv) (snd kv)) s [].

(** The report as a record.  [convert_numpy] only changes the numpy
    integers of this report into native ones, which the record does not
    tell apart. *)
Record CleaningReport : Type := mkCleaningReport {
  original_shape : Z * Z;
  missing_values : Py.dict Z;
  duplicates : Z;
  data_types : Py.dict string;
  cleaned_shape : Z * Z;
  rows_removed : Z;
  cleaned_file_path : string
}.

Definition is_float_or_int (d : DType) : bool :=
  match d with Float64 | Int64 => true | _ => false end.

(** One turn of the imputation loop, on the column at position [j]. *)
Definition impute_column (df : DataFrame) (j : nat) : DataFrame :=
  let col := column j df in
  if is_float_or_int (dtype_at j df) then
    set_column j (dtype_at j df) (fillna (median col) col) df
  else
    let mode_val := match mode col with
                    | m :: _ => m
                    | [] => Str "Unknown"
                    end in
    set_column j (dtype_at j df) (fillna mode_val col) df.

Definition impute (df : DataFrame) : DataFrame :=
  fold_left impute_column (seq 0 (ncols df)) df.

Section Cleaner.

(** The parser behind [pd.to_numeric] on one text: [None] when the text
    is not a number. *)
Variable parse_number : string -> option Q.

(** [pd.to_numeric(.., errors='coerce')] on one cell. *)
Definition to_numeric_cell (c : Cell) : Cell :=
  match c with
  | NA => NA
  | Num q => Num q
  | Boolean b => Num (if b then 1 else 0)%Q
  | Str s => match parse_number s with
             | Some q => Num q
             | None => NA
             end
  end.

Definition to_numeric (cells : list Cell) : list Cell :=
  map to_numeric_cell cells.

(** One turn of the coercion loop.  The replaced column is given dtype
    float64; pandas gives int64 when every cell parses to an integer, and
    the code below treats the two dtypes alike.  With [errors='coerce']
    the call does not raise, so the [try] / [except: pass] around it has
    no effect. *)
Definition coerce_column (df : DataFrame) (j : nat) : DataFrame :=
  if DType_eqb (dtype_at j df) Object then
    let numeric_series := to_numeric (column j df) in
    if (0 <? length (filter notna numeric_series))%nat
    then set_column j Float64 numeric_series df
    else df
  else df.

Definition coerce_numeric (df : DataFrame) : DataFrame :=
  fold_left coerce_column (seq 0 (ncols df)) df.

(** Steps 1 to 3: the frame the report is taken from. *)
Definition prepare (raw : DataFrame) : DataFrame :=
  coerce_numeric (applymap strip_cell (dropna_all raw)).

(** Steps 4 and 5: the cleaned frame. *)
Definition clean_frame (raw : DataFrame) : DataFrame :=
  impute (drop_duplicates (prepare raw)).

Definition cleaning_report_of (raw : DataFrame) (cleaned_filename : string)
  : CleaningReport :=
  let df := prepare raw in
  let df_cleaned := impute (drop_duplicates df) in
  {| original_shape := shape df;
     missing_values := to_dict (isnull_sum df);
     duplicates := Z.of_nat (count_true (duplicated df));
     data_types :=
       to_dict (map (fun c => (fst c, dtype_name (snd c))) (df_columns df));
     cleaned_shape := shape df_cleaned;
     rows_removed := (fst (shape df) - fst (shape df_cleaned))%Z;
     cleaned_file_path := cleaned_filename |}.

End Cleaner.

(* ================================================================== *)
(** * The Anomaly Detector: [detect_anomalies_node] *)
(* ================================================================== *)

Definition Qlt_bool (x y : Q) : bool := negb (Qle_bool y x).

(** The number a cell of a numeric column holds, if any. *)
Definition cell_value (c : Cell) : option Q :=
  match c with
  | Num q => Some q
  | Boolean b => Some (if b then 1 else 0)%Q
  | _ => None
  end.

(** The message of the [TypeError] of a comparison [op]. *)
Definition type_error (op : string) : string :=
  "'" +++ op +++ "' not supported between instances of 'str' and 'int'".

(** [a > b] on two cells, as the element-wise comparison of pandas does
    it: a null compares false, two numbers by value, two texts by code
    point, and a text against a number raises [TypeError]. *)
Definition cell_compare (op : string) (a b : Cell) : Py.result bool :=
  match a, b with
  | NA, _ | _, NA => Py.Ok false
  | Str s, Str t => Py.Ok (String.ltb t s)
  | Str _, _ | _, Str _ => Py.Raise (type_error op)
  | _, _ =>
      match cell_value a, cell_value b with
      | Some x, Some y => Py.Ok (Qlt_bool y x)
      | _, _ => Py.Ok false
      end
  end.

Definition cell_gt (a b : Cell) : Py.result bool := cell_compare ">" a b.

(** [a < b] is [b > a] with the message of [<]. *)
Definition cell_lt (a b : Cell) : Py.result bool := cell_compare "<" b a.

(** [series > scalar], [series < scalar], [series > series] *)
Definition series_gt_scalar (s : list Cell) (v : Q) : Py.result (list bool) :=
  Py.mapM (fun c => cell_gt c (Num v)) s.

Definition series_lt_scalar (s : list Cell) (v : Q) : Py.result (list bool) :=
  Py.mapM (fun c => cell_lt c (Num v)) s.

Definition series_gt (s t : list Cell) : Py.result (list bool) :=
  Py.mapM (fun p => cell_gt (fst p) (snd p)) (combine s t).

(** [mask1 | mask2] *)
Definition mask_or (m1 m2 : list bool) : list bool := zip_with orb m1 m2.

(** [df.select_dtypes(include=[np.number]).columns], as positions. *)
Definition numeric_cols (df : DataFrame) : list nat :=
  filter (fun j => is_float_or_int (dtype_at j df)) (seq 0 (ncols df)).

(** [round(x, 2)], ties to even. *)
Definition round2 (x : Q) : Q :=
  let y := (x * 100)%Q in
  let f := Qfloor y in
  let r := (y - inject_Z f)%Q in
  let n := if Qlt_bool r (1 # 2) then f
           else if Qlt_bool (1 # 2) r then (f + 1)%Z
           else if Z.even f then f else (f + 1)%Z in
  (inject_Z n / 100)%Q.

(** The sentinel test of the invalid-value check:
    [isinstance(x, str)] and [x.strip().lower()] is one of the four
    texts of the list: nan, null, the empty text, none. *)
Definition is_sentinel (x : Cell) : bool :=
  match x with
  | Str s => Py.str_in (Py.lower (Py.strip s)) ["nan"; "null"; EmptyString; "none"]
  | _ => false
  end.

(** The loop of the invalid-value check. *)
Definition invalid_values_step (df : DataFrame) (acc : Py.dict (list Cell))
  (j : nat) : Py.dict (list Cell) :=
  let invalid_mask := map is_sentinel (column j df) in
  if (0 <? count_true invalid_mask)%nat
  then Py.dict_set acc (name_at j df) (select invalid_mask (column j df))
  else acc.

Definition invalid_values_of (df : DataFrame) : Py.dict (list Cell) :=
  fold_left (invalid_values_step df) (seq 0 (ncols df)) [].

(** The fences [Q1 - k * IQR] and [Q3 + k * IQR] of a column, in float
    arithmetic; the code uses [k = 1.5]. *)
Definition iqr_fences (k : Q) (cells : list Cell) : option (Q * Q) :=
  match quantile (1 # 4) cells, quantile (3 # 4) cells with
  | Some Q1, Some Q3 =>
      let IQR := fsub Q3 Q1 in
      Some (fsub Q1 (fmul k IQR), fadd Q3 (fmul k IQR))
  | _, _ => None
  end.

(** [(df[col] < Q1 - k * IQR) | (df[col] > Q3 + k * IQR)] on one cell:
    false on a null, and false everywhere when the quartiles are NaN. *)
Definition outlier_test (fences : option (Q * Q)) (c : Cell) : bool :=
  match fences, cell_value c with
  | Some (lo, hi), Some v => Qlt_bool v lo || Qlt_bool hi v
  | _, _ => false
  end.

Definition outlier_mask (k : Q) (cells : list Cell) : list bool :=
  map (outlier_test (iqr_fences k cells)) cells.

Record OutlierInfo : Type := mkOutlierInfo {
  out_count : Z;
  out_percentage : Q;
  out_values : list Cell
}.

Definition outliers_step (df : DataFrame) (acc : Py.dict OutlierInfo)
  (j : nat) : Py.dict OutlierInfo :=
  let mask := outlier_mask (3 # 2) (column j df) in
  let outliers := select mask (column j df) in
  if (0 <? length outliers)%nat
  then Py.dict_set acc (name_at j df)
         {| out_count := Z.of_nat (length outliers);
            out_percentage :=
              round2 (inject_Z (Z.of_nat (length outliers))
                      / inject_Z (Z.of_nat (nrows df)) * 100)%Q;
            out_values := firstn 10 outliers |}
  else acc.

Definition outliers_of (df : DataFrame) : Py.dict OutlierInfo :=
  fold_left (outliers_step df) (numeric_cols df) [].

(** [df[df[col] < 0]] for the numeric columns. *)
Definition negative_step (df : DataFrame) (acc : Py.dict (list Z)) (j : nat)
  : Py.dict (list Z) :=
  let mask := map (fun c => match cell_value c with
                            | Some v => Qlt_bool v 0
                            | None => false
                            end) (column j df) in
  let neg := select mask (index df) in
  if (0 <? length neg)%nat
  then Py.dict_set acc ("negative_" +++ name_at j df) neg
  else acc.

(** The [anomalies] dict as a record, after [convert_numpy] (which
    changes the representation of its numbers only). *)
Record AnomalyReport : Type := mkAnomalyReport {
  an_outliers : Py.dict OutlierInfo;
  an_invalid_values : Py.dict (list Cell);
  an_missing_values : Py.dict Z;
  an_domain_anomalies : Py.dict (list Z);
  an_duplicates : Z;
  an_rows_with_duplicates : list Z;
  an_anomaly_indices : list Z;
  an_summary : string
}.

Section Detector.

(** [IsolationForest(contamination=0.1, random_state=42).fit_predict(X)
    == -1] on the matrix of the numeric columns; it may raise. *)
Variable isolation_forest : list (list Q) -> Py.result (list bool).

(** [pd.Timestamp.now().year] *)
Variable current_year : Z.

(** The age rule: [df[(df["age"] < 18) | (df["age"] > 70)].index.tolist()
    if "age" in df else []]. *)
Definition invalid_age_of (df : DataFrame) : Py.result (list Z) :=
  match col_pos "age" df with
  | Some a =>
      lt18 <- series_lt_scalar (column a df) 18 ;;
      gt70 <- series_gt_scalar (column a df) 70 ;;
      Py.Ok (select (mask_or lt18 gt70) (index df))
  | None => Py.Ok []
  end.

Definition exp_gt_age_rule (df : DataFrame) (d : Py.dict (list Z))
  : Py.result (Py.dict (list Z)) :=
  match col_pos "age" df, col_pos "years_experience" df with
  | Some a, Some e =>
      mask <- series_gt (column e df) (column a df) ;;
      Py.Ok (Py.dict_set d "exp_gt_age" (select mask (index df)))
  | _, _ => Py.Ok d
  end.

Definition future_year_rule (df : DataFrame) (d : Py.dict (list Z))
  : Py.result (Py.dict (list Z)) :=
  match col_pos "last_promotion_year" df with
  | Some p =>
      mask <- series_gt_scalar (column p df) (inject_Z current_year) ;;
      Py.Ok (Py.dict_set d "future_year" (select mask (index df)))
  | None => Py.Ok d
  end.

Definition domain_rules (df : DataFrame) : Py.result (Py.dict (list Z)) :=
  invalid_age <- invalid_age_of df ;;
  d1 <- exp_gt_age_rule df [("invalid_age", invalid_age)] ;;
  d2 <- future_year_rule df d1 ;;
  Py.Ok (fold_left (negative_step df) (numeric_cols df) d2).

(** [df[numeric_cols].fillna(0)] as a matrix of numbers, row by row. *)
Definition numeric_matrix (df : DataFrame) : list (list Q) :=
  map (fun r => map (fun j => match cell_value (nth j (snd r) NA) with
                              | Some v => v
                              | None => 0%Q
                              end) (numeric_cols df))
      (df_rows df).

Definition multivariate (df : DataFrame) : Py.result (list Z) :=
  if (2 <=? length (numeric_cols df))%nat then
    anomaly_mask <- isolation_forest (numeric_matrix df) ;;
    Py.Ok (select anomaly_mask (index df))
  else Py.Ok [].

(** The body of the [try] block, on the private copy of the cleaned
    frame: the checks run one after the other and the first exception
    leaves the block. *)
Definition detect_anomalies (df : DataFrame) : Py.result AnomalyReport :=
  let missing := isnull_sum df in
  let missing_values := to_dict (filter (fun kv => (0 <? snd kv)%Z) missing) in
  let dup_mask := duplicated_all df in
  let n_duplicates := Z.of_nat (count_true dup_mask) in
  let rows_with_duplicates := select dup_mask (index df) in
  let invalid_values := invalid_values_of df in
  let outliers := outliers_of df in
  domain_issues <- domain_rules df ;;
  anomaly_indices <- multivariate df ;;
  Py.Ok {| an_outliers := outliers;
           an_invalid_values := invalid_values;
           an_missing_values := missing_values;
           an_domain_anomalies := domain_issues;
           an_duplicates := n_duplicates;
           an_rows_with_duplicates := rows_with_duplicates;
           an_anomaly_indices := anomaly_indices;
           an_summary := "Advanced anomaly detection completed." |}.

End Detector.

(* ================================================================== *)
(** * Report values and [convert_numpy] *)
(* ================================================================== *)

(** A float of a report: NaN or a value of the float type [F]. *)
Inductive pyfloat (F : Type) : Type :=
| FNaN
| FVal (x : F).
Arguments FNaN {F}.
Arguments FVal {F} x.

(** The values a report is made of.  [PNpInt] and [PNpFloat] are the
    numpy scalar types listed in [convert_numpy], [PNdarray] is a numpy
    array of floats, and [PNpOther] is a numpy scalar of a type that
    [convert_numpy] does not list ([np.bool_], [np.str_],
    [np.datetime64], [np.longdouble], ...), kept by its text. *)
Inductive PyObj (F : Type) : Type :=
| PNone
| PBool (b : bool)
| PInt (n : Z)
| PFloat (x : pyfloat F)
| PStr (s : string)
| PNpInt (n : Z)
| PNpFloat (x : pyfloat F)
| PNdarray (a : list (pyfloat F))
| PNpOther (repr : string)
| PDict (d : list (string * PyObj F))
| PList (l : list (PyObj F))
| PTuple (l : list (PyObj F)).
Arguments PNone {F}.
Arguments PBool {F} b.
Arguments PInt {F} n.
Arguments PFloat {F} x.
Arguments PStr {F} s.
Arguments PNpInt {F} n.
Arguments PNpFloat {F} x.
Arguments PNdarray {F} a.
Arguments PNpOther {F} repr.
Arguments PDict {F} d.
Arguments PList {F} l.
Arguments PTuple {F} l.

(** [convert_numpy]: numpy scalars of the listed types become native
    numbers, arrays become lists, containers are rebuilt, anything else
    is returned as it is. *)
Fixpoint convert_numpy {F} (obj : PyObj F) : PyObj F :=
  match obj with
  | PNpInt n => PInt n
  | PNpFloat x => PFloat x
  | PNdarray a => PList (map PFloat a)
  | PDict d => PDict (map (fun kv => (fst kv, convert_numpy (snd kv))) d)
  | PList l => PList (map convert_numpy l)
  | PTuple l => PTuple (map convert_numpy l)
  | _ => obj
  end.

(* ================================================================== *)
(** * The Statistics Summarizer: [generate_statistics_node] *)
(* ================================================================== *)

(** [df.select_dtypes(include=['object']).columns], as positions. *)
Definition categorical_cols (df : DataFrame) : list nat :=
  filter (fun j => DType_eqb (dtype_at j df) Object) (seq 0 (ncols df)).

(** [series.nunique()]: the distinct non-null values. *)
Definition nunique (cells : list Cell) : Z :=
  Z.of_nat (length (dedup_cells (filter notna cells))).

Section Statistics.

Variable F : Type.

(** [df[numeric_cols].describe().to_dict()] *)
Variable describe_to_dict : list string -> list (list Cell) -> PyObj F.

(** [df[numeric_cols].corr()]: the matrix of the given columns, entry
    [i][j] for the columns at positions [i] and [j] of the list. *)
Variable corr : list (list Cell) -> list (list (pyfloat F)).

(** [series.value_counts().head(5).to_dict()] *)
Variable top_values : list Cell -> PyObj F.

(** [corr_matrix.to_dict()]: column name, then row name, then value. *)
Definition matrix_to_dict (names : list string)
  (m : list (list (pyfloat F))) : PyObj F :=
  PDict (to_dict
    (map (fun j =>
       (nth j names EmptyString,
        PDict (to_dict
          (map (fun i => (nth i names EmptyString,
                          PNpFloat (nth j (nth i m []) FNaN)))
               (seq 0 (length names))))))
     (seq 0 (length names)))).

Definition correlations_of (df : DataFrame) : PyObj F :=
  let cols := numeric_cols df in
  if (1 <? length cols)%nat
  then matrix_to_dict (map (fun j => name_at j df) cols)
         (corr (map (fun j => column j df) cols))
  else PDict [].

Definition numeric_summary_of (df : DataFrame) : PyObj F :=
  let cols := numeric_cols df in
  if (0 <? length cols)%nat
  then describe_to_dict (map (fun j => name_at j df) cols)
         (map (fun j => column j df) cols)
  else PDict [].

Definition categorical_summary_of (df : DataFrame) : PyObj F :=
  PDict (fold_left
    (fun d j => Py.dict_set d (name_at j df)
       (PDict [("unique_values", PInt (nunique (column j df)));
               ("top_values", top_values (column j df))]))
    (categorical_cols df) []).

(** The [statistics] dict before conversion. *)
Definition statistics_of (df : DataFrame) : PyObj F :=
  PDict [("shape", PTuple [PInt (fst (shape df)); PInt (snd (shape df))]);
         ("columns", PList (map PStr (column_names df)));
         ("numeric_summary", numeric_summary_of df);
         ("categorical_summary", categorical_summary_of df);
         ("correlations", correlations_of df)].

(** What the node stores in [state["statistics"]]. *)
Definition generate_statistics (df : DataFrame) : PyObj F :=
  convert_numpy (statistics_of df).

End Statistics.

(* ================================================================== *)
(** * The state of a run, the nodes and the graph *)
(* ================================================================== *)

(** [needle in s] *)
Fixpoint contains (s needle : string) : bool :=
  if String.prefix needle s then true
  else match s with
       | EmptyString => false
       | String _ s' => contains s' needle
       end.

(** [os.path.basename] on a path with [/]: what follows the last slash. *)
Fixpoint basename (p : string) : string :=
  match p with
  | EmptyString => EmptyString
  | String c p' =>
      if contains p' "/" then basename p'
      else if Ascii.eqb c "/" then p' else p
  end.

(** [p[:p.rfind('/') + 1]]: the path up to its last slash, the slash
    included. *)
Fixpoint path_head (p : string) : string :=
  match p with
  | EmptyString => EmptyString
  | String c p' =>
      if contains p' "/" then String c (path_head p')
      else if Ascii.eqb c "/" then String c EmptyString
      else EmptyString
  end.

Fixpoint all_slashes (s : string) : bool :=
  match s with
  | EmptyString => true
  | String c s' => Ascii.eqb c "/" && all_slashes s'
  end.

(** [s.rstrip('/')] *)
Fixpoint rstrip_slashes (s : string) : string :=
  match s with
  | EmptyString => EmptyString
  | String c s' =>
      match rstrip_slashes s' with
      | EmptyString => if Ascii.eqb c "/" then EmptyString
                       else String c EmptyString
      | r => String c r
      end
  end.

(** [os.path.dirname]: the head without its trailing slashes, unless it
    is made of slashes only. *)
Definition dirname (p : string) : string :=
  let head := path_head p in
  if all_slashes head then head else rstrip_slashes head.

(** [os.path.join(d, f)] for a relative [f]. *)
Definition path_join (d f : string) : string :=
  match d with
  | EmptyString => f
  | _ => if Py.endswith d "/" then d +++ f else d +++ "/" +++ f
  end.

(** ["; ".join(l)] *)
Fixpoint join_semicolon (l : list string) : string :=
  match l with
  | [] => EmptyString
  | [x] => x
  | x :: t => x +++ "; " +++ join_semicolon t
  end.

Section Pipeline.

Variable F : Type.

(** The library functions and collaborators of a run. *)
Variable parse_number : string -> option Q.
Variable isolation_forest : list (list Q) -> Py.result (list bool).
Variable current_year : Z.
Variable describe_to_dict : list string -> list (list Cell) -> PyObj F.
Variable corr : list (list Cell) -> list (list (pyfloat F)).
Variable top_values : list Cell -> PyObj F.

(** [pd.read_csv], [pd.read_excel] and [df.to_csv] on the file system of
    the run. *)
Variable read_csv : string -> Py.result DataFrame.
Variable read_excel : string -> Py.result DataFrame.
Variable to_csv : DataFrame -> string -> Py.result unit.

(** The body of [create_visualizations_node]: the descriptors of the
    charts it wrote. *)
Variable render : DataFrame -> Z -> Py.result (list (string * string)).

(** [llm.invoke(context).content] on the context built from the three
    reports, the text of [generate_mock_insights], and the body of
    [generate_sql_node]. *)
Variable llm_invoke : CleaningReport -> PyObj F -> AnomalyReport -> Py.result string.
Variable generate_mock_insights : PyObj F -> AnomalyReport -> string.
Variable emit_sql : DataFrame -> string -> Py.result string.

(** [AgentState]: a key that is absent from the dict is [None]. *)
Record AgentState : Type := mkState {
  dataset_id : Z;
  file_path : string;
  filename : string;
  raw_data : option DataFrame;
  cleaned_data : option DataFrame;
  cleaning_report : option CleaningReport;
  statistics : option (PyObj F);
  anomalies : option AnomalyReport;
  visualizations : list (string * string);
  insights : option string;
  sql_queries : option string;
  errors : list string;
  status : string
}.

Definition set_errors (e : list string) (s : AgentState) : AgentState :=
  mkState (dataset_id s) (file_path s) (filename s) (raw_data s)
    (cleaned_data s) (cleaning_report s) (statistics s) (anomalies s)
    (visualizations s) (insights s) (sql_queries s) e (status s).

Definition set_status (t : string) (s : AgentState) : AgentState :=
  mkState (dataset_id s) (file_path s) (filename s) (raw_data s)
    (cleaned_data s) (cleaning_report s) (statistics s) (anomalies s)
    (visualizations s) (insights s) (sql_queries s) (errors s) t.

Definition set_raw_data (d : DataFrame) (s : AgentState) : AgentState :=
  mkState (dataset_id s) (file_path s) (filename s) (Some d)
    (cleaned_data s) (cleaning_report s) (statistics s) (anomalies s)
    (visualizations s) (insights s) (sql_queries s) (errors s) (status s).

Definition set_cleaned (d : DataFrame) (r : CleaningReport) (s : AgentState)
  : AgentState :=
  mkState (dataset_id s) (file_path s) (filename s) (raw_data s)
    (Some d) (Some r) (statistics s) (anomalies s)
    (visualizations s) (insights s) (sql_queries s) (errors s) (status s).

Definition set_statistics (v : PyObj F) (s : AgentState) : AgentState :=
  mkState (dataset_id s) (file_path s) (filename s) (raw_data s)
    (cleaned_data s) (cleaning_report s) (Some v) (anomalies s)
    (visualizations s) (insights s) (sql_queries s) (errors s) (status s).

Definition set_anomalies (a : AnomalyReport) (s : AgentState) : AgentState :=
  mkState (dataset_id s) (file_path s) (filename s) (raw_data s)
    (cleaned_data s) (cleaning_report s) (statistics s) (Some a)
    (visualizations s) (insights s) (sql_queries s) (errors s) (status s).

Definition set_visualizations (v : list (string * string)) (s : AgentState)
  : AgentState :=
  mkState (dataset_id s) (file_path s) (filename s) (raw_data s)
    (cleaned_data s) (cleaning_report s) (statistics s) (anomalies s)
    v (insights s) (sql_queries s) (errors s) (status s).

Definition set_insights (t : string) (s : AgentState) : AgentState :=
  mkState (dataset_id s) (file_path s) (filename s) (raw_data s)
    (cleaned_data s) (cleaning_report s) (statistics s) (anomalies s)
    (visualizations s) (Some t) (sql_queries s) (errors s) (status s).

Definition set_sql_queries (t : string) (s : AgentState) : AgentState :=
  mkState (dataset_id s) (file_path s) (filename s) (raw_data s)
    (cleaned_data s) (cleaning_report s) (statistics s) (anomalies s)
    (visualizations s) (insights s) (Some t) (errors s) (status s).

(** [state["errors"] = state.get("errors", []) + [prefix + str(e)]] *)
Definition add_error (prefix e : string) (s : AgentState) : AgentState :=
  set_errors (errors s ++ [prefix +++ e]) s.

(** [state[key]] on a key that may be absent. *)
Definition getitem {A} (key : string) (v : option A) : Py.result A :=
  match v with
  | Some a => Py.Ok a
  | None => Py.Raise ("'" +++ key +++ "'")
  end.

(** The Loader, first lines of [clean_data_node]. *)
Definition load (path : string) : Py.result DataFrame :=
  if Py.endswith path ".csv" then read_csv path else read_excel path.

Definition clean_data_node (state : AgentState) : AgentState :=
  match load (file_path state) with
  | Py.Raise e => set_status "failed" (add_error "Data cleaning error: " e state)
  | Py.Ok raw =>
      let state := set_raw_data raw state in
      let df_cleaned := clean_frame parse_number raw in
      let cleaned_filename := "cleaned_" +++ basename (file_path state) in
      let cleaned_file_path :=
        path_join (dirname (file_path state)) cleaned_filename in
      match to_csv df_cleaned cleaned_file_path with
      | Py.Raise e =>
          set_status "failed" (add_error "Data cleaning error: " e state)
      | Py.Ok _ =>
          set_status "cleaning_completed"
            (set_cleaned df_cleaned
               (cleaning_report_of parse_number raw cleaned_filename) state)
      end
  end.

Definition generate_statistics_node (state : AgentState) : AgentState :=
  match getitem "cleaned_data" (cleaned_data state) with
  | Py.Ok df =>
      set_status "statistics_completed"
        (set_statistics
           (generate_statistics describe_to_dict corr top_values df) state)
  | Py.Raise e => add_error "Statistics generation error: " e state
  end.

(** One [try] around all the checks, one [except] for the node. *)
Definition detect_anomalies_node (state : AgentState) : AgentState :=
  match (df <- getitem "cleaned_data" (cleaned_data state) ;;
         detect_anomalies isolation_forest current_year df) with
  | Py.Ok anomalies =>
      set_status "anomaly_detection_completed" (set_anomalies anomalies state)
  | Py.Raise e => add_error "Anomaly detection error: " e state
  end.

Definition create_visualizations_node (state : AgentState) : AgentState :=
  match (df <- getitem "cleaned_data" (cleaned_data state) ;;
         render df (dataset_id state)) with
  | Py.Ok v =>
      set_status "visualizations_completed"
        (set_visualizations (visualizations state ++ v) state)
  | Py.Raise e => add_error "Visualization error: " e state
  end.

(** The test of the [except] clause of [generate_insights_node]. *)
Definition is_quota_error (error_msg : string) : bool :=
  contains error_msg "402" || contains error_msg "Insufficient Balance"
  || contains error_msg "insufficient_quota" || contains error_msg "404"
  || contains error_msg "Not Found".

(** The keys are read before the call, so when the fallback is taken
    [statistics] and [anomalies] are present: the message of a missing
    key is the key in quotes, which is not a quota message. *)
Definition generate_insights_node (state : AgentState) : AgentState :=
  match (stats <- getitem "statistics" (statistics state) ;;
         anomalies <- getitem "anomalies" (anomalies state) ;;
         report <- getitem "cleaning_report" (cleaning_report state) ;;
         llm_invoke report stats anomalies) with
  | Py.Ok text => set_status "insights_completed" (set_insights text state)
  | Py.Raise error_msg =>
      if is_quota_error error_msg then
        match statistics state, anomalies state with
        | Some stats, Some anomalies =>
            set_status "insights_completed"
              (set_insights (generate_mock_insights stats anomalies) state)
        | _, _ => add_error "Insights generation error: " error_msg state
        end
      else add_error "Insights generation error: " error_msg state
  end.

Definition generate_sql_node (state : AgentState) : AgentState :=
  match (df <- getitem "cleaned_data" (cleaned_data state) ;;
         emit_sql df (filename state)) with
  | Py.Ok q => set_status "completed" (set_sql_queries q state)
  | Py.Raise e => add_error "SQL generation error: " e state
  end.

(** One step of the graph.  A node returns the whole state; the channels
    [errors] and [visualizations] are declared with the reducer
    [operator.add] in [AgentState], so what the node returns for them is
    added to what the channel held, and every other key is overwritten. *)
Definition run_node (node : AgentState -> AgentState) (s : AgentState)
  : AgentState :=
  let s' := node s in
  set_visualizations (visualizations s ++ visualizations s')
    (set_errors (errors s ++ errors s') s').

(** [analysis_graph.invoke]: the six nodes, in the order of the edges. *)
Definition analysis_graph_invoke (initial_state : AgentState) : AgentState :=
  fold_left (fun s node => run_node node s)
    [clean_data_node; generate_statistics_node; detect_anomalies_node;
     create_visualizations_node; generate_insights_node; generate_sql_node]
    initial_state.

(** [initial_state] of [analyze_dataset]. *)
Definition initial_state (id : Z) (path name : string) : AgentState :=
  mkState id path name None None None None None [] None None [] "processing".

(** The outcome of [analyze_dataset] once the graph has run: the status
    stored in the analysis record, its error message, and the HTTP status
    of the response. *)
Record AnalysisOutcome : Type := mkOutcome {
  analysis_status : string;
  error_message : option string;
  http_status : Z
}.

Definition analysis_outcome (result : AgentState) : AnalysisOutcome :=
  match errors result with
  | [] => mkOutcome "completed" None 200
  | _ :: _ =>
      mkOutcome "failed" (Some (join_semicolon (errors result))) 500
  end.

Definition analyze_dataset (id : Z) (path name : string) : AnalysisOutcome :=
  analysis_outcome (analysis_graph_invoke (initial_state id path name)).

End Pipeline.

(* ================================================================== *)
(** * The upload handler: [upload_file] *)
(* ================================================================== *)

(** What a handler can raise: an [HTTPException] or any other exception. *)
Inductive exn : Type :=
| HTTPException (status_code : Z) (detail : string)
| OtherException (msg : string).

Inductive outcome (A : Type) : Type :=
| Return (a : A)
| Throw (e : exn).
Arguments Return {A} a.
Arguments Throw {A} e.

Definition and_then {A B} (m : outcome A) (f : A -> outcome B) : outcome B :=
  match m with
  | Return a => f a
  | Throw e => Throw e
  end.

(** A library call that raises an ordinary exception. *)
Definition lift {A} (m : Py.result A) : outcome A :=
  match m with
  | Py.Ok a => Return a
  | Py.Raise msg => Throw (OtherException msg)
  end.

Record Dataset : Type := mkDataset {
  ds_filename : string;
  ds_original_filename : string;
  ds_file_path : string;
  ds_file_size : Z;
  ds_rows_count : Z;
  ds_columns_count : Z;
  ds_column_names : list string
}.

Record UploadResponse : Type := mkUploadResponse {
  up_dataset_id : Z;
  up_filename : string;
  up_rows : Z;
  up_columns : Z;
  up_message : string
}.

Definition invalid_file_type : exn :=
  HTTPException 400 "Invalid file type. Please upload CSV or Excel files only.".

Section Upload.

Variable UPLOAD_DIR : string.

(** [datetime.now().strftime(..)], writing the upload to disk (the size
    of the file written), the two readers, the insertion of the dataset
    record (its id), and [str(e)]. *)
Variable timestamp : string.
Variable save : string -> Py.result Z.
Variable read_csv : string -> Py.result DataFrame.
Variable read_excel : string -> Py.result DataFrame.
Variable db_add : Dataset -> Py.result Z.
Variable str_of_exn : exn -> string.

(** The path under which an upload named [filename] is stored and which
    the analysis later hands to the Loader as [file_path]. *)
Definition stored_path (filename : string) : string :=
  path_join UPLOAD_DIR (timestamp +++ "_" +++ filename).

(** The body of the [try] block. *)
Definition upload_body (filename : string) : outcome UploadResponse :=
  if negb (Py.endswith_any filename [".csv"; ".xlsx"; ".xls"])
  then Throw invalid_file_type
  else
    let unique_filename := timestamp +++ "_" +++ filename in
    let file_path := path_join UPLOAD_DIR unique_filename in
    and_then (lift (save file_path)) (fun file_size =>
    and_then (lift (if Py.endswith filename ".csv"
                    then read_csv file_path
                    else read_excel file_path)) (fun df =>
    and_then (lift (db_add
                {| ds_filename := unique_filename;
                   ds_original_filename := filename;
                   ds_file_path := file_path;
                   ds_file_size := file_size;
                   ds_rows_count := Z.of_nat (nrows df);
                   ds_columns_count := Z.of_nat (ncols df);
                   ds_column_names := column_names df |})) (fun id =>
    Return {| up_dataset_id := id;
              up_filename := filename;
              up_rows := Z.of_nat (nrows df);
              up_columns := Z.of_nat (ncols df);
              up_message := "File uploaded successfully" |}))).

(** [except Exception as e: raise HTTPException(500, ..)]: the handler
    has no [except HTTPException: raise] clause, so the exception of the
    gate is wrapped like any other. *)
Definition upload_file (filename : string) : outcome UploadResponse :=
  match upload_body filename with
  | Return r => Return r
  | Throw e => Throw (HTTPException 500 ("Upload failed: " +++ str_of_exn e))
  end.

End Upload.

(* ================================================================== *)
(** * Pearson correlation, over the reals *)
(* ================================================================== *)

Module Pearson.

Local Open Scope R_scope.

(** The observations two columns share: the rows where both hold a
    number ([corr] leaves out a pair as soon as one side is null). *)
Fixpoint complete_pairs (xs ys : list Cell) : list (R * R) :=
  match xs, ys with
  | x :: xs', y :: ys' =>
      match cell_value x, cell_value y with
      | Some a, Some b => (Q2R a, Q2R b) :: complete_pairs xs' ys'
      | _, _ => complete_pairs xs' ys'
      end
  | _, _ => []
  end.

Definition sum (l : list R) : R := fold_right Rplus 0 l.

Definition mean (l : list R) : R := sum l / INR (length l).

(** Sum of the products of the deviations from [mx] and [my]. *)
Definition ssdm (mx my : R) (ps : list (R * R)) : R :=
  sum (map (fun p => (fst p - mx) * (snd p - my)) ps).

Definition ssq_x (mx : R) (ps : list (R * R)) : R :=
  sum (map (fun p => (fst p - mx) * (fst p - mx)) ps).

Definition ssq_y (my : R) (ps : list (R * R)) : R :=
  sum (map (fun p => (snd p - my) * (snd p - my)) ps).

(** The product of the two sums of squared deviations: zero when one of
    the two columns has zero variance over the shared observations. *)
Definition divisor_sq (xs ys : list Cell) : R :=
  let ps := complete_pairs xs ys in
  let mx := mean (map fst ps) in
  let my := mean (map snd ps) in
  ssq_x mx ps * ssq_y my ps.

(** Pearson's r of two columns; NaN when the divisor is zero. *)
Definition pearson (xs ys : list Cell) : pyfloat R :=
  let ps := complete_pairs xs ys in
  let mx := mean (map fst ps) in
  let my := mean (map snd ps) in
  if Req_EM_T (divisor_sq xs ys) 0 then FNaN
  else FVal (ssdm mx my ps / sqrt (divisor_sq xs ys)).

(** [df.corr()] on a list of columns. *)
Definition corr (cols : list (list Cell)) : list (list (pyfloat R)) :=
  map (fun x => map (fun y => pearson x y) cols) cols.

End Pearson.

(** The keys of [report["correlations"]]. *)
Definition correlation_keys {F} (report : PyObj F) : list string :=
  match report with
  | PDict d =>
      match Py.dict_get d "correlations" with
      | Some (PDict m) => map fst m
      | _ => []
      end
  | _ => []
  end.

(** A pair of observations with its two sides exchanged. *)
Definition swap (p : R * R) : R * R := (snd p, fst p).

(** [report["correlations"][c][r]] *)
Definition report_entry {F} (report : PyObj F) (c r : string)
  : option (PyObj F) :=
  match report with
  | PDict d =>
      match Py.dict_get d "correlations" with
      | Some (PDict m) =>
          match Py.dict_get m c with
          | Some (PDict col) => Py.dict_get col r
          | _ => None
          end
      | _ => None
      end
  | _ => None
  end.

(** The spellings of a lower-case word in every letter case. *)
Fixpoint case_variants (s : string) : list string :=
  match s with
  | EmptyString => [EmptyString]
  | String c s' =>
      flat_map (fun t => [String c t; String (Py.upper_char c) t])
               (case_variants s')
  end.

(* ================================================================== *)
(** * Concrete collaborators, for the worked examples *)
(* ================================================================== *)

Module Example.

Definition digit_value (c : ascii) : option Z :=
  let n := nat_of_ascii c in
  if ((48 <=? n)%nat && (n <=? 57)%nat)%bool
  then Some (Z.of_nat (n - 48)) else None.

Fixpoint parse_digits (acc : Z) (s : string) : option Z :=
  match s with
  | EmptyString => Some acc
  | String c s' =>
      match digit_value c with
      | Some d => parse_digits (10 * acc + d) s'
      | None => None
      end
  end.

(** A number parser for the examples: an optional minus sign and one or
    more decimal digits.  [pd.to_numeric] accepts these texts with these
    values (and more: fractions, exponents), and rejects the texts that
    contain a letter other than in such forms. *)
Definition parse_number (s : string) : option Q :=
  match s with
  | EmptyString => None
  | String "-" (String c s') =>
      option_map (fun n => inject_Z (- n)) (parse_digits 0 (String c s'))
  | _ => option_map inject_Z (parse_digits 0 s)
  end.

(** An isolation forest that flags no row. *)
Definition isolation_forest (X : list (list Q)) : Py.result (list bool) :=
  Py.Ok (map (fun _ => false) X).

Definition current_year : Z := 2026.

(** A file system with one upload. *)
Definition read_const (df : DataFrame) (path : string) : Py.result DataFrame :=
  Py.Ok df.

Definition read_fail (path : string) : Py.result DataFrame :=
  Py.Raise "Excel file format cannot be determined".

Definition to_csv (df : DataFrame) (path : string) : Py.result unit :=
  Py.Ok tt.

Definition render (df : DataFrame) (id : Z)
  : Py.result (list (string * string)) := Py.Ok [].

Definition describe_to_dict (names : list string) (cols : list (list Cell))
  : PyObj R := PDict [].

Definition top_values (cells : list Cell) : PyObj R := PDict [].

Definition llm_invoke (r : CleaningReport) (s : PyObj R) (a : AnomalyReport)
  : Py.result string := Py.Ok "insights".

Definition generate_mock_insights (s : PyObj R) (a : AnomalyReport) : string :=
  "### Data Analysis Insights (Mock Mode)".

Definition emit_sql (df : DataFrame) (name : string) : Py.result string :=
  Py.Ok "-- SQL".

Definition str_of_exn (e : exn) : string :=
  match e with
  | HTTPException _ detail => detail
  | OtherException msg => msg
  end.

(** The table of the end-to-end scenario. *)
Definition scenario : DataFrame :=
  mkDF [("age", Int64); ("years_experience", Int64); ("salary", Int64)]
       [(0%Z, [Num 25; Num 3; Num 50000]);
        (1%Z, [Num 25; Num 3; Num 50000]);
        (2%Z, [Num 200; Num 1; Num (-10)])].

(** A table whose second column is numeric and entirely null. *)
Definition all_null_numeric : DataFrame :=
  mkDF [("a", Int64); ("b", Float64)]
       [(0%Z, [Num 1; NA]);
        (1%Z, [Num 2; NA])].

(** A table in which imputation makes two rows equal. *)
Definition null_then_equal : DataFrame :=
  mkDF [("a", Int64); ("b", Float64)]
       [(0%Z, [Num 1; Num 2]);
        (1%Z, [Num 1; NA])].

(** A text column with a sentinel among numbers: the Cleaner coerces it. *)
Definition salary_with_null : DataFrame :=
  mkDF [("salary", Object)]
       [(0%Z, [Str "100"]);
        (1%Z, [Str " Null "]);
        (2%Z, [Str "300"])].

(** A text column with a sentinel and no number. *)
Definition city_with_null : DataFrame :=
  mkDF [("city", Object)]
       [(0%Z, [Str "Oslo"]);
        (1%Z, [Str " Null "])].

(** A table whose [age] column is text: the age rule raises.  The
    sentinel and the negative salary are findings of two other checks. *)
Definition text_age : DataFrame :=
  mkDF [("age", Object); ("salary", Int64)]
       [(0%Z, [Str "young"; Num 10]);
        (1%Z, [Str "old"; Num (-5)]);
        (2%Z, [Str "Null"; Num 10])].

(** Two numeric columns, the first constant. *)
Definition constant_column : DataFrame :=
  mkDF [("a", Int64); ("b", Int64)]
       [(0%Z, [Num 1; Num 1]);
        (1%Z, [Num 1; Num 2])].

End Example.

(* ================================================================== *)
(** * More Python strings *)
(* ================================================================== *)

(** The line feed. *)
Definition nl : string := String (ascii_of_nat 10) EmptyString.

(** [s.replace(old, new)] for a non-empty [old]: the occurrences of [old]
    are replaced from left to right, without overlap.  [skip] counts the
    characters of an occurrence that are still to be passed over. *)
Fixpoint replace_go (old new : string) (skip : nat) (s : string) : string :=
  match s with
  | EmptyString => EmptyString
  | String c s' =>
      match skip with
      | S k => replace_go old new k s'
      | O =>
          if String.prefix old s
          then new +++ replace_go old new (String.length old - 1) s'
          else String c (replace_go old new O s')
      end
  end.

Definition replace (s old new : string) : string := replace_go old new O s.

(** [s.rstrip(chars)] *)
Fixpoint rstrip_chars (chars : list ascii) (s : string) : string :=
  match s with
  | EmptyString => EmptyString
  | String c s' =>
      match rstrip_chars chars s' with
      | EmptyString =>
          if existsb (Ascii.eqb c) chars then EmptyString
          else String c EmptyString
      | r => String c r
      end
  end.

(** [str(n)] for an integer. *)
Fixpoint str_of_nat_go (fuel n : nat) (acc : string) : string :=
  match fuel with
  | O => acc
  | S f =>
      let acc' := String (ascii_of_nat (48 + n mod 10)) acc in
      if (n / 10 =? 0)%nat then acc' else str_of_nat_go f (n / 10) acc'
  end.

Definition str_of_nat (n : nat) : string := str_of_nat_go (S n) n EmptyString.

Definition str_of_Z (z : Z) : string :=
  if (z <? 0)%Z then "-" +++ str_of_nat (Z.to_nat (- z))
  else str_of_nat (Z.to_nat z).

(** [l[-1] = f(l[-1])] on a non-empty list. *)
Fixpoint update_last {A} (f : A -> A) (l : list A) : list A :=
  match l with
  | [] => []
  | [x] => [f x]
  | x :: t => x :: update_last f t
  end.

(* ================================================================== *)
(** * The SQL emitter: [generate_sql_node] *)
(* ================================================================== *)

(** The mapping of the dtype of a column to a column type of the table. *)
Definition sql_type (d : DType) : string :=
  match d with
  | Int64 => "INTEGER"
  | Float64 => "DECIMAL"
  | BoolT => "BOOLEAN"
  | Object => "TEXT"
  end.

(** [col.replace(' ', '_').lower()] *)
Definition sql_column_name (col : string) : string :=
  Py.lower (replace col " " "_").

(** [filename.replace('.csv', '').replace('.xlsx', '').replace(' ',
    '_').lower()] *)
Definition sql_table_name (filename : string) : string :=
  Py.lower (replace (replace (replace filename ".csv" EmptyString)
                             ".xlsx" EmptyString) " " "_").

(** [val.replace("'", "''")] *)
Definition escape_quotes (val : string) : string := replace val "'" "''".

(** The reading of the body of an SQL text literal: a doubled quote
    stands for one quote. *)
Definition unescape_quotes (body : string) : string := replace body "''" "'".

Section SqlEmitter.

(** [str(val)] on a number or a boolean of a row of [iterrows]. *)
Variable str_of_value : Cell -> string.

(** One value of an INSERT statement. *)
Definition sql_value (val : Cell) : string :=
  match val with
  | NA => "NULL"
  | Str s => "'" +++ escape_quotes s +++ "'"
  | _ => str_of_value val
  end.

Definition column_line (c : string * DType) : string :=
  "    " +++ sql_column_name (fst c) +++ " " +++ sql_type (snd c) +++ ",".

Definition insert_line (table_name cols : string) (row : Z * list Cell)
  : string :=
  "INSERT INTO " +++ table_name +++ " (" +++ cols +++ ") VALUES ("
  +++ String.concat ", " (map sql_value (snd row)) +++ ");".

(** The list [sql_parts] at the end of the node. *)
Definition sql_parts (df : DataFrame) (filename : string) : list string :=
  let table_name := sql_table_name filename in
  let head :=
    ["-- SQL Schema and Data for " +++ filename +++ nl;
     "CREATE TABLE IF NOT EXISTS " +++ table_name +++ " (";
     "    id SERIAL PRIMARY KEY,"] ++ map column_line (df_columns df) in
  let head := update_last (rstrip_chars [","%char]) head in
  let cols := String.concat ", " (map sql_column_name (column_names df)) in
  head
  ++ [");" +++ nl; nl +++ "-- Sample INSERT statements (first 5 rows)"]
  ++ map (insert_line table_name cols) (firstn 5 (df_rows df)).

(** ['\n'.join(sql_parts)], the text stored in [state["sql_queries"]]. *)
Definition generate_sql (df : DataFrame) (filename : string) : string :=
  String.concat nl (sql_parts df filename).

(** The body of the node as the collaborator of the graph: it does not
    raise on a frame of the dtypes of the embedding. *)
Definition emit_sql_text (df : DataFrame) (filename : string)
  : Py.result string := Py.Ok (generate_sql df filename).

End SqlEmitter.

(* ================================================================== *)
(** * The chart renderer: [create_visualizations_node] *)
(* ================================================================== *)

(** One chart the node draws: the [type] of its descriptor, the columns
    it shows, and the stem of its file name. *)
Record Chart : Type := mkChart {
  chart_type : string;
  chart_columns : list string;
  chart_stem : string
}.

(** The charts of a frame, in the order the node draws them: a histogram
    for each of the first three numeric columns, a correlation heatmap
    when there are at least two numeric columns, a bar chart for the
    first text column, a scatter plot of the first two numeric columns. *)
Definition chart_plan (df : DataFrame) (dataset_id : Z) : list Chart :=
  let num := numeric_cols df in
  let cat := categorical_cols df in
  let id := str_of_Z dataset_id in
  (if (0 <? length num)%nat
   then map (fun j => mkChart "histogram" [name_at j df]
                        ("hist_" +++ id +++ "_" +++ name_at j df))
            (firstn 3 num)
   else [])
  ++ (if (1 <? length num)%nat
      then [mkChart "correlation" [] ("corr_" +++ id)]
      else [])
  ++ (match cat with
      | j :: _ => [mkChart "bar_chart" [name_at j df]
                     ("bar_" +++ id +++ "_" +++ name_at j df)]
      | [] => []
      end)
  ++ (if (2 <=? length num)%nat
      then [mkChart "scatter"
              [name_at (nth 0 num O) df; name_at (nth 1 num O) df]
              ("scatter_" +++ id)]
      else []).

Section Charts.

(** The [k]-th reading of [datetime.now().strftime('%Y%m%d%H%M%S')] in
    the node, and the plotting of one chart into a file (it may raise). *)
Variable clock : nat -> string.
Variable draw : DataFrame -> Chart -> string -> Py.result unit.

Definition chart_filename (k : nat) (c : Chart) : string :=
  chart_stem c +++ "_" +++ clock k +++ ".png".

(** The charts are drawn one after the other; the first exception leaves
    the [try] block, and the descriptors are added to the state only
    after the last chart. *)
Fixpoint draw_all (df : DataFrame) (k : nat) (plan : list Chart)
  : Py.result (list (string * string)) :=
  match plan with
  | [] => Py.Ok []
  | c :: rest =>
      _ <- draw df c (chart_filename k c) ;;
      done <- draw_all df (S k) rest ;;
      Py.Ok ((chart_type c, chart_filename k c) :: done)
  end.

(** The body of the [try] block: type and file name of each chart. *)
Definition render_charts (df : DataFrame) (dataset_id : Z)
  : Py.result (list (string * string)) :=
  draw_all df O (chart_plan df dataset_id).

End Charts.

(* ================================================================== *)
(** * Text to SQL: [text_to_sql_agent.py] *)
(* ================================================================== *)

(** The word characters of the pattern on a lower-cased ASCII text. *)
Definition is_ident_start (c : ascii) : bool :=
  let n := nat_of_ascii c in
  ((97 <=? n)%nat && (n <=? 122)%nat) || (n =? 95)%nat.

Definition is_digit (c : ascii) : bool :=
  let n := nat_of_ascii c in (48 <=? n)%nat && (n <=? 57)%nat.

Definition is_upper (c : ascii) : bool :=
  let n := nat_of_ascii c in (65 <=? n)%nat && (n <=? 90)%nat.

(** [\w] on ASCII. *)
Definition is_word_char (c : ascii) : bool :=
  is_ident_start c || is_digit c || is_upper c.

Fixpoint all_chars (f : ascii -> bool) (s : string) : bool :=
  match s with
  | EmptyString => true
  | String c s' => f c && all_chars f s'
  end.

(** The maximal runs of word characters of a text, in order.  [cur] is
    the run being read, in reverse. *)
Fixpoint words_go (cur : list ascii) (s : string) : list string :=
  let flush := match cur with
               | [] => []
               | _ => [string_of_list_ascii (rev cur)]
               end in
  match s with
  | EmptyString => flush
  | String c s' =>
      if is_word_char c then words_go (c :: cur) s'
      else flush ++ words_go [] s'
  end.

Definition words (s : string) : list string := words_go [] s.

(** The pattern is one of [a-z_], then any number of [a-z0-9_], the whole
    between two word boundaries.  A run matches it when it starts with a
    letter or an underscore and holds lower-case letters, digits and
    underscores only; the other runs give no match. *)
Definition is_identifier (w : string) : bool :=
  match w with
  | EmptyString => false
  | String c _ =>
      is_ident_start c
      && all_chars (fun d => is_ident_start d || is_digit d) w
  end.

(** [re.findall(pattern, sql_lower)] *)
Definition potential_columns (sql_lower : string) : list string :=
  filter is_identifier (words sql_lower).

Definition sql_keywords : list string :=
  ["select"; "from"; "where"; "group"; "by"; "order"; "having"; "limit";
   "offset"; "join"; "inner"; "left"; "right"; "outer"; "on"; "as";
   "and"; "or"; "not"; "in"; "like"; "between"; "is"; "null"; "distinct";
   "count"; "sum"; "avg"; "min"; "max"; "case"; "when"; "then"; "else";
   "end"; "asc"; "desc"; "true"; "false"; "cast"; "integer"; "text";
   "numeric"; "boolean"; "timestamp"; "date"; "varchar"; "char"].

(** The test of the loop: the word is reported as an invalid column. *)
Definition is_invalid_column (valid_columns_lower : list string)
  (col : string) : bool :=
  negb (Py.str_in col sql_keywords)
  && negb (Py.str_in col valid_columns_lower)
  && negb (String.prefix "dataset_" col).

(** [validate_sql_columns] *)
Definition validate_sql_columns (sql : string) (valid_columns : list string)
  : bool * list string :=
  let sql_lower := Py.lower sql in
  let valid_columns_lower := map Py.lower valid_columns in
  let invalid_columns :=
    filter (is_invalid_column valid_columns_lower)
           (potential_columns sql_lower) in
  ((length invalid_columns =? 0)%nat, invalid_columns).

(** The mapping of the name of a dtype to a PostgreSQL type. *)
Definition pg_type (dtype : string) : string :=
  if String.prefix "int" dtype then "INTEGER"
  else if String.prefix "float" dtype then "NUMERIC"
  else if String.eqb dtype "bool" then "BOOLEAN"
  else if String.eqb dtype "datetime64" then "TIMESTAMP"
  else "TEXT".

Record SqlAnswer : Type := mkSqlAnswer {
  sql_query : option string;
  needs_clarification : bool;
  clarification_message : option string;
  answer_table_name : option string;
  answer_schema : option (Py.dict string)
}.

Definition clarification (message : string) : SqlAnswer :=
  mkSqlAnswer None true (Some message) None None.

Section TextToSql.

Variable read_csv : string -> Py.result DataFrame.
Variable read_excel : string -> Py.result DataFrame.

(** [chain.invoke(..).content] for a table name, the text of the schema,
    the list of the columns and the question; it may raise. *)
Variable llm : string -> string -> string -> string -> Py.result string.

(** [extract_schema_from_dataset]: every exception ends in the empty
    schema. *)
Definition extract_schema_from_dataset (file_path : string)
  : Py.dict string :=
  match (if Py.endswith file_path ".csv" then read_csv file_path
         else if Py.endswith_any file_path [".xlsx"; ".xls"]
              then read_excel file_path
              else Py.Raise ("Unsupported file format: " +++ file_path)) with
  | Py.Ok df =>
      fold_left (fun schema c =>
                   Py.dict_set schema (fst c) (pg_type (dtype_name (snd c))))
                (df_columns df) []
  | Py.Raise _ => []
  end.

(** The test of the [except] clause of [generate_sql_query]. *)
Definition is_api_error (error_msg : string) : bool :=
  contains error_msg "402" || contains error_msg "Insufficient Balance"
  || contains error_msg "404".

(** [generate_sql_query]; [table_name] is the optional argument. *)
Definition generate_sql_query (question : string) (dataset_id : Z)
  (file_path : string) (table_name : option string) : SqlAnswer :=
  let schema := extract_schema_from_dataset file_path in
  match schema with
  | [] =>
      clarification
        "Unable to extract schema from dataset. Please ensure the file is valid."
  | _ :: _ =>
      let table_name :=
        match table_name with
        | Some (String c t) => String c t
        | _ => "dataset_" +++ str_of_Z dataset_id
        end in
      let schema_text :=
        String.concat ("," +++ nl)
          (map (fun kv => "  " +++ fst kv +++ " " +++ snd kv) schema) in
      let column_list := String.concat ", " (map fst schema) in
      match llm table_name schema_text column_list question with
      | Py.Raise error_msg =>
          if is_api_error error_msg
          then clarification
                 "AI service is currently unavailable (Mock Mode). Please try again later."
          else clarification ("Error generating SQL query: " +++ error_msg)
      | Py.Ok content =>
          let sql_output := Py.strip content in
          if String.prefix "CLARIFICATION NEEDED:" sql_output
          then clarification
                 (Py.strip (replace sql_output "CLARIFICATION NEEDED:"
                              EmptyString))
          else
            let sql_output :=
              Py.strip (replace (replace sql_output "```sql" EmptyString)
                                "```" EmptyString) in
            let '(is_valid, invalid_cols) :=
              validate_sql_columns sql_output (map fst schema) in
            if is_valid
            then mkSqlAnswer (Some sql_output) false None (Some table_name)
                   (Some schema)
            else clarification
                   ("The generated query references columns that don't exist: "
                    +++ String.concat ", " invalid_cols
                    +++ ". Available columns are: " +++ column_list)
      end
  end.

End TextToSql.

(* ================================================================== *)
(** * The analysis records: [analyze_dataset] and [get_analysis] *)
(* ================================================================== *)

Section AnalysisRecords.

Variable F : Type.

(** A row of the table [analyses]. *)
Record Analysis : Type := mkAnalysis {
  a_id : Z;
  a_dataset_id : Z;
  a_status : string;
  a_error_message : option string;
  a_cleaned_data_info : option CleaningReport;
  a_statistics : option (PyObj F);
  a_anomalies : option AnomalyReport;
  a_insights : option string;
  a_sql_queries : option string
}.

(** The tables the two handlers read and write: the datasets with their
    ids, the analyses, and the visualizations as analysis id, type and
    file name. *)
Record Database : Type := mkDatabase {
  db_datasets : list (Z * Dataset);
  db_analyses : list Analysis;
  db_visualizations : list (Z * (string * string))
}.

(** [analysis_graph.invoke], and the id the database gives to a new row
    of [analyses]. *)
Variable invoke : AgentState F -> AgentState F.
Variable new_analysis_id : Database -> Z.

(** [db.query(Dataset).filter(Dataset.id == dataset_id).first()] *)
Definition find_dataset (db : Database) (dataset_id : Z) : option Dataset :=
  option_map snd
    (find (fun r => Z.eqb (fst r) dataset_id) (db_datasets db)).

(** [db.query(Analysis).filter(Analysis.id == analysis_id).first()] *)
Definition find_analysis (db : Database) (analysis_id : Z) : option Analysis :=
  find (fun a => Z.eqb (a_id a) analysis_id) (db_analyses db).

Record AnalysisResponse : Type := mkAnalysisResponse {
  resp_analysis_id : Z;
  resp_status : string;
  resp_message : string
}.

(** [analyze_dataset]: the response or the exception, and the database
    after the request.  The operations of the database session itself are
    taken not to raise. *)
Definition analyze_dataset_db (db : Database) (dataset_id : Z)
  : outcome AnalysisResponse * Database :=
  match find_dataset db dataset_id with
  | None => (Throw (HTTPException 404 "Dataset not found"), db)
  | Some dataset =>
      let id := new_analysis_id db in
      let result :=
        invoke (initial_state F dataset_id (ds_file_path dataset)
                  (ds_original_filename dataset)) in
      match errors result with
      | _ :: _ =>
          let message := join_semicolon (errors result) in
          (Throw (HTTPException 500 ("Analysis failed: " +++ message)),
           mkDatabase (db_datasets db)
             (db_analyses db
              ++ [mkAnalysis id dataset_id "failed" (Some message)
                    None None None None None])
             (db_visualizations db))
      | [] =>
          (Return (mkAnalysisResponse id "completed"
                     "Analysis completed successfully"),
           mkDatabase (db_datasets db)
             (db_analyses db
              ++ [mkAnalysis id dataset_id "completed" None
                    (cleaning_report result) (statistics result)
                    (anomalies result) (insights result)
                    (sql_queries result)])
             (db_visualizations db
              ++ map (fun viz => (id, viz)) (visualizations result)))
      end
  end.

(** The answer of [get_analysis], without the dates and the ids of the
    visualizations. *)
Record AnalysisView : Type := mkAnalysisView {
  view_id : Z;
  view_dataset_id : Z;
  view_status : string;
  view_cleaning_report : option CleaningReport;
  view_statistics : option (PyObj F);
  view_anomalies : option AnomalyReport;
  view_insights : option string;
  view_sql_queries : option string;
  view_visualizations : list (string * string);
  view_error_message : option string
}.

Definition get_analysis (db : Database) (analysis_id : Z)
  : outcome AnalysisView :=
  match find_analysis db analysis_id with
  | None => Throw (HTTPException 404 "Analysis not found")
  | Some analysis =>
      let visualizations :=
        filter (fun v => Z.eqb (fst v) analysis_id) (db_visualizations db) in
      Return
        (mkAnalysisView (a_id analysis) (a_dataset_id analysis)
           (a_status analysis) (a_cleaned_data_info analysis)
           (a_statistics analysis) (a_anomalies analysis)
           (a_insights analysis) (a_sql_queries analysis)
           (map (fun v => (fst (snd v), "/visualizations/" +++ snd (snd v)))
                visualizations)
           (a_error_message analysis))
  end.

End AnalysisRecords.

(* ================================================================== *)
(** * More predicates of the statements *)
(* ================================================================== *)

(** A report value without a numpy integer, float or array of the types
    [convert_numpy] lists, at any depth of its dict values and of its
    list and tuple items. *)
Fixpoint listed_free {F} (obj : PyObj F) : bool :=
  match obj with
  | PNpInt _ | PNpFloat _ | PNdarray _ => false
  | PDict d => forallb (fun kv => listed_free (snd kv)) d
  | PList l => forallb listed_free l
  | PTuple l => forallb listed_free l
  | _ => true
  end.

(** A report value without a numpy scalar of another type. *)
Fixpoint other_free {F} (obj : PyObj F) : bool :=
  match obj with
  | PNpOther _ => false
  | PDict d => forallb (fun kv => other_free (snd kv)) d
  | PList l => forallb other_free l
  | PTuple l => forallb other_free l
  | _ => true
  end.

(** A report value without a numpy scalar or array anywhere in it. *)
Definition native {F} (obj : PyObj F) : bool :=
  listed_free obj && other_free obj.

(* ================================================================== *)
(** * More sample collaborators *)
(* ================================================================== *)

Module Sample.

(** A clock that stands still, a plotter that draws every chart, and one
    that fails on the heatmap. *)
Definition clock (k : nat) : string := "20240101120000".

Definition draw (df : DataFrame) (c : Chart) (file : string)
  : Py.result unit := Py.Ok tt.

Definition draw_no_heatmap (df : DataFrame) (c : Chart) (file : string)
  : Py.result unit :=
  if String.eqb (chart_type c) "correlation"
  then Py.Raise "could not convert string to float"
  else Py.Ok tt.

(** [str] on the whole numbers and the booleans of the samples. *)
Definition str_of_value (c : Cell) : string :=
  match c with
  | Num q => str_of_Z (Qfloor q)
  | Boolean true => "True"
  | Boolean false => "False"
  | Str s => s
  | NA => "nan"
  end.

(** A model that answers with a query in a code block, and two that
    fail. *)
Definition llm_select (table_name schema_text column_list question : string)
  : Py.result string :=
  Py.Ok ("```sql" +++ nl +++ "SELECT age FROM " +++ table_name +++ ";"
         +++ nl +++ "```").

Definition llm_quota (r : CleaningReport) (s : PyObj R) (a : AnomalyReport)
  : Py.result string := Py.Raise "Error code: 402 - Insufficient Balance".

Definition llm_timeout (r : CleaningReport) (s : PyObj R) (a : AnomalyReport)
  : Py.result string := Py.Raise "Request timed out.".

(** A database with one uploaded dataset and no analysis yet; the id of
    a new analysis is the number of analyses plus one. *)
Definition people : Dataset :=
  mkDataset "20240101_120000_people.csv" "people.csv"
    "./uploads/20240101_120000_people.csv" 64 3 3
    ["age"; "years_experience"; "salary"].

Definition database : Database R := mkDatabase [(1%Z, people)] [] [].

Definition new_analysis_id (db : Database R) : Z :=
  Z.of_nat (S (length (db_analyses db))).

End Sample.

(* ================================================================== *)
(** * Predicates of the statements *)
(* ================================================================== *)

(** A cell that is not a text. *)
Definition not_text (c : Cell) : Prop :=
  match c with Str _ => False | _ => True end.

(** A list of numbers in ascending order. *)
Definition sorted (xs : list Q) : Prop :=
  forall i j, (i <= j)%nat -> (j < length xs)%nat ->
    (nth i xs 0 <= nth j xs 0)%Q.

(** [len(outliers)] of a column under the fence multiplier [k]. *)
Definition len_outliers (k : Q) (cells : list Cell) : nat :=
  length (select (outlier_mask k cells) cells).

(** The outlier rule in the words of the specification, on one cell and
    for the quartiles [Q1] and [Q3] of its column (NaN, here [None], on
    a column without a number): the value is below [Q1 - k * IQR] or
    above [Q3 + k * IQR], where [IQR = Q3 - Q1]; the three operations
    are the ones of floats. *)
Definition iqr_outlier (k : Q) (Q1 Q3 : option Q) (c : Cell) : bool :=
  match Q1, Q3, cell_value c with
  | Some Q1, Some Q3, Some v =>
      let IQR := fsub Q3 Q1 in
      Qlt_bool v (fsub Q1 (fmul k IQR)) || Qlt_bool (fadd Q3 (fmul k IQR)) v
  | _, _, _ => false
  end.

(** A binary64 number of magnitude [2 ^ 1021] at most: with such numbers
    in a column no quartile and no fence overflows. *)
Definition is_binary64 (x : Q) : bool :=
  Qeq_bool (b64 x) x && Qle_bool (- pow2 1021) x && Qle_bool x (pow2 1021).

Definition binary64_cell (c : Cell) : Prop :=
  match cell_value c with
  | Some v => is_binary64 v = true
  | None => True
  end.

(** A cell that [strip] leaves as it is. *)
Definition stripped (c : Cell) : Prop := strip_cell c = c.

(** The number of cells of each row. *)
Definition row_lengths (df : DataFrame) : list nat :=
  map (fun r => length (snd r)) (df_rows df).

(** A column that holds a number. *)
Definition has_number (cells : list Cell) : Prop :=
  exists c, In c cells /\ cell_value c <> None.

(** A row that holds a value, or will hold one once imputed. *)
Definition rescuable (df : DataFrame) (r : list Cell) : Prop :=
  exists p,
    nth p r NA <> NA \/
    ((p < length r)%nat /\ is_float_or_int (dtype_at p df) = true /\
     has_number (column p df)).

(** The value [fillna] is called with in the imputation loop. *)
Definition fill_value (dt : DType) (col : list Cell) : Cell :=
  if is_float_or_int dt then median col
  else match mode col with
       | m :: _ => m
       | [] => Str "Unknown"
       end.

(** A cell that [pd.to_numeric] turns into a null. *)
Definition unparsable (parse_number : string -> option Q) (c : Cell) : Prop :=
  to_numeric_cell parse_number c = NA.

(* ================================================================== *)
(** * Lemmas on masks, rows and columns *)
(* ================================================================== *)

Lemma select_length_le {A} (mask : list bool) (l : list A) :
  (length (select mask l) <= length l)%nat.
Proof.
  revert l; induction mask as [|b mask IH]; intros [|x l]; simpl; try lia.
  destruct b; simpl; specialize (IH l); lia.
Qed.

Lemma select_negb_count {A} (mask : list bool) (l : list A) :
  length mask = length l ->
  (count_true mask + length (select (map negb mask) l) = length l)%nat.
Proof.
  unfold count_true.
  revert l; induction mask as [|b mask IH]; intros [|x l] H; simpl in *;
    try discriminate; auto.
  injection H as H. specialize (IH l H).
  destruct b; simpl; lia.
Qed.

Lemma duplicated_from_length (seen rows : list (list Cell)) :
  length (duplicated_from seen rows) = length rows.
Proof.
  revert seen; induction rows as [|r rows IH]; intros seen; simpl; auto.
Qed.

Lemma duplicated_length (df : DataFrame) :
  length (duplicated df) = nrows df.
Proof.
  unfold duplicated, nrows.
  rewrite duplicated_from_length. apply length_map.
Qed.

Lemma zip_with_length {A B C} (f : A -> B -> C) (l : list A) (m : list B) :
  length l = length m -> length (zip_with f l m) = length l.
Proof.
  revert m; induction l as [|a l IH]; intros [|b m] H; simpl in *;
    try discriminate; auto.
Qed.

Lemma column_length (j : nat) (df : DataFrame) :
  length (column j df) = nrows df.
Proof. unfold column, nrows. apply length_map. Qed.

Lemma set_nth_length {A} (j : nat) (v : A) (l : list A) :
  length (set_nth j v l) = length l.
Proof.
  revert j; induction l as [|x l IH]; intros [|j]; simpl; auto.
Qed.

Lemma set_column_nrows (j : nat) (dt : DType) (vals : list Cell)
  (df : DataFrame) :
  length vals = nrows df -> nrows (set_column j dt vals df) = nrows df.
Proof.
  intros H. unfold nrows, set_column; simpl.
  apply zip_with_length. symmetry; exact H.
Qed.

Lemma set_column_ncols (j : nat) (dt : DType) (vals : list Cell)
  (df : DataFrame) :
  ncols (set_column j dt vals df) = ncols df.
Proof.
  unfold ncols, set_column; simpl.
  destruct (nth_error (df_columns df) j) as [[n d]|]; auto.
  apply set_nth_length.
Qed.

Lemma fillna_length (v : Cell) (cells : list Cell) :
  length (fillna v cells) = length cells.
Proof. apply length_map. Qed.

Lemma impute_column_nrows (df : DataFrame) (j : nat) :
  nrows (impute_column df j) = nrows df.
Proof.
  unfold impute_column.
  destruct (is_float_or_int (dtype_at j df));
    apply set_column_nrows; rewrite fillna_length; apply column_length.
Qed.

Lemma impute_column_ncols (df : DataFrame) (j : nat) :
  ncols (impute_column df j) = ncols df.
Proof.
  unfold impute_column.
  destruct (is_float_or_int (dtype_at j df)); apply set_column_ncols.
Qed.

Lemma fold_impute_shape (js : list nat) (df : DataFrame) :
  nrows (fold_left impute_column js df) = nrows df /\
  ncols (fold_left impute_column js df) = ncols df.
Proof.
  revert df; induction js as [|j js IH]; intros df; simpl; auto.
  destruct (IH (impute_column df j)) as [H1 H2].
  rewrite H1, H2, impute_column_nrows, impute_column_ncols; auto.
Qed.

Lemma impute_nrows (df : DataFrame) : nrows (impute df) = nrows df.
Proof. apply fold_impute_shape. Qed.

Lemma impute_ncols (df : DataFrame) : ncols (impute df) = ncols df.
Proof. apply fold_impute_shape. Qed.

Lemma drop_duplicates_count (df : DataFrame) :
  (count_true (duplicated df) + nrows (drop_duplicates df) = nrows df)%nat.
Proof.
  unfold drop_duplicates, df_select, nrows at 1; simpl.
  apply select_negb_count. apply duplicated_length.
Qed.

(* ================================================================== *)
(** * The shape fields of the CleaningReport *)
(* ================================================================== *)

(** C7. For every input table (and every number parser), the
    CleaningReport satisfies [cleaned_shape.rows <= original_shape.rows]
    and [rows_removed = original_shape.rows - cleaned_shape.rows]. *)
Theorem cleaning_report_rows :
  forall (parse_number : string -> option Q) (raw : DataFrame)
         (cleaned_filename : string),
    let report := cleaning_report_of parse_number raw cleaned_filename in
    (fst (cleaned_shape report) <= fst (original_shape report))%Z /\
    rows_removed report =
      (fst (original_shape report) - fst (cleaned_shape report))%Z.
Proof.
  intros parse raw name report. unfold report, cleaning_report_of; simpl.
  split; [|reflexivity].
  rewrite impute_nrows.
  pose proof (drop_duplicates_count (prepare parse raw)). lia.
Qed.

(** C10. For every input table, the [duplicates] field of the
    CleaningReport (rows marked by [duplicated()], first occurrences
    kept, on the trimmed and coerced frame) equals its [rows_removed]
    field. *)
Theorem duplicates_eq_rows_removed :
  forall (parse_number : string -> option Q) (raw : DataFrame)
         (cleaned_filename : string),
    let report := cleaning_report_of parse_number raw cleaned_filename in
    duplicates report = rows_removed report.
Proof.
  intros parse raw name report. unfold report, cleaning_report_of; simpl.
  rewrite impute_nrows.
  pose proof (drop_duplicates_count (prepare parse raw)). lia.
Qed.

(* ================================================================== *)
(** * The end-to-end scenario *)
(* ================================================================== *)

(** The scenario table has no text column, so the Cleaner does not call
    the number parser on it. *)
Lemma scenario_cleaned (parse_number : string -> option Q) :
  clean_frame parse_number Example.scenario =
  mkDF [("age", Int64); ("years_experience", Int64); ("salary", Int64)]
       [(0%Z, [Num 25; Num 3; Num 50000]);
        (2%Z, [Num 200; Num 1; Num (-10)])].
Proof. reflexivity. Qed.

(** C4, as the code behaves.  On the scenario table, run end to end: the
    CleaningReport counts one duplicate and the Cleaner removes it; the
    Anomaly Detector receives the two remaining rows, labelled 0 and 2,
    so its duplicate census reports 0; [negative_salary] and
    [invalid_age] both hold the label 2 of the third row; the IQR rule
    flags no age.  Whatever the isolation forest answers, the report is
    the one below.  Given the uncleaned table instead, the census of the
    detector reports 2, with the labels 0 and 1. *)
Theorem scenario_end_to_end :
  forall (parse_number : string -> option Q)
         (isolation_forest : list (list Q) -> Py.result (list bool))
         (current_year : Z),
    let cleaned := clean_frame parse_number Example.scenario in
    duplicates (cleaning_report_of parse_number Example.scenario "c") = 1%Z /\
    index cleaned = [0%Z; 2%Z] /\
    detect_anomalies isolation_forest current_year cleaned =
      (anomaly_mask <- isolation_forest
                         [[25; 3; 50000]; [200; 1; -10]]%Q ;;
       Py.Ok {| an_outliers := [];
                an_invalid_values := [];
                an_missing_values := [];
                an_domain_anomalies :=
                  [("invalid_age", [2%Z]); ("exp_gt_age", []);
                   ("negative_salary", [2%Z])];
                an_duplicates := 0;
                an_rows_with_duplicates := [];
                an_anomaly_indices := select anomaly_mask [0%Z; 2%Z];
                an_summary := "Advanced anomaly detection completed." |}) /\
    outlier_mask (3 # 2) (column 0 cleaned) = [false; false] /\
    Z.of_nat (count_true (duplicated_all Example.scenario)) = 2%Z /\
    select (duplicated_all Example.scenario) (index Example.scenario)
      = [0%Z; 1%Z].
Proof.
  intros parse iso year cleaned. unfold cleaned.
  rewrite scenario_cleaned.
  repeat split; try reflexivity.
  vm_compute. destruct (iso _); reflexivity.
Qed.

(** C4, as stated, fails: end to end, the duplicate census of the
    Anomaly Detector reports 0 on the scenario table, not 2. *)
Lemma scenario_census_is_zero :
  exists report,
    detect_anomalies Example.isolation_forest Example.current_year
      (clean_frame Example.parse_number Example.scenario) = Py.Ok report /\
    an_duplicates report = 0%Z /\
    an_duplicates report <> 2%Z.
Proof.
  eexists. split; [reflexivity|]. split; [reflexivity|discriminate].
Qed.

(* ================================================================== *)
(** * Imputation of a numeric column without a value *)
(* ================================================================== *)

(** C3, at the failing input.  The second column of the table is float64
    and entirely null; its median is NaN, [fillna(NaN)] changes nothing,
    and the cleaned table still holds the two null cells. *)
Theorem all_null_numeric_column_keeps_nulls :
  forall parse_number : string -> option Q,
    column 1 (clean_frame parse_number Example.all_null_numeric) = [NA; NA] /\
    median (column 1 Example.all_null_numeric) = NA.
Proof. intros parse. split; reflexivity. Qed.

(* ================================================================== *)
(** * A failing check inside the Anomaly Detector *)
(* ================================================================== *)

Section DetectorFailure.

Variable F : Type.
Variable parse_number : string -> option Q.
Variable isolation_forest : list (list Q) -> Py.result (list bool).
Variable current_year : Z.
Variable describe_to_dict : list string -> list (list Cell) -> PyObj F.
Variable corr : list (list Cell) -> list (list (pyfloat F)).
Variable top_values : list Cell -> PyObj F.
Variable read_csv : string -> Py.result DataFrame.
Variable read_excel : string -> Py.result DataFrame.
Variable to_csv : DataFrame -> string -> Py.result unit.
Variable render : DataFrame -> Z -> Py.result (list (string * string)).
Variable llm_invoke :
  CleaningReport -> PyObj F -> AnomalyReport -> Py.result string.
Variable generate_mock_insights : PyObj F -> AnomalyReport -> string.
Variable emit_sql : DataFrame -> string -> Py.result string.

Let State := AgentState F.
Let clean := clean_data_node parse_number read_csv read_excel to_csv (F := F).
Let stats :=
  generate_statistics_node describe_to_dict corr top_values (F := F).
Let detect := detect_anomalies_node isolation_forest current_year (F := F).
Let viz := create_visualizations_node render (F := F).
Let insight := generate_insights_node llm_invoke generate_mock_insights.
Let sql := generate_sql_node emit_sql (F := F).

(** The first exception raised by a check is the outcome of the whole
    block: the age rule, the experience rule, the promotion-year rule
    and the isolation forest all sit in the one [try]. *)
Lemma age_rule_raises (df : DataFrame) (e : string) :
  invalid_age_of df = Py.Raise e ->
  detect_anomalies isolation_forest current_year df = Py.Raise e.
Proof.
  intros H. unfold detect_anomalies, domain_rules. rewrite H. reflexivity.
Qed.

Lemma forest_raises (df : DataFrame) (e : string) (d : Py.dict (list Z)) :
  domain_rules current_year df = Py.Ok d ->
  multivariate isolation_forest df = Py.Raise e ->
  detect_anomalies isolation_forest current_year df = Py.Raise e.
Proof.
  intros H1 H2. unfold detect_anomalies. rewrite H1; simpl. rewrite H2.
  reflexivity.
Qed.

(** The node on a failing block: no report is stored, the message is
    appended, the status key is left as it was. *)
Lemma detect_node_on_failure (s : State) (df : DataFrame) (e : string) :
  cleaned_data s = Some df ->
  detect_anomalies isolation_forest current_year df = Py.Raise e ->
  anomalies (detect s) = anomalies s /\
  errors (detect s) = errors s ++ ["Anomaly detection error: " +++ e] /\
  status (detect s) = status s.
Proof.
  intros Hc Hd. unfold detect, detect_anomalies_node.
  rewrite Hc; simpl. rewrite Hd; simpl. auto.
Qed.

Lemma clean_node_success (s : State) (raw : DataFrame) :
  load read_csv read_excel (file_path s) = Py.Ok raw ->
  to_csv (clean_frame parse_number raw)
    (path_join (dirname (file_path s)) ("cleaned_" +++ basename (file_path s)))
    = Py.Ok tt ->
  clean s =
  set_status "cleaning_completed"
    (set_cleaned (clean_frame parse_number raw)
       (cleaning_report_of parse_number raw
          ("cleaned_" +++ basename (file_path s)))
       (set_raw_data raw s)).
Proof.
  intros Hload Hcsv. unfold clean, clean_data_node. rewrite Hload.
  change (file_path (set_raw_data raw s)) with (file_path s).
  rewrite Hcsv. reflexivity.
Qed.

Lemma run_node_errors (node : State -> State) (s : State) :
  errors (run_node node s) = errors s ++ errors (node s).
Proof. reflexivity. Qed.

Lemma run_node_anomalies (node : State -> State) (s : State) :
  anomalies (run_node node s) = anomalies (node s).
Proof. reflexivity. Qed.

Lemma stats_node_success (s : State) (df : DataFrame) :
  cleaned_data s = Some df ->
  stats s =
  set_status "statistics_completed"
    (set_statistics
       (generate_statistics describe_to_dict corr top_values df) s).
Proof.
  intros H. unfold stats, generate_statistics_node. rewrite H. reflexivity.
Qed.

Lemma viz_anomalies (s : State) : anomalies (viz s) = anomalies s.
Proof.
  unfold viz, create_visualizations_node.
  destruct (_ <- _ ;; _); reflexivity.
Qed.

Lemma insight_anomalies (s : State) : anomalies (insight s) = anomalies s.
Proof.
  unfold insight, generate_insights_node.
  destruct (_ <- _ ;; _) as [t|msg]; [reflexivity|].
  destruct (is_quota_error msg); [|reflexivity].
  destruct (statistics s); [|reflexivity].
  destruct (anomalies s) eqn:E; simpl; auto.
Qed.

Lemma sql_anomalies (s : State) : anomalies (sql s) = anomalies s.
Proof.
  unfold sql, generate_sql_node.
  destruct (_ <- _ ;; _); reflexivity.
Qed.

Lemma outcome_of_errors (s : State) (m : string) :
  In m (errors s) ->
  analysis_status (analysis_outcome s) = "failed" /\
  http_status (analysis_outcome s) = 500%Z.
Proof.
  unfold analysis_outcome. destruct (errors s); simpl; [tauto|auto].
Qed.

(** C1, as the code behaves.  When a check of the Anomaly Detector
    raises on the cleaned table, the exception leaves the one [try]
    block of the node: the run ends without an anomaly report (the
    findings of the other checks are not published), the message
    "Anomaly detection error: ..." is in the error list of the result,
    and [analyze_dataset] records the analysis as [failed] and answers
    with HTTP status 500. *)
Theorem detector_failure_fails_run :
  forall (id : Z) (path name : string) (raw : DataFrame) (e : string),
    load read_csv read_excel path = Py.Ok raw ->
    to_csv (clean_frame parse_number raw)
      (path_join (dirname path) ("cleaned_" +++ basename path)) = Py.Ok tt ->
    detect_anomalies isolation_forest current_year
      (clean_frame parse_number raw) = Py.Raise e ->
    let result :=
      analysis_graph_invoke parse_number isolation_forest current_year
        describe_to_dict corr top_values read_csv read_excel to_csv render
        llm_invoke generate_mock_insights emit_sql
        (initial_state F id path name) in
    anomalies result = None /\
    In ("Anomaly detection error: " +++ e) (errors result) /\
    analysis_status (analysis_outcome result) = "failed" /\
    http_status (analysis_outcome result) = 500%Z.
Proof.
  intros id path name raw e Hload Hcsv Hdet result.
  set (s1 := run_node clean (initial_state F id path name)).
  set (s2 := run_node stats s1).
  set (s3 := run_node detect s2).
  assert (H1 : cleaned_data s1 = Some (clean_frame parse_number raw)
               /\ anomalies s1 = None /\ errors s1 = []).
  { unfold s1, run_node.
    rewrite (@clean_node_success (initial_state F id path name) _ Hload Hcsv).
    simpl. auto. }
  destruct H1 as (Hc1 & Ha1 & He1).
  assert (H2 : cleaned_data s2 = Some (clean_frame parse_number raw)
               /\ anomalies s2 = None /\ errors s2 = []).
  { unfold s2. rewrite run_node_errors, run_node_anomalies.
    change (cleaned_data (run_node stats s1)) with (cleaned_data (stats s1)).
    rewrite (@stats_node_success s1 _ Hc1), He1. simpl. auto. }
  destruct H2 as (Hc2 & Ha2 & He2).
  destruct (@detect_node_on_failure s2 _ _ Hc2 Hdet) as (Ha & He & _).
  assert (Ha3 : anomalies s3 = None).
  { unfold s3. rewrite run_node_anomalies. fold detect. congruence. }
  assert (He3 : In ("Anomaly detection error: " +++ e) (errors s3)).
  { unfold s3. rewrite run_node_errors. apply in_or_app; right.
    fold detect. rewrite He. apply in_or_app; right. left; reflexivity. }
  assert (Hres : result = run_node sql (run_node insight (run_node viz s3)))
    by reflexivity.
  assert (Hanom : anomalies result = None).
  { rewrite Hres. rewrite run_node_anomalies, sql_anomalies.
    rewrite run_node_anomalies, insight_anomalies.
    rewrite run_node_anomalies, viz_anomalies. exact Ha3. }
  assert (Herr : In ("Anomaly detection error: " +++ e) (errors result)).
  { rewrite Hres. rewrite !run_node_errors.
    apply in_or_app; left. apply in_or_app; left. apply in_or_app; left.
    exact He3. }
  split; [exact Hanom|]. split; [exact Herr|].
  exact (@outcome_of_errors _ _ Herr).
Qed.

End DetectorFailure.

(** The hypotheses of [detector_failure_fails_run] hold on a run over a
    table whose [age] column is text. *)
Lemma detector_failure_fails_run_witness :
  let cleaned := clean_frame Example.parse_number Example.text_age in
  let result :=
    analysis_graph_invoke Example.parse_number Example.isolation_forest
      Example.current_year Example.describe_to_dict Pearson.corr
      Example.top_values (Example.read_const Example.text_age)
      Example.read_fail Example.to_csv Example.render Example.llm_invoke
      Example.generate_mock_insights Example.emit_sql
      (initial_state R 1 "uploads/people.csv" "people.csv") in
  detect_anomalies Example.isolation_forest Example.current_year cleaned
    = Py.Raise (type_error "<") /\
  anomalies result = None /\
  In ("Anomaly detection error: " +++ type_error "<") (errors result) /\
  analysis_status (analysis_outcome result) = "failed" /\
  http_status (analysis_outcome result) = 500%Z.
Proof.
  split; [reflexivity|].
  apply (@detector_failure_fails_run R
           Example.parse_number Example.isolation_forest
           Example.current_year Example.describe_to_dict Pearson.corr
           Example.top_values (Example.read_const Example.text_age)
           Example.read_fail Example.to_csv Example.render
           Example.llm_invoke Example.generate_mock_insights
           Example.emit_sql 1%Z "uploads/people.csv" "people.csv"
           Example.text_age (type_error "<")); reflexivity.
Defined.

(** C1, as stated, fails.  On the table with a text [age] column the age
    rule raises; the sentinel check has a finding on the same table; the
    run publishes no anomaly report, and the analysis is recorded as
    [failed], not [completed]. *)
Lemma detector_failure_run_not_completed :
  let cleaned := clean_frame Example.parse_number Example.text_age in
  let result :=
    analysis_graph_invoke Example.parse_number Example.isolation_forest
      Example.current_year Example.describe_to_dict Pearson.corr
      Example.top_values (Example.read_const Example.text_age)
      Example.read_fail Example.to_csv Example.render Example.llm_invoke
      Example.generate_mock_insights Example.emit_sql
      (initial_state R 1 "uploads/people.csv" "people.csv") in
  invalid_age_of cleaned = Py.Raise (type_error "<") /\
  invalid_values_of cleaned = [("age", [Str "Null"])] /\
  anomalies result = None /\
  analysis_status (analysis_outcome result) = "failed" /\
  analysis_status (analysis_outcome result) <> "completed".
Proof.
  repeat split; try reflexivity.
  intros H. discriminate H.
Qed.

(* ================================================================== *)
(** * The extension gate of the Loader *)
(* ================================================================== *)

Lemma append_length (a b : string) :
  String.length (a +++ b) = (String.length a + String.length b)%nat.
Proof. induction a as [|c a IH]; simpl; auto. Qed.

Lemma append_assoc (a b c : string) : (a +++ b) +++ c = a +++ (b +++ c).
Proof. induction a as [|x a IH]; simpl; auto. rewrite IH; reflexivity. Qed.

Lemma endswith_cons (c : ascii) (s suffix : string) :
  Py.endswith (String c s) suffix =
  if String.eqb (String c s) suffix then true else Py.endswith s suffix.
Proof. reflexivity. Qed.

Lemma endswith_length (s suffix : string) :
  Py.endswith s suffix = true ->
  (String.length suffix <= String.length s)%nat.
Proof.
  induction s as [|c s IH].
  - destruct suffix; simpl; [lia|discriminate].
  - rewrite endswith_cons.
    destruct (String.eqb_spec (String c s) suffix) as [E|_].
    + intros _. subst suffix. simpl. lia.
    + intros H. specialize (IH H). simpl. lia.
Qed.

Lemma endswith_append (p s suffix : string) :
  (String.length suffix <= String.length s)%nat ->
  Py.endswith (p +++ s) suffix = Py.endswith s suffix.
Proof.
  intros Hlen. induction p as [|c p IH]; [reflexivity|].
  change (String c p +++ s) with (String c (p +++ s)).
  rewrite endswith_cons.
  destruct (String.eqb_spec (String c (p +++ s)) suffix) as [E|_]; auto.
  exfalso. subst suffix. simpl in Hlen. rewrite append_length in Hlen. lia.
Qed.

Lemma endswith_any_length (s : string) :
  Py.endswith_any s [".csv"; ".xlsx"; ".xls"] = true ->
  (4 <= String.length s)%nat.
Proof.
  unfold Py.endswith_any; simpl. rewrite !orb_true_iff.
  intros [H|[H|[H|H]]]; try discriminate;
    apply endswith_length in H; simpl in H; lia.
Qed.

Section UploadFacts.

Variable UPLOAD_DIR : string.
Variable timestamp : string.
Variable save : string -> Py.result Z.
Variable read_csv : string -> Py.result DataFrame.
Variable read_excel : string -> Py.result DataFrame.
Variable db_add : Dataset -> Py.result Z.
Variable str_of_exn : exn -> string.

Lemma stored_path_suffix (filename : string) :
  exists p, stored_path UPLOAD_DIR timestamp filename = p +++ filename.
Proof.
  unfold stored_path, path_join.
  destruct UPLOAD_DIR as [|c d] eqn:E.
  - exists (timestamp +++ "_"). now rewrite append_assoc.
  - destruct (Py.endswith (String c d) "/").
    + exists (String c d +++ timestamp +++ "_"). now rewrite !append_assoc.
    + exists (String c d +++ "/" +++ timestamp +++ "_").
      now rewrite !append_assoc.
Qed.

Lemma endswith_any_csv (path : string) :
  Py.endswith_any path [".csv"; ".xlsx"; ".xls"] = false ->
  Py.endswith path ".csv" = false.
Proof.
  unfold Py.endswith_any. simpl. intros H.
  apply orb_false_iff in H. tauto.
Qed.


End UploadFacts.



(* ================================================================== *)
(** * Column updates *)
(* ================================================================== *)

(** The rows after [df[col] = df[col].map(f)] on the column at [j]. *)
Lemma set_column_map_rows (j : nat) (dt : DType) (f : Cell -> Cell)
  (df : DataFrame) :
  df_rows (set_column j dt (map f (column j df)) df) =
  map (fun r => (fst r, set_nth j (f (nth j (snd r) NA)) (snd r)))
      (df_rows df).
Proof.
  unfold set_column, column; simpl.
  induction (df_rows df) as [|r rows IH]; simpl; auto.
  rewrite IH; reflexivity.
Qed.

Lemma nth_set_nth_other {A} (j k : nat) (v d : A) (l : list A) :
  j <> k -> nth k (set_nth j v l) d = nth k l d.
Proof.
  revert j k; induction l as [|x l IH]; intros [|j] [|k] H; simpl; auto;
    try congruence.
Qed.

Lemma nth_set_nth_same {A} (j : nat) (v d : A) (l : list A) :
  (j < length l)%nat -> nth j (set_nth j v l) d = v.
Proof.
  revert j; induction l as [|x l IH]; intros [|j] H; simpl in *; try lia; auto.
  apply IH. lia.
Qed.

Lemma set_nth_out {A} (j : nat) (v : A) (l : list A) :
  (length l <= j)%nat -> set_nth j v l = l.
Proof.
  revert j; induction l as [|x l IH]; intros [|j] H; simpl in *; try lia; auto.
  rewrite IH; auto. lia.
Qed.

Lemma set_nth_id {A} (j : nat) (d : A) (l : list A) :
  set_nth j (nth j l d) l = l.
Proof.
  revert j; induction l as [|x l IH]; intros [|j]; simpl; auto.
  rewrite IH; reflexivity.
Qed.

Lemma nth_set_nth_cases {A} (j : nat) (v d : A) (l : list A) :
  nth j (set_nth j v l) d = v \/
  ((length l <= j)%nat /\ nth j (set_nth j v l) d = d).
Proof.
  destruct (Nat.lt_ge_cases j (length l)) as [H|H].
  - left. apply nth_set_nth_same; auto.
  - right. split; auto. rewrite set_nth_out by auto. apply nth_overflow; auto.
Qed.

Lemma In_set_nth {A} (j : nat) (v x : A) (l : list A) :
  In x (set_nth j v l) -> x = v \/ In x l.
Proof.
  revert j; induction l as [|y l IH]; intros [|j]; simpl; auto.
  - intros [H|H]; auto.
  - intros [H|H]; auto. destruct (IH _ H); auto.
Qed.

Lemma set_column_names (j : nat) (dt : DType) (vals : list Cell)
  (df : DataFrame) :
  column_names (set_column j dt vals df) = column_names df.
Proof.
  unfold column_names, set_column; simpl.
  destruct (nth_error (df_columns df) j) as [[n d]|] eqn:E; auto.
  revert j E. induction (df_columns df) as [|c cols IH]; intros [|j] E;
    simpl in *; try discriminate; auto.
  - injection E as E; subst c; reflexivity.
  - rewrite (IH _ E); reflexivity.
Qed.

Lemma set_column_dtype_other (j k : nat) (dt : DType) (vals : list Cell)
  (df : DataFrame) :
  j <> k -> dtype_at k (set_column j dt vals df) = dtype_at k df.
Proof.
  intros H. unfold dtype_at, set_column; simpl.
  destruct (nth_error (df_columns df) j) as [[n d]|] eqn:E; auto.
  clear E. revert j k H.
  induction (df_columns df) as [|c cols IH]; intros [|j] [|k] H; simpl; auto.
  congruence.
Qed.

Lemma set_column_dtype_same (j : nat) (dt : DType) (vals : list Cell)
  (df : DataFrame) :
  (j < ncols df)%nat -> dtype_at j (set_column j dt vals df) = dt.
Proof.
  unfold dtype_at, set_column, ncols; simpl. intros H.
  destruct (nth_error (df_columns df) j) as [[n d]|] eqn:E.
  - clear E. revert j H.
    induction (df_columns df) as [|c cols IH]; intros [|j] H; simpl in *;
      try lia; auto.
    apply IH. lia.
  - apply nth_error_None in E. lia.
Qed.

Lemma set_column_same_dtype_columns (j : nat) (vals : list Cell)
  (df : DataFrame) :
  df_columns (set_column j (dtype_at j df) vals df) = df_columns df.
Proof.
  unfold set_column, dtype_at; simpl.
  destruct (nth_error (df_columns df) j) as [[n d]|] eqn:E; auto.
  revert j E. induction (df_columns df) as [|c cols IH]; intros [|j] E;
    simpl in *; try discriminate.
  - injection E as E; subst c; reflexivity.
  - rewrite (IH _ E); reflexivity.
Qed.

Lemma column_set_column_other (j k : nat) (dt : DType) (f : Cell -> Cell)
  (df : DataFrame) :
  j <> k ->
  column k (set_column j dt (map f (column j df)) df) = column k df.
Proof.
  intros H. unfold column at 1. rewrite set_column_map_rows, map_map.
  unfold column. apply map_ext. intros r; simpl.
  apply nth_set_nth_other; auto.
Qed.

(** After the update every cell of the column is an image of [f], or the
    null that stands for a cell the row does not have. *)
Lemma column_set_column_same (P : Cell -> Prop) (j : nat) (dt : DType)
  (f : Cell -> Cell) (df : DataFrame) :
  P NA -> (forall c, P (f c)) ->
  Forall P (column j (set_column j dt (map f (column j df)) df)).
Proof.
  intros HNA Hf. unfold column at 1. rewrite set_column_map_rows, map_map.
  apply Forall_forall. intros c Hc. apply in_map_iff in Hc.
  destruct Hc as (r & <- & _); simpl.
  destruct (nth_set_nth_cases j (f (nth j (snd r) NA)) NA (snd r))
    as [E|[_ E]]; rewrite E; auto.
Qed.

Lemma select_map {A B} (g : A -> B) (mask : list bool) (l : list A) :
  select mask (map g l) = map g (select mask l).
Proof.
  revert l; induction mask as [|b mask IH]; intros [|x l]; simpl; auto.
  destruct b; simpl; rewrite IH; reflexivity.
Qed.

Lemma select_In {A} (mask : list bool) (l : list A) (x : A) :
  In x (select mask l) -> In x l.
Proof.
  revert l; induction mask as [|b mask IH]; intros [|y l]; simpl;
    try tauto.
  destruct b; simpl; intros H; [destruct H|]; auto.
Qed.

Lemma select_map_test {A} (f : A -> bool) (l : list A) :
  select (map f l) l = filter f l.
Proof.
  induction l as [|x l IH]; simpl; auto.
  destruct (f x); rewrite IH; reflexivity.
Qed.

Lemma column_df_select (j : nat) (mask : list bool) (df : DataFrame) :
  column j (df_select mask df) = select mask (column j df).
Proof. unfold column, df_select; simpl. symmetry; apply select_map. Qed.

Lemma Forall_select {A} (P : A -> Prop) (mask : list bool) (l : list A) :
  Forall P l -> Forall P (select mask l).
Proof.
  intros H. apply Forall_forall. intros x Hx.
  apply select_In in Hx. rewrite Forall_forall in H; auto.
Qed.

(* ================================================================== *)
(** * The sentinel check *)
(* ================================================================== *)

Lemma dict_get_set_same {V} (d : Py.dict V) (k : string) (v : V) :
  Py.dict_get (Py.dict_set d k v) k = Some v.
Proof.
  induction d as [|[k' v'] d IH]; simpl.
  - rewrite String.eqb_refl; reflexivity.
  - destruct (String.eqb_spec k' k) as [E|E]; simpl.
    + subst. rewrite String.eqb_refl; reflexivity.
    + destruct (String.eqb_spec k' k); [contradiction|exact IH].
Qed.

Lemma dict_get_set_other {V} (d : Py.dict V) (k k' : string) (v : V) :
  k <> k' -> Py.dict_get (Py.dict_set d k' v) k = Py.dict_get d k.
Proof.
  intros H. induction d as [|[k0 v0] d IH]; simpl.
  - destruct (String.eqb_spec k' k); [congruence|reflexivity].
  - destruct (String.eqb_spec k0 k') as [E|E]; simpl.
    + subst k0. destruct (String.eqb_spec k' k); [congruence|reflexivity].
    + destruct (String.eqb_spec k0 k); [reflexivity|exact IH].
Qed.

Lemma count_true_map_pos {A} (f : A -> bool) (l : list A) (x : A) :
  In x l -> f x = true -> (0 <? count_true (map f l))%nat = true.
Proof.
  intros Hin Hf. apply Nat.ltb_lt. unfold count_true.
  induction l as [|y l IH]; simpl in *; [contradiction|].
  destruct Hin as [->|Hin].
  - rewrite Hf; simpl; lia.
  - specialize (IH Hin). destruct (f y); simpl; lia.
Qed.

Lemma count_true_map_zero {A} (f : A -> bool) (l : list A) :
  Forall (fun x => f x = false) l ->
  (0 <? count_true (map f l))%nat = false.
Proof.
  intros H. apply Nat.ltb_ge. unfold count_true.
  induction H as [|y l Hy _ IH]; simpl; [lia|].
  rewrite Hy; exact IH.
Qed.

Lemma seq_split (j n : nat) :
  (j < n)%nat -> seq 0 n = seq 0 j ++ j :: seq (S j) (n - S j).
Proof.
  intros H. replace n with (j + S (n - S j))%nat at 1 by lia.
  rewrite seq_app. reflexivity.
Qed.

Lemma names_differ (df : DataFrame) (j k : nat) :
  NoDup (column_names df) ->
  (j < ncols df)%nat -> (k < ncols df)%nat -> j <> k ->
  name_at k df <> name_at j df.
Proof.
  intros Hnd Hj Hk Hjk E. apply Hjk.
  unfold name_at in E. unfold ncols in *.
  assert (Hlen : length (column_names df) = length (df_columns df))
    by (unfold column_names; apply length_map).
  rewrite (NoDup_nth (column_names df) EmptyString) in Hnd.
  symmetry. apply Hnd; auto; lia.
Qed.

Lemma invalid_values_fold_other (df : DataFrame) (js : list nat)
  (acc : Py.dict (list Cell)) (c : string) :
  (forall k, In k js -> name_at k df <> c) ->
  Py.dict_get (fold_left (invalid_values_step df) js acc) c
  = Py.dict_get acc c.
Proof.
  revert acc; induction js as [|k js IH]; intros acc H; simpl; auto.
  rewrite IH by (intros k' Hk'; apply H; right; exact Hk').
  unfold invalid_values_step.
  destruct (0 <? count_true _)%nat; auto.
  apply dict_get_set_other. intros E. apply (H k); [left; reflexivity|].
  symmetry; exact E.
Qed.

(** What the check stores for the column at [j]: its sentinel cells when
    there is one, and no entry otherwise. *)
Lemma invalid_values_at (df : DataFrame) (j : nat) :
  NoDup (column_names df) -> (j < ncols df)%nat ->
  Py.dict_get (invalid_values_of df) (name_at j df) =
  if (0 <? count_true (map is_sentinel (column j df)))%nat
  then Some (filter is_sentinel (column j df))
  else None.
Proof.
  intros Hnd Hj. unfold invalid_values_of.
  rewrite (seq_split Hj), fold_left_app; simpl.
  rewrite invalid_values_fold_other.
  2:{ intros k Hk. apply in_seq in Hk. apply names_differ; auto; lia. }
  unfold invalid_values_step at 1.
  destruct (0 <? count_true (map is_sentinel (column j df)))%nat.
  - rewrite dict_get_set_same, select_map_test. reflexivity.
  - rewrite invalid_values_fold_other; [reflexivity|].
    intros k Hk. apply in_seq in Hk. apply names_differ; auto; lia.
Qed.

Lemma null_in_any_case (s : string) :
  In (Py.strip s) (case_variants "null") -> is_sentinel (Str s) = true.
Proof.
  assert (H : Forall (fun t => Py.str_in (Py.lower t)
                                 ["nan"; "null"; EmptyString; "none"] = true)
                     (case_variants "null")).
  { vm_compute. repeat constructor. }
  rewrite Forall_forall in H. intros Hin. exact (H _ Hin).
Qed.

Lemma detect_reports_invalid_values
  (isolation_forest : list (list Q) -> Py.result (list bool))
  (current_year : Z) (df : DataFrame) (report : AnomalyReport) :
  detect_anomalies isolation_forest current_year df = Py.Ok report ->
  an_invalid_values report = invalid_values_of df.
Proof.
  unfold detect_anomalies.
  destruct (domain_rules current_year df); simpl; [|discriminate].
  destruct (multivariate isolation_forest df); simpl; [|discriminate].
  intros H; injection H as <-; reflexivity.
Qed.

(* ================================================================== *)
(** * Columns through the Cleaner *)
(* ================================================================== *)

Lemma not_text_not_sentinel (c : Cell) : not_text c -> is_sentinel c = false.
Proof. destruct c; simpl; tauto. Qed.

Lemma column_set_column_pres (P : Cell -> Prop) (j : nat) (dt : DType)
  (f : Cell -> Cell) (df : DataFrame) :
  P NA -> Forall P (column j df) -> (forall c, P c -> P (f c)) ->
  Forall P (column j (set_column j dt (map f (column j df)) df)).
Proof.
  intros HNA Hcol Hf. unfold column at 1.
  rewrite set_column_map_rows, map_map.
  apply Forall_forall. intros c Hc. apply in_map_iff in Hc.
  destruct Hc as (r & <- & Hr); simpl.
  destruct (nth_set_nth_cases j (f (nth j (snd r) NA)) NA (snd r))
    as [E|[_ E]]; rewrite E; auto.
  apply Hf. rewrite Forall_forall in Hcol. apply Hcol.
  unfold column. apply in_map_iff. exists r; auto.
Qed.

Lemma median_not_text (cells : list Cell) : not_text (median cells).
Proof.
  unfold median. cbv zeta.
  generalize (length (sorted_numbers cells)). intros [|n]; [exact I|].
  destruct (Nat.even (S n)); exact I.
Qed.

Lemma impute_column_names (df : DataFrame) (j : nat) :
  column_names (impute_column df j) = column_names df.
Proof.
  unfold impute_column.
  destruct (is_float_or_int _); apply set_column_names.
Qed.

Lemma impute_column_other (df : DataFrame) (j k : nat) :
  j <> k ->
  column k (impute_column df j) = column k df /\
  dtype_at k (impute_column df j) = dtype_at k df.
Proof.
  intros H. unfold impute_column, fillna.
  destruct (is_float_or_int _); split;
    auto using column_set_column_other, set_column_dtype_other.
Qed.

Lemma impute_column_dtype (df : DataFrame) (j k : nat) :
  dtype_at k (impute_column df j) = dtype_at k df.
Proof.
  unfold impute_column, dtype_at.
  destruct (is_float_or_int _);
    rewrite (set_column_same_dtype_columns j _ df); reflexivity.
Qed.

Lemma fold_impute_other (js : list nat) (df : DataFrame) (k : nat) :
  ~ In k js ->
  column k (fold_left impute_column js df) = column k df.
Proof.
  revert df; induction js as [|j js IH]; intros df H; simpl; auto.
  rewrite IH by (intros Hin; apply H; right; exact Hin).
  apply impute_column_other. intros E; apply H; left; exact E.
Qed.

Lemma fold_impute_names (js : list nat) (df : DataFrame) :
  column_names (fold_left impute_column js df) = column_names df.
Proof.
  revert df; induction js as [|j js IH]; intros df; simpl; auto.
  rewrite IH. apply impute_column_names.
Qed.

Lemma fold_impute_dtype (js : list nat) (df : DataFrame) (k : nat) :
  dtype_at k (fold_left impute_column js df) = dtype_at k df.
Proof.
  revert df; induction js as [|j js IH]; intros df; simpl; auto.
  rewrite IH. apply impute_column_dtype.
Qed.

(** Imputation of a numeric column keeps it free of text. *)
Lemma impute_numeric_not_text (df : DataFrame) (j : nat) :
  is_float_or_int (dtype_at j df) = true ->
  Forall not_text (column j df) ->
  Forall not_text (column j (impute df)).
Proof.
  intros Hdt Hcol. unfold impute.
  destruct (Nat.lt_ge_cases j (ncols df)) as [Hj|Hj].
  - rewrite (seq_split Hj), fold_left_app; simpl.
    rewrite fold_impute_other by (rewrite in_seq; lia).
    set (df1 := fold_left impute_column (seq 0 j) df).
    assert (H1 : column j df1 = column j df)
      by (apply fold_impute_other; rewrite in_seq; lia).
    assert (H2 : dtype_at j df1 = dtype_at j df)
      by apply fold_impute_dtype.
    unfold impute_column. rewrite H2, Hdt. unfold fillna.
    apply column_set_column_pres; simpl; auto.
    + rewrite H1; exact Hcol.
    + intros c Hc. destruct (isnull c); auto. apply median_not_text.
  - rewrite fold_impute_other by (rewrite in_seq; lia). exact Hcol.
Qed.

Section CleanerFacts.

Variable parse_number : string -> option Q.

Lemma to_numeric_not_text (c : Cell) : not_text (to_numeric_cell parse_number c).
Proof. destruct c; simpl; auto. destruct (parse_number s); simpl; auto. Qed.

Lemma coerce_column_names (df : DataFrame) (j : nat) :
  column_names (coerce_column parse_number df j) = column_names df.
Proof.
  unfold coerce_column.
  destruct (DType_eqb _ _); auto.
  destruct (0 <? _)%nat; auto. apply set_column_names.
Qed.

Lemma coerce_column_ncols (df : DataFrame) (j : nat) :
  ncols (coerce_column parse_number df j) = ncols df.
Proof.
  unfold coerce_column.
  destruct (DType_eqb _ _); auto.
  destruct (0 <? _)%nat; auto. apply set_column_ncols.
Qed.

Lemma coerce_column_other (df : DataFrame) (j k : nat) :
  j <> k ->
  column k (coerce_column parse_number df j) = column k df /\
  dtype_at k (coerce_column parse_number df j) = dtype_at k df.
Proof.
  intros H. unfold coerce_column, to_numeric.
  destruct (DType_eqb _ _); auto.
  destruct (0 <? _)%nat; auto.
  split; auto using column_set_column_other, set_column_dtype_other.
Qed.

Lemma fold_coerce_other (js : list nat) (df : DataFrame) (k : nat) :
  ~ In k js ->
  column k (fold_left (coerce_column parse_number) js df) = column k df /\
  dtype_at k (fold_left (coerce_column parse_number) js df) = dtype_at k df.
Proof.
  revert df; induction js as [|j js IH]; intros df H; simpl; auto.
  destruct (IH (coerce_column parse_number df j)) as [H1 H2].
  { intros Hin; apply H; right; exact Hin. }
  destruct (@coerce_column_other df j k) as [H3 H4].
  { intros E; apply H; left; exact E. }
  rewrite H1, H2; auto.
Qed.

Lemma fold_coerce_names (js : list nat) (df : DataFrame) :
  column_names (fold_left (coerce_column parse_number) js df)
  = column_names df /\
  ncols (fold_left (coerce_column parse_number) js df) = ncols df.
Proof.
  revert df; induction js as [|j js IH]; intros df; simpl; auto.
  destruct (IH (coerce_column parse_number df j)) as [H1 H2].
  rewrite H1, H2, coerce_column_names, coerce_column_ncols; auto.
Qed.

(** The column at [j] after the coercion loop is what its own turn made
    of it. *)
Lemma coerce_numeric_at (df : DataFrame) (j : nat) :
  (j < ncols df)%nat ->
  column j (coerce_numeric parse_number df)
    = column j (coerce_column parse_number df j) /\
  dtype_at j (coerce_numeric parse_number df)
    = dtype_at j (coerce_column parse_number df j) /\
  column j (coerce_column parse_number df j) =
    (if DType_eqb (dtype_at j df) Object
        && (0 <? length (filter notna (to_numeric parse_number (column j df))))%nat
     then column j (set_column j Float64
                      (to_numeric parse_number (column j df)) df)
     else column j df).
Proof.
  intros Hj. unfold coerce_numeric.
  rewrite (seq_split Hj), fold_left_app; simpl.
  set (df1 := fold_left (coerce_column parse_number) (seq 0 j) df).
  destruct (@fold_coerce_other (seq 0 j) df j) as [H1 H2].
  { rewrite in_seq; lia. }
  fold df1 in H1, H2.
  destruct (@fold_coerce_other (seq (S j) (ncols df - S j))
              (coerce_column parse_number df1 j) j) as [H3 H4].
  { rewrite in_seq; lia. }
  rewrite H3, H4.
  assert (Hstep : forall d : DataFrame,
    column j d = column j df -> dtype_at j d = dtype_at j df ->
    (j < ncols d)%nat ->
    column j (coerce_column parse_number d j)
      = column j (coerce_column parse_number df j) /\
    dtype_at j (coerce_column parse_number d j)
      = dtype_at j (coerce_column parse_number df j)).
  { intros d Hc Hd Hn. unfold coerce_column. rewrite Hc, Hd.
    destruct (DType_eqb (dtype_at j df) Object); auto.
    destruct (0 <? _)%nat; auto.
    split.
    - unfold column at 1 3. unfold to_numeric.
      rewrite <- Hc at 1. rewrite !set_column_map_rows, !map_map.
      unfold column in Hc.
      revert Hc. generalize (df_rows d) (df_rows df).
      intros l1; induction l1 as [|r1 l1 IH]; intros [|r2 l2] Hc;
        simpl in *; try discriminate; auto.
      injection Hc as Hc1 Hc2. rewrite (IH _ Hc2). f_equal.
      destruct (nth_set_nth_cases j
                  (to_numeric_cell parse_number (nth j (snd r1) NA)) NA
                  (snd r1)) as [E1|[L1 E1]];
      destruct (nth_set_nth_cases j
                  (to_numeric_cell parse_number (nth j (snd r2) NA)) NA
                  (snd r2)) as [E2|[L2 E2]];
        rewrite E1, E2; try congruence.
      + rewrite Hc1. rewrite (nth_overflow (snd r2)) by exact L2.
        reflexivity.
      + rewrite <- Hc1. rewrite (nth_overflow (snd r1)) by exact L1.
        reflexivity.
    - rewrite !set_column_dtype_same; auto. }
  assert (Hn1 : (j < ncols df1)%nat).
  { unfold df1. destruct (fold_coerce_names (seq 0 j) df) as [_ E].
    rewrite E; exact Hj. }
  destruct (Hstep df1 H1 H2 Hn1) as [Hs1 Hs2].
  split; [exact Hs1|]. split; [exact Hs2|].
  unfold coerce_column.
  destruct (DType_eqb (dtype_at j df) Object); simpl; auto.
  destruct (0 <? _)%nat; auto.
Qed.

End CleanerFacts.

Section SentinelFacts.

Variable parse_number : string -> option Q.

Lemma clean_frame_names (raw : DataFrame) :
  column_names (clean_frame parse_number raw) = column_names raw.
Proof.
  unfold clean_frame, impute, prepare, coerce_numeric.
  rewrite fold_impute_names.
  change (column_names (drop_duplicates ?d)) with (column_names d).
  destruct (fold_coerce_names parse_number
              (seq 0 (ncols (applymap strip_cell (dropna_all raw))))
              (applymap strip_cell (dropna_all raw))) as [E _].
  rewrite E. reflexivity.
Qed.

Lemma ncols_names (df : DataFrame) : ncols df = length (column_names df).
Proof. unfold ncols, column_names. symmetry; apply length_map. Qed.

(** A text column in which a cell parses as a number leaves the Cleaner
    as a float64 column without a text cell. *)
Lemma coerced_column_not_text (raw : DataFrame) (j : nat) (c : Cell) :
  (j < ncols raw)%nat ->
  dtype_at j raw = Object ->
  In c (column j (applymap strip_cell (dropna_all raw))) ->
  notna (to_numeric_cell parse_number c) = true ->
  dtype_at j (clean_frame parse_number raw) = Float64 /\
  Forall not_text (column j (clean_frame parse_number raw)).
Proof.
  intros Hj Hdt Hin Hparse.
  set (pre := applymap strip_cell (dropna_all raw)).
  assert (Hjp : (j < ncols pre)%nat) by exact Hj.
  assert (Hdp : dtype_at j pre = Object) by exact Hdt.
  destruct (coerce_numeric_at parse_number pre Hjp) as (H1 & H2 & H3).
  assert (Hpos : (0 <? length (filter notna
                     (to_numeric parse_number (column j pre))))%nat = true).
  { apply Nat.ltb_lt.
    assert (Hin' : In (to_numeric_cell parse_number c)
                     (filter notna (to_numeric parse_number (column j pre)))).
    { apply filter_In. split; auto. unfold to_numeric. apply in_map. exact Hin. }
    destruct (filter notna _); [contradiction|simpl; lia]. }
  assert (Hstep : coerce_column parse_number pre j =
                  set_column j Float64
                    (to_numeric parse_number (column j pre)) pre).
  { unfold coerce_column. rewrite Hdp; simpl. rewrite Hpos. reflexivity. }
  assert (Hc1 : Forall not_text (column j (prepare parse_number raw))).
  { unfold prepare. fold pre. rewrite H1, Hstep. unfold to_numeric.
    apply column_set_column_same; simpl; auto.
    apply to_numeric_not_text. }
  assert (Hd1 : dtype_at j (prepare parse_number raw) = Float64).
  { unfold prepare. fold pre. rewrite H2, Hstep.
    apply set_column_dtype_same; exact Hjp. }
  set (D := drop_duplicates (prepare parse_number raw)).
  assert (Hc2 : Forall not_text (column j D)).
  { unfold D, drop_duplicates. rewrite column_df_select.
    apply Forall_select; exact Hc1. }
  assert (Hd2 : dtype_at j D = Float64) by exact Hd1.
  split.
  - unfold clean_frame. fold D. unfold impute.
    rewrite fold_impute_dtype. exact Hd2.
  - unfold clean_frame. fold D.
    apply impute_numeric_not_text; auto. rewrite Hd2; reflexivity.
Qed.

Variable isolation_forest : list (list Q) -> Py.result (list bool).
Variable current_year : Z.

(** C5, as the code behaves.  In the table the Anomaly Detector
    receives, every text cell whose trimmed, lower-cased text is one of
    nan, null, the empty text or none is recorded in [invalid_values]
    under its column, and so is every text cell whose trimmed value is
    "NULL" in any
    letter case.  A column that the Cleaner coerced to numeric (a text
    column of which at least one cell parses as a number) reaches the
    detector without a text cell: its "NULL" cells have become nulls and
    have been imputed, and [invalid_values] has no entry for it. *)
Theorem sentinel_check :
  (forall (df : DataFrame) (report : AnomalyReport) (j : nat)
          (r : Z * list Cell) (s : string),
      NoDup (column_names df) ->
      (j < ncols df)%nat ->
      In r (df_rows df) ->
      nth_error (snd r) j = Some (Str s) ->
      Py.str_in (Py.lower (Py.strip s)) ["nan"; "null"; EmptyString; "none"] = true
        \/ In (Py.strip s) (case_variants "null") ->
      detect_anomalies isolation_forest current_year df = Py.Ok report ->
      exists cells,
        Py.dict_get (an_invalid_values report) (name_at j df) = Some cells /\
        In (Str s) cells) /\
  (forall (raw : DataFrame) (report : AnomalyReport) (j : nat) (c : Cell),
      NoDup (column_names raw) ->
      (j < ncols raw)%nat ->
      dtype_at j raw = Object ->
      In c (column j (applymap strip_cell (dropna_all raw))) ->
      notna (to_numeric_cell parse_number c) = true ->
      detect_anomalies isolation_forest current_year
        (clean_frame parse_number raw) = Py.Ok report ->
      Py.dict_get (an_invalid_values report) (name_at j raw) = None).
Proof.
  split.
  - intros df report j r s Hnd Hj Hr Hcell Hs Hdet.
    assert (Hsent : is_sentinel (Str s) = true).
    { destruct Hs as [Hs|Hs]; [exact Hs|apply null_in_any_case; exact Hs]. }
    assert (Hin : In (Str s) (column j df)).
    { unfold column. apply in_map_iff. exists r. split; auto.
      apply nth_error_nth; exact Hcell. }
    rewrite (detect_reports_invalid_values _ _ _ Hdet).
    rewrite invalid_values_at by auto.
    rewrite (count_true_map_pos is_sentinel _ _ Hin Hsent).
    eexists. split; [reflexivity|].
    apply filter_In. split; auto.
  - intros raw report j c Hnd Hj Hdt Hin Hparse Hdet.
    rewrite (detect_reports_invalid_values _ _ _ Hdet).
    destruct (@coerced_column_not_text raw j c Hj Hdt Hin Hparse) as [_ Hnt].
    assert (Hname : name_at j raw = name_at j (clean_frame parse_number raw)).
    { unfold name_at. rewrite clean_frame_names. reflexivity. }
    rewrite Hname, invalid_values_at.
    + rewrite count_true_map_zero; [reflexivity|].
      eapply Forall_impl; [|exact Hnt].
      intros a Ha. apply not_text_not_sentinel; exact Ha.
    + rewrite clean_frame_names; exact Hnd.
    + rewrite ncols_names, clean_frame_names, <- ncols_names. exact Hj.
Qed.

End SentinelFacts.

(** The hypotheses of [sentinel_check] are met: a text column keeps its
    " Null " cell and the detector records it; a column of numbers with a
    " Null " cell is coerced and nothing is recorded for it. *)
Lemma sentinel_check_witness :
  exists report1 report2,
    detect_anomalies Example.isolation_forest Example.current_year
      (clean_frame Example.parse_number Example.city_with_null)
      = Py.Ok report1 /\
    detect_anomalies Example.isolation_forest Example.current_year
      (clean_frame Example.parse_number Example.salary_with_null)
      = Py.Ok report2 /\
    (exists cells,
        Py.dict_get (an_invalid_values report1) "city" = Some cells /\
        In (Str "Null") cells) /\
    Py.dict_get (an_invalid_values report2) "salary" = None.
Proof.
  destruct (sentinel_check Example.parse_number Example.isolation_forest
              Example.current_year) as [H1 H2].
  eexists; eexists.
  split; [reflexivity|]. split; [reflexivity|]. split.
  - apply (H1 (clean_frame Example.parse_number Example.city_with_null)
              _ 0%nat (1%Z, [Str "Null"]) "Null").
    + vm_compute. repeat constructor. tauto.
    + apply Nat.ltb_lt; reflexivity.
    + vm_compute. tauto.
    + reflexivity.
    + left; reflexivity.
    + reflexivity.
  - apply (H2 Example.salary_with_null _ 0%nat (Str "100")).
    + vm_compute. repeat constructor. tauto.
    + apply Nat.ltb_lt; reflexivity.
    + reflexivity.
    + vm_compute. tauto.
    + reflexivity.
    + reflexivity.
Defined.

(** C5, as stated, fails.  The cell " Null " trims to "Null", a spelling
    of "NULL"; its column holds numbers otherwise and the Cleaner coerces
    it to float64; the detector then records nothing for the column. *)
Lemma coerced_sentinel_not_flagged :
  In (Str " Null ") (column 0 Example.salary_with_null) /\
  In (Py.strip " Null ") (case_variants "null") /\
  dtype_at 0 (clean_frame Example.parse_number Example.salary_with_null)
    = Float64 /\
  exists report,
    detect_anomalies Example.isolation_forest Example.current_year
      (clean_frame Example.parse_number Example.salary_with_null)
      = Py.Ok report /\
    an_invalid_values report = [] /\
    Py.dict_get (an_invalid_values report) "salary" = None.
Proof.
  split; [simpl; auto|].
  split; [vm_compute; tauto|].
  split; [reflexivity|].
  eexists. split; [reflexivity|]. split; reflexivity.
Qed.

(* ================================================================== *)
(** * Quartiles and the IQR rule *)
(* ================================================================== *)

Lemma Qle_bool_false (x y : Q) : Qle_bool x y = false -> (y <= x)%Q.
Proof.
  intros H. destruct (Qlt_le_dec y x) as [L|L]; [apply Qlt_le_weak; exact L|].
  apply Qle_bool_iff in L. congruence.
Qed.

Lemma sorted_cons (x : Q) (xs : list Q) :
  sorted xs -> (forall y, In y xs -> (x <= y)%Q) -> sorted (x :: xs).
Proof.
  intros Hs Hx [|i] [|j] Hij Hj; simpl in *; try lia.
  - apply Qle_refl.
  - apply Hx. apply nth_In. lia.
  - apply Hs; lia.
Qed.

Lemma sorted_tail (x : Q) (xs : list Q) : sorted (x :: xs) -> sorted xs.
Proof. intros H i j Hij Hj. apply (H (S i) (S j)); simpl; lia. Qed.

Lemma sorted_head (x : Q) (xs : list Q) :
  sorted (x :: xs) -> forall y, In y xs -> (x <= y)%Q.
Proof.
  intros H y Hy. destruct (In_nth _ _ 0%Q Hy) as (n & Hn & <-).
  apply (H O (S n)); simpl; lia.
Qed.

Lemma insert_sorted_In (x y : Q) (l : list Q) :
  In y (insert_sorted Qle_bool x l) -> y = x \/ In y l.
Proof.
  induction l as [|z l IH]; simpl.
  - intros [H|[]]; auto.
  - destruct (Qle_bool x z); simpl.
    + intros [H|H]; auto.
    + intros [H|H]; auto. destruct (IH H); auto.
Qed.

Lemma insert_sorted_sorted (x : Q) (l : list Q) :
  sorted l -> sorted (insert_sorted Qle_bool x l).
Proof.
  induction l as [|z l IH]; intros Hs; simpl.
  - apply sorted_cons; auto. intros y [].
  - destruct (Qle_bool x z) eqn:E.
    + apply sorted_cons; auto. intros y [<-|Hy].
      * apply Qle_bool_iff; exact E.
      * apply Qle_trans with z; [apply Qle_bool_iff; exact E|].
        apply (sorted_head Hs); exact Hy.
    + apply sorted_cons.
      * apply IH. apply (sorted_tail Hs).
      * intros y Hy. apply insert_sorted_In in Hy. destruct Hy as [->|Hy].
        -- apply Qle_bool_false; exact E.
        -- apply (sorted_head Hs); exact Hy.
Qed.

Lemma sort_by_sorted (l : list Q) : sorted (sort_by Qle_bool l).
Proof.
  induction l as [|x l IH]; simpl.
  - intros i j _ Hj. simpl in Hj. lia.
  - apply insert_sorted_sorted; exact IH.
Qed.

Lemma Qlt_bool_iff (x y : Q) : Qlt_bool x y = true <-> (x < y)%Q.
Proof.
  unfold Qlt_bool. rewrite negb_true_iff. split.
  - intros H. apply Qnot_le_lt. intros L.
    apply Qle_bool_iff in L. congruence.
  - intros H. destruct (Qle_bool y x) eqn:E; auto.
    apply Qle_bool_iff in E. exfalso. apply (Qlt_not_le _ _ H E).
Qed.

Lemma filter_length_le_impl {A} (f g : A -> bool) (l : list A) :
  (forall x, f x = true -> g x = true) ->
  (length (filter f l) <= length (filter g l))%nat.
Proof.
  intros H. induction l as [|x l IH]; simpl; auto.
  destruct (f x) eqn:E.
  - rewrite (H x E); simpl; lia.
  - destruct (g x); simpl; lia.
Qed.

(* ================================================================== *)
(** * Rounding to binary64 *)
(* ================================================================== *)

Lemma pow2_pos (e : Z) : (0 < pow2 e)%Q.
Proof. unfold pow2. apply Qpower_0_lt. reflexivity. Qed.

Lemma pow2_add (a b : Z) : (pow2 (a + b) == pow2 a * pow2 b)%Q.
Proof. unfold pow2. apply Qpower_plus. discriminate. Qed.

Lemma pow2_le (a b : Z) : (a <= b)%Z -> (pow2 a <= pow2 b)%Q.
Proof. intros H. unfold pow2. apply Qpower_le_compat_l; [exact H|]. discriminate. Qed.

Lemma pow2_lt (a b : Z) : (a < b)%Z -> (pow2 a < pow2 b)%Q.
Proof. intros H. unfold pow2. apply Qpower_lt_compat_l; [exact H|]. reflexivity. Qed.

Lemma pow2_lt_inv (a b : Z) : (pow2 a < pow2 b)%Q -> (a < b)%Z.
Proof. intros H. unfold pow2 in H. apply Qpower_lt_compat_l_inv in H; [exact H|]. reflexivity. Qed.

Lemma pow2_int (e : Z) : (0 <= e)%Z -> (pow2 e == inject_Z (2 ^ e))%Q.
Proof. intros H. unfold pow2. rewrite Zpower_Qpower by exact H. reflexivity. Qed.

Lemma pow2_succ (e : Z) : (pow2 (e + 1) == 2 * pow2 e)%Q.
Proof. rewrite pow2_add. change (pow2 1) with 2%Q. ring. Qed.

Lemma pow2_div (x : Q) (a b : Z) :
  (x * pow2 a / pow2 b == x * pow2 (a - b))%Q.
Proof.
  replace a with ((a - b) + b)%Z at 1 by lia. rewrite pow2_add.
  field. pose proof (pow2_pos b). lra.
Qed.

(** ** The nearest integer *)

Lemma round_half_even_comp (x y : Q) :
  (x == y)%Q -> round_half_even x = round_half_even y.
Proof.
  intros H. unfold round_half_even. rewrite (Qfloor_comp _ _ H).
  assert (E : (x - inject_Z (Qfloor y) == y - inject_Z (Qfloor y))%Q)
    by (rewrite H; reflexivity).
  assert (E1 : Qle_bool (1 # 2) (x - inject_Z (Qfloor y))
               = Qle_bool (1 # 2) (y - inject_Z (Qfloor y))).
  { destruct (Qle_bool (1 # 2) (y - inject_Z (Qfloor y))) eqn:B.
    - apply Qle_bool_iff. apply Qle_bool_iff in B. rewrite E. exact B.
    - destruct (Qle_bool (1 # 2) (x - inject_Z (Qfloor y))) eqn:B'; auto.
      apply Qle_bool_iff in B'. rewrite E in B'.
      apply Qle_bool_iff in B'. congruence. }
  assert (E2 : Qle_bool (x - inject_Z (Qfloor y)) (1 # 2)
               = Qle_bool (y - inject_Z (Qfloor y)) (1 # 2)).
  { destruct (Qle_bool (y - inject_Z (Qfloor y)) (1 # 2)) eqn:B.
    - apply Qle_bool_iff. apply Qle_bool_iff in B. rewrite E. exact B.
    - destruct (Qle_bool (x - inject_Z (Qfloor y)) (1 # 2)) eqn:B'; auto.
      apply Qle_bool_iff in B'. rewrite E in B'.
      apply Qle_bool_iff in B'. congruence. }
  rewrite E1, E2. reflexivity.
Qed.

Lemma round_half_even_cases (x : Q) :
  (round_half_even x = Qfloor x /\ (x - inject_Z (Qfloor x) <= 1 # 2)%Q) \/
  (round_half_even x = (Qfloor x + 1)%Z
   /\ (1 # 2 <= x - inject_Z (Qfloor x))%Q).
Proof.
  unfold round_half_even.
  destruct (Qle_bool (1 # 2) (x - inject_Z (Qfloor x))) eqn:B1.
  - apply Qle_bool_iff in B1.
    destruct (Qle_bool (x - inject_Z (Qfloor x)) (1 # 2)) eqn:B2.
    + apply Qle_bool_iff in B2.
      destruct (Z.even (Qfloor x)); [left | right]; auto.
    + right; auto.
  - left. split; auto.
    destruct (Qlt_le_dec (x - inject_Z (Qfloor x)) (1 # 2)) as [H|H].
    + apply Qlt_le_weak; exact H.
    + apply Qle_bool_iff in H. congruence.
Qed.

Lemma floor_bounds (x : Q) :
  (inject_Z (Qfloor x) <= x)%Q /\ (x < inject_Z (Qfloor x) + 1)%Q.
Proof.
  split; [apply Qfloor_le|].
  pose proof (Qlt_floor x) as H. rewrite inject_Z_plus in H. exact H.
Qed.

Lemma round_half_even_bounds (x : Q) :
  (x - (1 # 2) <= inject_Z (round_half_even x))%Q /\
  (inject_Z (round_half_even x) <= x + (1 # 2))%Q.
Proof.
  destruct (floor_bounds x) as [H1 H2].
  destruct (round_half_even_cases x) as [[-> H]|[-> H]].
  - split; lra.
  - rewrite inject_Z_plus. change (inject_Z 1) with 1%Q. split; lra.
Qed.

Lemma floor_unique (x : Q) (m : Z) :
  (inject_Z m <= x)%Q -> (x < inject_Z m + 1)%Q -> Qfloor x = m.
Proof.
  intros H1 H2.
  assert (A : (m <= Qfloor x)%Z).
  { rewrite <- (Qfloor_Z m). apply Qfloor_resp_le. exact H1. }
  assert (B : (Qfloor x < m + 1)%Z).
  { rewrite Zlt_Qlt, inject_Z_plus. change (inject_Z 1) with 1%Q.
    pose proof (Qfloor_le x). lra. }
  lia.
Qed.

Lemma round_half_even_int (m : Z) : round_half_even (inject_Z m) = m.
Proof.
  unfold round_half_even. rewrite Qfloor_Z.
  assert (E : Qle_bool (1 # 2) (inject_Z m - inject_Z m) = false).
  { destruct (Qle_bool (1 # 2) (inject_Z m - inject_Z m)) eqn:B; auto.
    apply Qle_bool_iff in B. lra. }
  rewrite E. reflexivity.
Qed.

Lemma round_half_even_mono (x y : Q) :
  (x <= y)%Q -> (round_half_even x <= round_half_even y)%Z.
Proof.
  intros H.
  assert (Hf : (Qfloor x <= Qfloor y)%Z) by (apply Qfloor_resp_le; exact H).
  destruct (Z.eq_dec (Qfloor x) (Qfloor y)) as [E|E].
  - unfold round_half_even. rewrite E.
    set (f := Qfloor y).
    destruct (Qle_bool (1 # 2) (x - inject_Z f)) eqn:X1;
      destruct (Qle_bool (1 # 2) (y - inject_Z f)) eqn:Y1.
    + destruct (Qle_bool (x - inject_Z f) (1 # 2)) eqn:X2;
        destruct (Qle_bool (y - inject_Z f) (1 # 2)) eqn:Y2;
        try (destruct (Z.even f); lia).
      exfalso. apply Qle_bool_iff in Y2.
      assert (Hx : (x - inject_Z f <= 1 # 2)%Q) by lra.
      apply Qle_bool_iff in Hx. congruence.
    + exfalso. apply Qle_bool_iff in X1.
      assert (Hy : (1 # 2 <= y - inject_Z f)%Q) by lra.
      apply Qle_bool_iff in Hy. congruence.
    + destruct (Qle_bool (y - inject_Z f) (1 # 2));
        try (destruct (Z.even f)); lia.
    + lia.
  - assert (Hlt : (Qfloor x + 1 <= Qfloor y)%Z) by lia.
    destruct (round_half_even_cases x) as [[-> _]|[-> _]];
      destruct (round_half_even_cases y) as [[-> _]|[-> _]]; lia.
Qed.

Lemma round_half_even_nonneg (x : Q) :
  (0 <= x)%Q -> (0 <= round_half_even x)%Z.
Proof.
  intros H. rewrite <- (round_half_even_int 0).
  apply round_half_even_mono. exact H.
Qed.

Lemma round_half_even_small (x : Q) :
  (0 <= x)%Q -> (x <= 1 # 2)%Q -> round_half_even x = 0%Z.
Proof.
  intros H0 H1.
  assert (Hf : Qfloor x = 0%Z).
  { apply floor_unique; change (inject_Z 0) with 0%Q; lra. }
  unfold round_half_even. rewrite Hf. change (inject_Z 0) with 0%Q.
  destruct (Qle_bool (1 # 2) (x - 0)) eqn:B1; [|reflexivity].
  destruct (Qle_bool (x - 0) (1 # 2)) eqn:B2; [reflexivity|].
  exfalso. assert (Hx : (x - 0 <= 1 # 2)%Q) by lra.
  apply Qle_bool_iff in Hx. congruence.
Qed.

Lemma round_half_even_le_double (x : Q) :
  (0 <= x)%Q -> (inject_Z (round_half_even x) <= 2 * x)%Q.
Proof.
  intros H. destruct (Qlt_le_dec x (1 # 2)) as [Hs|Hs].
  - rewrite round_half_even_small by lra. change (inject_Z 0) with 0%Q. lra.
  - destruct (round_half_even_bounds x) as [_ Hb]. lra.
Qed.

(** ** The exponent *)

Lemma Q_as_fraction (x : Q) :
  (x * inject_Z (Zpos (Qden x)) == inject_Z (Qnum x))%Q.
Proof.
  destruct x as [n d]. unfold Qeq, Qmult, inject_Z. simpl. lia.
Qed.

Lemma ilog2_spec (x : Q) :
  (0 < x)%Q -> (pow2 (ilog2 x) <= x)%Q /\ (x < pow2 (ilog2 x + 1))%Q.
Proof.
  intros Hx.
  assert (Hn : (0 < Qnum x)%Z).
  { destruct x as [n d]. unfold Qlt in Hx. simpl in *. lia. }
  pose proof (Q_as_fraction x) as Hfrac.
  set (n := Qnum x) in *. set (d := Zpos (Qden x)) in *.
  assert (Hd : (0 < d)%Z) by (unfold d; lia).
  destruct (Z.log2_spec n Hn) as [Hn1 Hn2].
  destruct (Z.log2_spec d Hd) as [Hd1 Hd2].
  pose proof (Z.log2_nonneg n) as Ln. pose proof (Z.log2_nonneg d) as Ld.
  set (ln := Z.log2 n) in *. set (ld := Z.log2 d) in *.
  rewrite Zle_Qle in Hn1, Hd1. rewrite Zlt_Qlt in Hn2, Hd2.
  rewrite <- pow2_int in Hn1, Hd1 by lia.
  unfold Z.succ in Hn2, Hd2. rewrite <- pow2_int in Hn2, Hd2 by lia.
  assert (Hlo : (pow2 (ln - ld - 1) < x)%Q).
  { pose proof (pow2_pos (ld + 1)) as P. pose proof (pow2_pos (ln - ld - 1)) as P'.
    assert (E : (pow2 ln == pow2 (ln - ld - 1) * pow2 (ld + 1))%Q).
    { rewrite <- pow2_add. replace (ln - ld - 1 + (ld + 1))%Z with ln by lia.
      reflexivity. }
    assert (H1 : (pow2 (ln - ld - 1) * pow2 (ld + 1) < x * pow2 (ld + 1))%Q).
    { rewrite <- E. apply Qle_lt_trans with (inject_Z n); [exact Hn1|].
      rewrite <- Hfrac. apply Qmult_lt_l; [exact Hx | exact Hd2]. }
    apply Qmult_lt_r in H1; assumption. }
  assert (Hhi : (x < pow2 (ln - ld + 1))%Q).
  { pose proof (pow2_pos ld) as P.
    assert (E : (pow2 (ln + 1) == pow2 (ln - ld + 1) * pow2 ld)%Q).
    { rewrite <- pow2_add. replace (ln - ld + 1 + ld)%Z with (ln + 1)%Z by lia.
      reflexivity. }
    assert (H1 : (x * pow2 ld < pow2 (ln - ld + 1) * pow2 ld)%Q).
    { rewrite <- E. apply Qle_lt_trans with (inject_Z n); [|exact Hn2].
      rewrite <- Hfrac. apply Qmult_le_l; [exact Hx | exact Hd1]. }
    apply Qmult_lt_r in H1; assumption. }
  unfold ilog2. fold n d ln ld.
  destruct (Qle_bool (pow2 (ln - ld)) x) eqn:B.
  - apply Qle_bool_iff in B. split; assumption.
  - replace (ln - ld - 1 + 1)%Z with (ln - ld)%Z by lia.
    split; [apply Qlt_le_weak; exact Hlo|].
    destruct (Qlt_le_dec x (pow2 (ln - ld))) as [H|H]; [exact H|].
    apply Qle_bool_iff in H. congruence.
Qed.

Lemma ilog2_unique (x : Q) (a : Z) :
  (pow2 a <= x)%Q -> (x < pow2 (a + 1))%Q -> ilog2 x = a.
Proof.
  intros H1 H2.
  assert (Hx : (0 < x)%Q) by (pose proof (pow2_pos a); lra).
  destruct (ilog2_spec Hx) as [S1 S2].
  assert (A : (a < ilog2 x + 1)%Z) by (apply pow2_lt_inv; lra).
  assert (B : (ilog2 x < a + 1)%Z) by (apply pow2_lt_inv; lra).
  lia.
Qed.

Lemma ilog2_mono (x y : Q) :
  (0 < x)%Q -> (x <= y)%Q -> (ilog2 x <= ilog2 y)%Z.
Proof.
  intros Hx H.
  destruct (ilog2_spec Hx) as [S1 _].
  assert (Hy : (0 < y)%Q) by lra.
  destruct (ilog2_spec Hy) as [_ T2].
  assert (A : (ilog2 x < ilog2 y + 1)%Z) by (apply pow2_lt_inv; lra).
  lia.
Qed.

Lemma b64_exponent_mono (x y : Q) :
  (0 < x)%Q -> (x <= y)%Q -> (b64_exponent x <= b64_exponent y)%Z.
Proof.
  intros Hx H. unfold b64_exponent.
  pose proof (ilog2_mono Hx H). lia.
Qed.

Lemma b64_exponent_min (x : Q) : (-1074 <= b64_exponent x)%Z.
Proof. unfold b64_exponent. lia. Qed.

(** The scaled value [x / 2 ^ e] of a positive number is below [2 ^ 53];
    it is at least [2 ^ 52] unless the number is subnormal. *)
Lemma scaled_upper (x : Q) :
  (0 < x)%Q -> (x < pow2 53 * pow2 (b64_exponent x))%Q.
Proof.
  intros Hx. destruct (ilog2_spec Hx) as [_ S2].
  rewrite <- pow2_add.
  apply Qlt_le_trans with (1 := S2). apply pow2_le.
  unfold b64_exponent. lia.
Qed.

Lemma scaled_lower (x : Q) :
  (0 < x)%Q -> (-1074 < b64_exponent x)%Z ->
  (pow2 52 * pow2 (b64_exponent x) <= x)%Q.
Proof.
  intros Hx He. destruct (ilog2_spec Hx) as [S1 _].
  rewrite <- pow2_add.
  apply Qle_trans with (2 := S1). apply pow2_le.
  unfold b64_exponent in *. lia.
Qed.

(** ** Rounding a number that is not negative *)

Lemma b64_pos_nonneg (x : Q) : (0 <= x)%Q -> (0 <= b64_pos x)%Q.
Proof.
  intros H. unfold b64_pos.
  pose proof (pow2_pos (b64_exponent x)) as P.
  apply Qmult_le_0_compat; [|lra].
  change 0%Q with (inject_Z 0). rewrite <- Zle_Qle.
  apply round_half_even_nonneg.
  apply Qle_shift_div_l; [exact P | lra].
Qed.

Lemma b64_pos_le_double (x : Q) : (0 <= x)%Q -> (b64_pos x <= 2 * x)%Q.
Proof.
  intros H. unfold b64_pos.
  pose proof (pow2_pos (b64_exponent x)) as P.
  set (e := b64_exponent x) in *.
  assert (Hs : (0 <= x / pow2 e)%Q) by (apply Qle_shift_div_l; [exact P | lra]).
  pose proof (round_half_even_le_double Hs) as R.
  assert (E : (2 * x == 2 * (x / pow2 e) * pow2 e)%Q) by (field; lra).
  rewrite E. apply Qmult_le_compat_r; [exact R | lra].
Qed.


Lemma b64_pos_zero (x : Q) : (x == 0)%Q -> (b64_pos x == 0)%Q.
Proof.
  intros H. unfold b64_pos. set (e := b64_exponent x).
  pose proof (pow2_pos e) as P.
  rewrite (@round_half_even_comp _ 0%Q).
  - change (round_half_even 0) with 0%Z. ring.
  - rewrite H. field. lra.
Qed.

Lemma b64_pos_comp (x y : Q) :
  (0 <= x)%Q -> (x == y)%Q -> (b64_pos x == b64_pos y)%Q.
Proof.
  intros H0 E. destruct (Qeq_dec x 0) as [Z|NZ].
  - rewrite (b64_pos_zero Z), b64_pos_zero; [reflexivity|].
    rewrite <- E. exact Z.
  - assert (Hx : (0 < x)%Q) by lra.
    assert (Hy : (0 < y)%Q) by lra.
    destruct (ilog2_spec Hx) as [S1 S2].
    assert (El : ilog2 y = ilog2 x) by (apply ilog2_unique; lra).
    unfold b64_pos, b64_exponent. rewrite El.
    set (e := Z.max (ilog2 x - 52) (-1074)).
    pose proof (pow2_pos e) as P.
    rewrite (@round_half_even_comp (x / pow2 e) (y / pow2 e)).
    + reflexivity.
    + rewrite E. reflexivity.
Qed.

(** The rounded value of a positive number is between [2 ^ 52] and
    [2 ^ 53] units of its last place. *)
Lemma significand_upper (x : Q) :
  (0 < x)%Q ->
  (round_half_even (x / pow2 (b64_exponent x)) <= 2 ^ 53)%Z.
Proof.
  intros Hx. rewrite <- (round_half_even_int (2 ^ 53)).
  apply round_half_even_mono.
  pose proof (pow2_pos (b64_exponent x)) as P.
  apply Qle_shift_div_r; [exact P|].
  rewrite <- pow2_int by lia.
  apply Qlt_le_weak. apply scaled_upper. exact Hx.
Qed.

Lemma significand_lower (x : Q) :
  (0 < x)%Q -> (-1074 < b64_exponent x)%Z ->
  (2 ^ 52 <= round_half_even (x / pow2 (b64_exponent x)))%Z.
Proof.
  intros Hx He. rewrite <- (round_half_even_int (2 ^ 52)) at 1.
  apply round_half_even_mono.
  pose proof (pow2_pos (b64_exponent x)) as P.
  apply Qle_shift_div_l; [exact P|].
  rewrite <- pow2_int by lia.
  apply scaled_lower; assumption.
Qed.

Lemma b64_pos_mono (x y : Q) :
  (0 <= x)%Q -> (x <= y)%Q -> (b64_pos x <= b64_pos y)%Q.
Proof.
  intros H0 H. destruct (Qeq_dec x 0) as [Z|NZ].
  - rewrite (b64_pos_zero Z). apply b64_pos_nonneg. lra.
  - assert (Hx : (0 < x)%Q) by lra.
    assert (Hy : (0 < y)%Q) by lra.
    pose proof (b64_exponent_mono Hx H) as He.
    pose proof (b64_exponent_min x) as Hmin.
    destruct (Z.eq_dec (b64_exponent x) (b64_exponent y)) as [E|NE].
    + unfold b64_pos. rewrite <- E. set (e := b64_exponent x).
      pose proof (pow2_pos e) as P.
      apply Qmult_le_compat_r; [|lra].
      rewrite <- Zle_Qle. apply round_half_even_mono.
      apply Qmult_le_compat_r; [exact H|].
      apply Qlt_le_weak. apply Qinv_lt_0_compat. exact P.
    + assert (Hlt : (b64_exponent x + 1 <= b64_exponent y)%Z) by lia.
      assert (Hn : (-1074 < b64_exponent y)%Z) by lia.
      pose proof (significand_upper Hx) as U.
      pose proof (significand_lower Hy Hn) as L.
      unfold b64_pos.
      set (ex := b64_exponent x) in *. set (ey := b64_exponent y) in *.
      set (mx := round_half_even (x / pow2 ex)) in *.
      set (my := round_half_even (y / pow2 ey)) in *.
      pose proof (pow2_pos ex) as Px. pose proof (pow2_pos ey) as Py.
      rewrite Zle_Qle in U, L. rewrite <- pow2_int in U, L by lia.
      apply Qle_trans with (pow2 53 * pow2 ex)%Q.
      { apply Qmult_le_compat_r; [exact U | lra]. }
      apply Qle_trans with (pow2 52 * pow2 ey)%Q.
      { rewrite <- !pow2_add. apply pow2_le. lia. }
      apply Qmult_le_compat_r; [exact L | lra].
Qed.

(** A multiple [m * 2 ^ e] of a power of two with at most 53 bits and
    an exponent no less than -1074 is a binary64 number. *)
Lemma b64_pos_fix (m e : Z) :
  (0 <= m <= 2 ^ 53)%Z -> (-1074 <= e)%Z ->
  (b64_pos (inject_Z m * pow2 e) == inject_Z m * pow2 e)%Q.
Proof.
  intros Hm He.
  destruct (Z.eq_dec m 0) as [->|Hm0].
  { rewrite b64_pos_zero; ring. }
  set (x := (inject_Z m * pow2 e)%Q).
  pose proof (pow2_pos e) as Pe.
  assert (Hm1 : (1 <= inject_Z m)%Q).
  { change 1%Q with (inject_Z 1). rewrite <- Zle_Qle. lia. }
  assert (Hx : (0 < x)%Q).
  { unfold x. apply Qmult_lt_0_compat; lra. }
  assert (Hup : (inject_Z m <= pow2 53)%Q).
  { rewrite pow2_int by lia. rewrite <- Zle_Qle. lia. }
  assert (Hint : exists p : Z,
             (x / pow2 (b64_exponent x) == inject_Z p)%Q).
  { set (e' := b64_exponent x) in *.
    pose proof (pow2_pos e') as Pe'.
    destruct (Z_le_gt_dec e' e) as [L|G].
    - exists (m * 2 ^ (e - e'))%Z.
      rewrite inject_Z_mult, <- pow2_int by lia.
      unfold x. apply pow2_div.
    - assert (Hmin : (-1074 < e')%Z) by lia.
      pose proof (scaled_lower Hx Hmin) as S. fold e' in S.
      assert (Hxu : (x <= pow2 53 * pow2 e)%Q).
      { unfold x. apply Qmult_le_compat_r; [exact Hup | lra]. }
      rewrite <- !pow2_add in *.
      assert (Ee : e' = (e + 1)%Z).
      { destruct (Z_le_gt_dec e' (e + 1)) as [L|G2]; [lia|exfalso].
        assert (pow2 (53 + e) < pow2 (52 + e'))%Q by (apply pow2_lt; lia).
        lra. }
      exists (2 ^ 52)%Z. rewrite <- pow2_int by lia.
      assert (Em : (inject_Z m == pow2 53)%Q).
      { apply Qle_antisym; [exact Hup|].
        rewrite Ee in S. replace (52 + (e + 1))%Z with (53 + e)%Z in S by lia.
        rewrite pow2_add in S. unfold x in S.
        apply Qmult_le_r in S; assumption. }
      unfold x. rewrite Em, Ee.
      rewrite pow2_div. rewrite <- pow2_add. 
      replace (53 + (e - (e + 1)))%Z with 52%Z by lia. reflexivity. }
  destruct Hint as [p Hp].
  unfold b64_pos. rewrite (round_half_even_comp Hp), round_half_even_int.
  rewrite <- Hp. field.
  pose proof (pow2_pos (b64_exponent x)). lra.
Qed.

(** A positive number below [2 ^ -1021] is rounded on the subnormal
    grid. *)
Lemma b64_exponent_subnormal (x : Q) :
  (0 < x)%Q -> (x < pow2 (-1021))%Q -> b64_exponent x = (-1074)%Z.
Proof.
  intros Hx H. destruct (ilog2_spec Hx) as [S1 _].
  assert (ilog2 x < -1021)%Z by (apply pow2_lt_inv; lra).
  unfold b64_exponent. lia.
Qed.

(** ** Halves and quarters of a rounded number *)

Lemma round_half_even_half (z : Q) :
  (0 <= z)%Q ->
  (inject_Z (round_half_even (inject_Z (round_half_even z) * (1 # 2))) <= z)%Q.
Proof.
  intros Hz. pose proof (round_half_even_nonneg Hz) as Hm.
  destruct (round_half_even_bounds z) as [_ Hu].
  set (m := round_half_even z) in *.
  destruct (Z_le_gt_dec 2 m) as [H2|H2].
  - destruct (round_half_even_bounds (inject_Z m * (1 # 2))) as [_ Hb].
    assert (2 <= inject_Z m)%Q
      by (change 2%Q with (inject_Z 2); rewrite <- Zle_Qle; exact H2).
    destruct (round_half_even_bounds z) as [Hl _]. fold m in Hl. lra.
  - assert (Hc : m = 0%Z \/ m = 1%Z) by lia.
    destruct Hc as [-> | ->]; vm_compute round_half_even; exact Hz.
Qed.

Lemma round_half_even_quarter (z : Q) :
  (0 <= z)%Q ->
  (inject_Z (round_half_even (inject_Z (round_half_even z) * (1 # 4)))
   <= z * (1 # 2))%Q.
Proof.
  intros Hz. pose proof (round_half_even_nonneg Hz) as Hm.
  destruct (round_half_even_bounds z) as [Hl Hu].
  set (m := round_half_even z) in *.
  destruct (Z_le_gt_dec 3 m) as [H3|H3].
  - destruct (round_half_even_bounds (inject_Z m * (1 # 4))) as [_ Hb].
    assert (3 <= inject_Z m)%Q
      by (change 3%Q with (inject_Z 3); rewrite <- Zle_Qle; exact H3).
    lra.
  - assert (Hc : m = 0%Z \/ m = 1%Z \/ m = 2%Z) by lia.
    destruct Hc as [-> | [-> | ->]]; vm_compute round_half_even;
      change (inject_Z 0) with 0%Q; lra.
Qed.

Lemma b64_pos_subnormal (y : Q) :
  (0 <= y)%Q -> (y < pow2 (-1021))%Q ->
  (b64_pos y
   == inject_Z (round_half_even (y / pow2 (-1074))) * pow2 (-1074))%Q.
Proof.
  intros H0 H. destruct (Qeq_dec y 0) as [Z|NZ].
  - rewrite (b64_pos_zero Z).
    rewrite (@round_half_even_comp _ 0%Q).
    + change (round_half_even 0) with 0%Z. ring.
    + rewrite Z. reflexivity.
  - assert (Hy : (0 < y)%Q) by lra.
    unfold b64_pos. rewrite (b64_exponent_subnormal Hy H). reflexivity.
Qed.

Lemma b64_pos_unfold (c : Q) :
  b64_pos c
  = (inject_Z (round_half_even (c / pow2 (b64_exponent c)))
     * pow2 (b64_exponent c))%Q.
Proof. reflexivity. Qed.

Lemma b64_pos_half (c : Q) :
  (0 <= c)%Q -> (b64_pos (b64_pos c * (1 # 2)) <= c)%Q.
Proof.
  intros H0. pose proof (b64_pos_nonneg H0) as Hd.
  pose proof (b64_pos_le_double H0) as Hdd.
  destruct (Qeq_dec c 0) as [Z|NZ].
  { rewrite b64_pos_zero; [exact H0|]. rewrite (b64_pos_zero Z). ring. }
  assert (Hc : (0 < c)%Q) by lra.
  pose proof (significand_upper Hc) as U.
  pose proof (scaled_upper Hc) as SU.
  pose proof (b64_exponent_min c) as Hmin.
  assert (Hnn : (0 <= round_half_even (c / pow2 (b64_exponent c)))%Z).
  { apply round_half_even_nonneg.
    apply Qle_shift_div_l; [apply pow2_pos | lra]. }
  destruct (Z.eq_dec (b64_exponent c) (-1074)) as [E|NE].
  - assert (Hy : (b64_pos c * (1 # 2) < pow2 (-1021))%Q).
    { rewrite E, <- pow2_add in SU. change (53 + -1074)%Z with (-1021)%Z in SU.
      lra. }
    rewrite b64_pos_subnormal; [|lra|exact Hy].
    rewrite b64_pos_unfold, E.
    pose proof (pow2_pos (-1074)) as P. set (p := pow2 (-1074)) in *.
    rewrite (@round_half_even_comp _
               (inject_Z (round_half_even (c / p)) * (1 # 2))%Q)
      by (field; lra).
    assert (Hz : (0 <= c / p)%Q) by (apply Qle_shift_div_l; [exact P | lra]).
    pose proof (round_half_even_half Hz) as R.
    assert (Ec : (c == c / p * p)%Q) by (field; lra).
    rewrite Ec at 2. apply Qmult_le_compat_r; [exact R | lra].
  - rewrite (b64_pos_unfold c) in Hd, Hdd |- *.
    set (m := round_half_even (c / pow2 (b64_exponent c))) in *.
    set (e := b64_exponent c) in *.
    assert (Ey : (inject_Z m * pow2 e * (1 # 2) == inject_Z m * pow2 (e - 1))%Q).
    { replace e with ((e - 1) + 1)%Z at 1 by lia. rewrite pow2_succ. ring. }
    assert (Hy : (0 <= inject_Z m * pow2 e * (1 # 2))%Q) by lra.
    rewrite (b64_pos_comp Hy Ey).
    rewrite b64_pos_fix by lia. rewrite <- Ey. lra.
Qed.

Lemma b64_pos_quarter (c : Q) :
  (0 <= c)%Q -> (b64_pos (b64_pos c * (1 # 4)) <= c * (1 # 2))%Q.
Proof.
  intros H0. pose proof (b64_pos_nonneg H0) as Hd.
  pose proof (b64_pos_le_double H0) as Hdd.
  destruct (Qeq_dec c 0) as [Z|NZ].
  { rewrite b64_pos_zero; [lra|]. rewrite (b64_pos_zero Z). ring. }
  assert (Hc : (0 < c)%Q) by lra.
  pose proof (significand_upper Hc) as U.
  pose proof (scaled_upper Hc) as SU.
  pose proof (b64_exponent_min c) as Hmin.
  assert (Hnn : (0 <= round_half_even (c / pow2 (b64_exponent c)))%Z).
  { apply round_half_even_nonneg.
    apply Qle_shift_div_l; [apply pow2_pos | lra]. }
  pose proof (pow2_pos (-1074)) as P.
  assert (P21 : (pow2 (-1021) == pow2 53 * pow2 (-1074))%Q).
  { rewrite <- pow2_add. reflexivity. }
  assert (P73 : (pow2 (-1073) == 2 * pow2 (-1074))%Q).
  { change (-1073)%Z with (-1074 + 1)%Z. apply pow2_succ. }
  pose proof (pow2_pos 53) as P53.
  destruct (Z.eq_dec (b64_exponent c) (-1074)) as [E|NE];
    [|destruct (Z.eq_dec (b64_exponent c) (-1073)) as [E|NE']].
  - assert (Hy : (b64_pos c * (1 # 4) < pow2 (-1021))%Q).
    { rewrite E in SU. set (p := pow2 (-1074)) in *.
      set (q := pow2 53) in *. rewrite P21.
      assert (0 < q * p)%Q by (apply Qmult_lt_0_compat; assumption). lra. }
    rewrite b64_pos_subnormal; [|lra|exact Hy].
    rewrite b64_pos_unfold, E. set (p := pow2 (-1074)) in *.
    rewrite (@round_half_even_comp _
               (inject_Z (round_half_even (c / p)) * (1 # 4))%Q)
      by (field; lra).
    assert (Hz : (0 <= c / p)%Q) by (apply Qle_shift_div_l; [exact P | lra]).
    pose proof (round_half_even_quarter Hz) as R.
    assert (Ec : (c * (1 # 2) == c / p * (1 # 2) * p)%Q) by (field; lra).
    rewrite Ec. apply Qmult_le_compat_r; [exact R | lra].
  - assert (Hy : (b64_pos c * (1 # 4) < pow2 (-1021))%Q).
    { rewrite E in SU. rewrite P73 in SU. set (p := pow2 (-1074)) in *.
      set (q := pow2 53) in *. rewrite P21.
      assert (0 < q * p)%Q by (apply Qmult_lt_0_compat; assumption). lra. }
    rewrite b64_pos_subnormal; [|lra|exact Hy].
    rewrite b64_pos_unfold, E.
    pose proof (pow2_pos (-1073)) as P'.
    set (p := pow2 (-1074)) in *. set (p' := pow2 (-1073)) in *.
    assert (Hz : (0 <= c / p')%Q) by (apply Qle_shift_div_l; [exact P' | lra]).
    pose proof (round_half_even_half Hz) as R.
    set (m := round_half_even (c / p')) in *.
    assert (Em : (inject_Z m * p' * (1 # 4) / p == inject_Z m * (1 # 2))%Q)
      by (rewrite P73; field; lra).
    rewrite (round_half_even_comp Em).
    assert (Ec : (c * (1 # 2) == c / p' * p)%Q) by (rewrite P73; field; lra).
    rewrite Ec. apply Qmult_le_compat_r; [exact R | lra].
  - rewrite (b64_pos_unfold c) in Hd, Hdd |- *.
    set (m := round_half_even (c / pow2 (b64_exponent c))) in *.
    set (e := b64_exponent c) in *.
    assert (Ey : (inject_Z m * pow2 e * (1 # 4) == inject_Z m * pow2 (e - 2))%Q).
    { replace e with ((e - 2) + 1 + 1)%Z at 1 by lia. rewrite !pow2_succ. ring. }
    assert (Hy : (0 <= inject_Z m * pow2 e * (1 # 4))%Q) by lra.
    rewrite (b64_pos_comp Hy Ey).
    rewrite b64_pos_fix by lia. rewrite <- Ey. lra.
Qed.

(** ** Rounding a number of either sign *)

Lemma b64_eq (x : Q) :
  (b64 x == if Qle_bool 0 x then b64_pos x else - b64_pos (- x))%Q.
Proof. unfold b64. apply Qred_correct. Qed.

Lemma b64_of_nonneg (x : Q) : (0 <= x)%Q -> (b64 x == b64_pos x)%Q.
Proof.
  intros H. rewrite b64_eq. apply Qle_bool_iff in H. rewrite H. reflexivity.
Qed.

Lemma b64_of_neg (x : Q) : (x < 0)%Q -> (b64 x == - b64_pos (- x))%Q.
Proof.
  intros H. rewrite b64_eq.
  destruct (Qle_bool 0 x) eqn:B; [|reflexivity].
  apply Qle_bool_iff in B. lra.
Qed.

Lemma b64_comp (x y : Q) : (x == y)%Q -> b64 x = b64 y.
Proof.
  intros E. unfold b64. apply Qred_complete.
  assert (B : Qle_bool 0 x = Qle_bool 0 y).
  { destruct (Qle_bool 0 y) eqn:By.
    - apply Qle_bool_iff. apply Qle_bool_iff in By. lra.
    - destruct (Qle_bool 0 x) eqn:Bx; auto.
      apply Qle_bool_iff in Bx.
      assert (Hy : (0 <= y)%Q) by lra.
      apply Qle_bool_iff in Hy. congruence. }
  rewrite B. destruct (Qle_bool 0 y) eqn:By.
  - apply Qle_bool_iff in By. apply b64_pos_comp; lra.
  - assert (Hy : (y < 0)%Q).
    { destruct (Qlt_le_dec y 0) as [H|H]; [exact H|].
      apply Qle_bool_iff in H. congruence. }
    assert (Hx : (0 <= - x)%Q) by lra.
    assert (En : (- x == - y)%Q) by lra.
    rewrite (b64_pos_comp Hx En). reflexivity.
Qed.

Lemma b64_nonneg (x : Q) : (0 <= x)%Q -> (0 <= b64 x)%Q.
Proof. intros H. rewrite b64_of_nonneg by exact H. apply b64_pos_nonneg, H. Qed.

Lemma b64_mono (x y : Q) : (x <= y)%Q -> (b64 x <= b64 y)%Q.
Proof.
  intros H. destruct (Qlt_le_dec x 0) as [Hx|Hx];
    destruct (Qlt_le_dec y 0) as [Hy|Hy].
  - rewrite !b64_of_neg by assumption.
    assert (b64_pos (- y) <= b64_pos (- x))%Q by (apply b64_pos_mono; lra).
    lra.
  - rewrite b64_of_neg, b64_of_nonneg by assumption.
    assert (0 <= b64_pos (- x))%Q by (apply b64_pos_nonneg; lra).
    assert (0 <= b64_pos y)%Q by (apply b64_pos_nonneg; lra).
    lra.
  - lra.
  - rewrite !b64_of_nonneg by lra. apply b64_pos_mono; lra.
Qed.

Lemma b64_half (c : Q) : (0 <= c)%Q -> (b64 (b64 c * (1 # 2)) <= c)%Q.
Proof.
  intros H. pose proof (b64_nonneg H) as Hd.
  rewrite b64_of_nonneg by lra.
  assert (E : (b64 c * (1 # 2) == b64_pos c * (1 # 2))%Q)
    by (rewrite b64_of_nonneg by exact H; reflexivity).
  assert (Hy : (0 <= b64 c * (1 # 2))%Q) by lra.
  rewrite (b64_pos_comp Hy E). apply b64_pos_half, H.
Qed.

Lemma b64_quarter (c : Q) :
  (0 <= c)%Q -> (b64 (b64 c * (1 # 4)) <= c * (1 # 2))%Q.
Proof.
  intros H. pose proof (b64_nonneg H) as Hd.
  rewrite b64_of_nonneg by lra.
  assert (E : (b64 c * (1 # 4) == b64_pos c * (1 # 4))%Q)
    by (rewrite b64_of_nonneg by exact H; reflexivity).
  assert (Hy : (0 <= b64 c * (1 # 4))%Q) by lra.
  rewrite (b64_pos_comp Hy E). apply b64_pos_quarter, H.
Qed.

(* ================================================================== *)
(** * Quartiles and fences in binary64 *)
(* ================================================================== *)

Lemma b64_one_half : b64 (1 # 2) = (1 # 2)%Q.
Proof. vm_compute. reflexivity. Qed.

Lemma b64_one_quarter : b64 (1 - (3 # 4)) = (1 # 4)%Q.
Proof. vm_compute. reflexivity. Qed.

(** The interpolated value lies between its two neighbours. *)
Lemma lerp_bounds (a b t : Q) :
  (a <= b)%Q -> (0 <= t)%Q -> (t <= 1)%Q ->
  (b64 a <= lerp a b t)%Q /\ (lerp a b t <= b64 b)%Q.
Proof.
  intros Hab H0 H1. unfold lerp, fsub, fadd, fmul.
  assert (Hc : (0 <= b - a)%Q) by lra.
  pose proof (b64_nonneg Hc) as Hd.
  pose proof (b64_half Hc) as Hh.
  set (d := b64 (b - a)) in *.
  destruct (Qle_bool (1 # 2) t) eqn:B.
  - apply Qle_bool_iff in B.
    assert (Hs0 : (0 <= b64 (1 - t))%Q) by (apply b64_nonneg; lra).
    assert (Hs1 : (b64 (1 - t) <= 1 # 2)%Q).
    { rewrite <- b64_one_half. apply b64_mono. lra. }
    set (s := b64 (1 - t)) in *.
    assert (He0 : (0 <= b64 (d * s))%Q)
      by (apply b64_nonneg; apply Qmult_le_0_compat; assumption).
    assert (He1 : (b64 (d * s) <= b64 (d * (1 # 2)))%Q)
      by (apply b64_mono; nra).
    split; apply b64_mono; lra.
  - assert (Ht : (t <= 1 # 2)%Q).
    { destruct (Qlt_le_dec t (1 # 2)) as [L|L];
        [apply Qlt_le_weak; exact L|].
      apply Qle_bool_iff in L. congruence. }
    assert (He0 : (0 <= b64 (d * t))%Q)
      by (apply b64_nonneg; apply Qmult_le_0_compat; assumption).
    assert (He1 : (b64 (d * t) <= b64 (d * (1 # 2)))%Q)
      by (apply b64_mono; nra).
    split; apply b64_mono; lra.
Qed.

(** A quantile lies between the two values around its position. *)
Lemma quantile_sorted_between (xs : list Q) (q v : Q) :
  sorted xs -> (0 <= q)%Q -> (q <= 1)%Q ->
  quantile_sorted q xs = Some v ->
  let lo :=
    Z.to_nat (Qfloor (q * inject_Z (Z.of_nat (length xs - 1)))) in
  (b64 (nth lo xs 0) <= v)%Q /\
  (v <= b64 (nth (Nat.min (S lo) (length xs - 1)) xs 0))%Q.
Proof.
  intros Hs H0 H1. unfold quantile_sorted.
  destruct xs as [|x t]; [discriminate|].
  set (xs := x :: t) in *.
  set (m := (length xs - 1)%nat).
  assert (Hm : (m < length xs)%nat) by (unfold m, xs; simpl; lia).
  set (M := inject_Z (Z.of_nat m)).
  assert (HM : (0 <= M)%Q).
  { unfold M. rewrite <- (Zle_Qle 0). lia. }
  set (p := (q * M)%Q).
  assert (Hp0 : (0 <= p)%Q) by (unfold p; nra).
  assert (HpM : (p <= M)%Q) by (unfold p; nra).
  set (f := Qfloor p).
  assert (Hf0 : (0 <= f)%Z).
  { unfold f. change 0%Z with (Qfloor 0). apply Qfloor_resp_le; exact Hp0. }
  assert (HfM : (f <= Z.of_nat m)%Z).
  { unfold f. rewrite <- (Qfloor_Z (Z.of_nat m)).
    apply Qfloor_resp_le; exact HpM. }
  destruct (floor_bounds p) as [Hfl Hfu]. fold f in Hfl, Hfu.
  intros E. injection E as <-.
  apply lerp_bounds; [|lra|lra].
  apply Hs; lia.
Qed.

(** From three values on, the first quartile ends no later than the
    third one starts. *)
Lemma quartile_positions (m : nat) :
  (2 <= m)%nat ->
  (S (Z.to_nat (Qfloor ((1 # 4) * inject_Z (Z.of_nat m))))
   <= Z.to_nat (Qfloor ((3 # 4) * inject_Z (Z.of_nat m))))%nat.
Proof.
  intros Hm.
  set (M := inject_Z (Z.of_nat m)).
  assert (HM : (2 <= M)%Q).
  { unfold M. change 2%Q with (inject_Z 2). rewrite <- Zle_Qle. lia. }
  set (p1 := ((1 # 4) * M)%Q). set (p3 := ((3 # 4) * M)%Q).
  destruct (floor_bounds p1) as [L1 _].
  assert (H0 : (0 <= Qfloor p1)%Z).
  { change 0%Z with (Qfloor 0). apply Qfloor_resp_le. unfold p1. lra. }
  assert (H13 : (Qfloor p1 + 1 <= Qfloor p3)%Z).
  { rewrite <- (Qfloor_Z (Qfloor p1 + 1)). apply Qfloor_resp_le.
    rewrite inject_Z_plus. change (inject_Z 1) with 1%Q.
    unfold p1, p3 in *. lra. }
  lia.
Qed.

(** The quartiles of a sorted list are in order. *)
Lemma quartiles_sorted_le (xs : list Q) (Q1 Q3 : Q) :
  sorted xs ->
  quantile_sorted (1 # 4) xs = Some Q1 ->
  quantile_sorted (3 # 4) xs = Some Q3 ->
  (Q1 <= Q3)%Q.
Proof.
  intros Hs H1 H3.
  destruct (Nat.eq_dec (length xs) 2) as [E2|N2].
  - destruct xs as [|x [|y [|z t]]]; try discriminate E2.
    change (Some (lerp x y (1 # 4)) = Some Q1) in H1.
    change (Some (lerp x y (3 # 4)) = Some Q3) in H3.
    injection H1 as <-. injection H3 as <-.
    assert (Hxy : (x <= y)%Q) by (apply (Hs 0%nat 1%nat); simpl; lia).
    unfold lerp.
    change (Qle_bool (1 # 2) (1 # 4)) with false.
    change (Qle_bool (1 # 2) (3 # 4)) with true.
    cbv iota. unfold fadd, fsub, fmul. rewrite b64_one_quarter.
    assert (Hc : (0 <= y - x)%Q) by lra.
    pose proof (b64_quarter Hc) as Hq.
    apply b64_mono. lra.
  - assert (Hq1 : (0 <= 1 # 4)%Q /\ (1 # 4 <= 1)%Q)
      by (split; unfold Qle; simpl; lia).
    assert (Hq3 : (0 <= 3 # 4)%Q /\ (3 # 4 <= 1)%Q)
      by (split; unfold Qle; simpl; lia).
    destruct (quantile_sorted_between Hs (proj1 Hq1) (proj2 Hq1) H1)
      as [_ U].
    destruct (quantile_sorted_between Hs (proj1 Hq3) (proj2 Hq3) H3)
      as [L _].
    destruct xs as [|x t]; [discriminate|].
    set (xs := x :: t) in *.
    set (m := (length xs - 1)%nat) in *.
    assert (Hm : (m < length xs)%nat) by (unfold m, xs; simpl; lia).
    set (lo1 := Z.to_nat (Qfloor ((1 # 4) * inject_Z (Z.of_nat m)))) in *.
    set (lo3 := Z.to_nat (Qfloor ((3 # 4) * inject_Z (Z.of_nat m)))) in *.
    assert (Hlo3 : (lo3 <= m)%nat).
    { unfold lo3.
      assert (HfM : (Qfloor ((3 # 4) * inject_Z (Z.of_nat m))
                     <= Z.of_nat m)%Z).
      { rewrite <- (Qfloor_Z (Z.of_nat m)) at 2. apply Qfloor_resp_le.
        assert (0 <= inject_Z (Z.of_nat m))%Q
          by (rewrite <- (Zle_Qle 0); lia).
        lra. }
      lia. }
    assert (Hpos : (Nat.min (S lo1) m <= lo3)%nat).
    { destruct (Nat.eq_dec m 0) as [->|Hm0]; [lia|].
      assert (2 <= m)%nat by (unfold m, xs in *; simpl in *; lia).
      pose proof (quartile_positions H). fold lo1 lo3 in H0. lia. }
    apply Qle_trans with (1 := U). apply Qle_trans with (2 := L).
    apply b64_mono. apply Hs; lia.
Qed.

(** The interquartile range of a column is not negative. *)
Lemma quartiles_ordered (cells : list Cell) (Q1 Q3 : Q) :
  quantile (1 # 4) cells = Some Q1 ->
  quantile (3 # 4) cells = Some Q3 ->
  (Q1 <= Q3)%Q.
Proof.
  unfold quantile. intros H1 H3.
  apply (@quartiles_sorted_le (sorted_numbers cells)); auto.
  apply sort_by_sorted.
Qed.

(** The test of the code is the rule of the specification. *)
Lemma outlier_test_rule (cells : list Cell) (k : Q) (c : Cell) :
  outlier_test (iqr_fences k cells) c
  = iqr_outlier k (quantile (1 # 4) cells) (quantile (3 # 4) cells) c.
Proof.
  unfold outlier_test, iqr_fences, iqr_outlier.
  destruct (quantile (1 # 4) cells) as [Q1|];
    destruct (quantile (3 # 4) cells) as [Q3|];
    destruct (cell_value c); reflexivity.
Qed.

(** A wider fence flags no more. *)
Lemma iqr_outlier_widen (k1 k2 Q1 Q3 : Q) (c : Cell) :
  (Q1 <= Q3)%Q -> (k1 <= k2)%Q ->
  iqr_outlier k2 (Some Q1) (Some Q3) c = true ->
  iqr_outlier k1 (Some Q1) (Some Q3) c = true.
Proof.
  intros HQ Hk. unfold iqr_outlier.
  destruct (cell_value c) as [v|]; [|discriminate].
  unfold fsub, fadd, fmul.
  assert (Hi : (0 <= b64 (Q3 - Q1))%Q) by (apply b64_nonneg; lra).
  set (IQR := b64 (Q3 - Q1)) in *.
  assert (Hm : (b64 (k1 * IQR) <= b64 (k2 * IQR))%Q)
    by (apply b64_mono; nra).
  assert (Hlo : (b64 (Q1 - b64 (k2 * IQR)) <= b64 (Q1 - b64 (k1 * IQR)))%Q)
    by (apply b64_mono; lra).
  assert (Hhi : (b64 (Q3 + b64 (k1 * IQR)) <= b64 (Q3 + b64 (k2 * IQR)))%Q)
    by (apply b64_mono; lra).
  rewrite !orb_true_iff, !Qlt_bool_iff. intros [H|H]; [left|right]; lra.
Qed.

Lemma filter_incl_impl {A} (f g : A -> bool) (l : list A) :
  (forall x, f x = true -> g x = true) -> incl (filter f l) (filter g l).
Proof.
  intros H x Hx. apply filter_In in Hx. apply filter_In.
  split; [tauto|]. apply H. tauto.
Qed.

(** The fences of the code are rounded: on the column 1, 1, 1,
    [1 + 3u], [1 + 8u] with [u = 2 ^ -52] the upper fence is the
    rounding [1 + 8u] of [1 + 7.5u], and the code flags nothing, although
    the last value is above the fence taken without rounding. *)
Lemma fences_are_rounded :
  let u := (1 # 4503599627370496)%Q in
  let col := [Num 1; Num 1; Num 1; Num (1 + 3 * u); Num (1 + 8 * u)] in
  quantile (1 # 4) col = Some 1%Q /\
  (exists Q3, quantile (3 # 4) col = Some Q3 /\ (Q3 == 1 + 3 * u)%Q) /\
  outlier_mask (3 # 2) col = [false; false; false; false; false] /\
  ((1 + 3 * u) + (3 # 2) * ((1 + 3 * u) - 1) < 1 + 8 * u)%Q.
Proof.
  intros u col. split; [vm_compute; reflexivity|].
  split.
  - eexists. split; [vm_compute; reflexivity|]. vm_compute. reflexivity.
  - split; vm_compute; reflexivity.
Qed.

(* ================================================================== *)
(** * Pearson correlation: symmetry and bounds *)
(* ================================================================== *)

Section PearsonFacts.

Import Pearson.
Local Open Scope R_scope.

Lemma complete_pairs_swap (xs ys : list Cell) :
  complete_pairs ys xs = map swap (complete_pairs xs ys).
Proof.
  revert ys; induction xs as [|x xs IH]; intros [|y ys]; simpl; auto.
  rewrite IH. destruct (cell_value x), (cell_value y); simpl; auto.
Qed.

Lemma map_fst_swap (ps : list (R * R)) : map fst (map swap ps) = map snd ps.
Proof. rewrite map_map. apply map_ext. intros [a b]; reflexivity. Qed.

Lemma map_snd_swap (ps : list (R * R)) : map snd (map swap ps) = map fst ps.
Proof. rewrite map_map. apply map_ext. intros [a b]; reflexivity. Qed.

Lemma ssdm_swap (mx my : R) (ps : list (R * R)) :
  ssdm my mx (map swap ps) = ssdm mx my ps.
Proof.
  unfold ssdm. rewrite map_map. f_equal. apply map_ext.
  intros [a b]; simpl. ring.
Qed.

Lemma ssq_swap (m : R) (ps : list (R * R)) :
  ssq_x m (map swap ps) = ssq_y m ps /\ ssq_y m (map swap ps) = ssq_x m ps.
Proof.
  unfold ssq_x, ssq_y. rewrite !map_map. split; f_equal; apply map_ext;
    intros [a b]; reflexivity.
Qed.

Lemma divisor_sq_sym (xs ys : list Cell) :
  divisor_sq ys xs = divisor_sq xs ys.
Proof.
  unfold divisor_sq. rewrite complete_pairs_swap, map_fst_swap, map_snd_swap.
  destruct (ssq_swap (mean (map snd (complete_pairs xs ys)))
              (complete_pairs xs ys)) as [E1 _].
  destruct (ssq_swap (mean (map fst (complete_pairs xs ys)))
              (complete_pairs xs ys)) as [_ E2].
  rewrite E1, E2. ring.
Qed.

Lemma pearson_sym (xs ys : list Cell) : pearson ys xs = pearson xs ys.
Proof.
  unfold pearson. rewrite divisor_sq_sym.
  destruct (Req_EM_T (divisor_sq xs ys) 0); auto.
  rewrite complete_pairs_swap, map_fst_swap, map_snd_swap, ssdm_swap.
  reflexivity.
Qed.

Lemma ssq_nonneg (m : R) (ps : list (R * R)) :
  0 <= ssq_x m ps /\ 0 <= ssq_y m ps.
Proof.
  unfold ssq_x, ssq_y. induction ps as [|[a b] ps [IH1 IH2]]; simpl.
  - split; Lra.lra.
  - split.
    + pose proof (Rle_0_sqr (a - m)). unfold Rsqr in H. Lra.lra.
    + pose proof (Rle_0_sqr (b - m)). unfold Rsqr in H. Lra.lra.
Qed.

Lemma cauchy_schwarz (mx my : R) (ps : list (R * R)) :
  ssdm mx my ps * ssdm mx my ps <= ssq_x mx ps * ssq_y my ps.
Proof.
  unfold ssdm, ssq_x, ssq_y.
  induction ps as [|[a b] ps IH]; simpl.
  - Lra.lra.
  - pose proof (ssq_nonneg mx ps) as [HA _].
    pose proof (ssq_nonneg my ps) as [_ HB].
    unfold ssq_x, ssq_y in HA, HB.
    set (A := sum (map (fun p => (fst p - mx) * (fst p - mx)) ps)) in *.
    set (B := sum (map (fun p => (snd p - my) * (snd p - my)) ps)) in *.
    set (C := sum (map (fun p => (fst p - mx) * (snd p - my)) ps)) in *.
    set (u := a - mx). set (v := b - my).
    assert (H : 2 * C * u * v <= A * (v * v) + B * (u * u)).
    { destruct (Rle_lt_dec (2 * C * u * v) (A * (v * v) + B * (u * u)))
        as [L|G]; auto.
      exfalso.
      assert (H0 : 0 <= A * (v * v) + B * (u * u)).
      { pose proof (Rle_0_sqr u). pose proof (Rle_0_sqr v).
        unfold Rsqr in *. Lra.nra. }
      assert (H1 : (A * (v * v) + B * (u * u)) * (A * (v * v) + B * (u * u))
                   < (2 * C * u * v) * (2 * C * u * v)) by Lra.nra.
      assert (H2 : 4 * (A * B) * ((u * v) * (u * v))
                   <= (A * (v * v) + B * (u * u)) * (A * (v * v) + B * (u * u))).
      { pose proof (Rle_0_sqr (A * (v * v) - B * (u * u))).
        unfold Rsqr in *. Lra.nra. }
      assert (H3 : (2 * C * u * v) * (2 * C * u * v)
                   <= 4 * (A * B) * ((u * v) * (u * v))).
      { pose proof (Rle_0_sqr (u * v)). unfold Rsqr in *.
        replace (2 * C * u * v * (2 * C * u * v))
          with (4 * (C * C) * (u * v * (u * v))) by ring.
        Lra.nra. }
      Lra.lra. }
    Lra.nra.
Qed.

Lemma pearson_bounds (xs ys : list Cell) (r : R) :
  pearson xs ys = FVal r -> -1 <= r <= 1.
Proof.
  unfold pearson.
  destruct (Req_EM_T (divisor_sq xs ys) 0) as [|Hd]; [discriminate|].
  intros H; injection H as <-.
  set (ps := complete_pairs xs ys) in *.
  set (mx := mean (map fst ps)). set (my := mean (map snd ps)).
  assert (Hd0 : 0 <= divisor_sq xs ys).
  { unfold divisor_sq. fold ps. fold mx my.
    destruct (ssq_nonneg mx ps) as [H1 _].
    destruct (ssq_nonneg my ps) as [_ H2].
    apply Rmult_le_pos; auto. }
  assert (Hpos : 0 < sqrt (divisor_sq xs ys)).
  { apply sqrt_lt_R0. Lra.lra. }
  assert (Hcs : ssdm mx my ps * ssdm mx my ps <= divisor_sq xs ys).
  { unfold divisor_sq. fold ps. fold mx my. apply cauchy_schwarz. }
  assert (Habs : Rabs (ssdm mx my ps) <= sqrt (divisor_sq xs ys)).
  { rewrite <- sqrt_Rsqr_abs.
    apply sqrt_le_1; auto; try apply Rle_0_sqr; exact Hcs. }
  assert (U : ssdm mx my ps <= sqrt (divisor_sq xs ys)).
  { pose proof (Rle_abs (ssdm mx my ps)). Lra.lra. }
  assert (L : - sqrt (divisor_sq xs ys) <= ssdm mx my ps).
  { pose proof (Rle_abs (- ssdm mx my ps)) as H.
    rewrite Rabs_Ropp in H. Lra.lra. }
  set (s := sqrt (divisor_sq xs ys)) in *.
  split.
  - apply Rmult_le_reg_r with s; auto.
    unfold Rdiv. rewrite Rmult_assoc, Rinv_l by Lra.lra. Lra.lra.
  - apply Rmult_le_reg_r with s; auto.
    unfold Rdiv. rewrite Rmult_assoc, Rinv_l by Lra.lra. Lra.lra.
Qed.

Lemma pearson_nan (xs ys : list Cell) :
  pearson xs ys = FNaN <-> divisor_sq xs ys = 0.
Proof.
  unfold pearson. destruct (Req_EM_T (divisor_sq xs ys) 0); split; auto;
    try discriminate; try contradiction.
Qed.

End PearsonFacts.

(* ---------------------------------------------------------------- *)
(** The emitted correlations *)

Lemma dict_set_fresh {V} (d : Py.dict V) (k : string) (v : V) :
  ~ In k (map fst d) -> Py.dict_set d k v = d ++ [(k, v)].
Proof.
  induction d as [|[k' v'] d IH]; simpl; intros H; auto.
  destruct (String.eqb_spec k' k) as [E|E].
  - exfalso. apply H. left; exact E.
  - rewrite IH; auto.
Qed.

Lemma to_dict_fold {V} (l acc : list (string * V)) :
  NoDup (map fst acc ++ map fst l) ->
  fold_left (fun d kv => Py.dict_set d (fst kv) (snd kv)) l acc = acc ++ l.
Proof.
  revert acc; induction l as [|[k v] l IH]; intros acc H; simpl.
  - rewrite app_nil_r; reflexivity.
  - simpl in H. rewrite dict_set_fresh.
    + rewrite IH.
      * rewrite <- app_assoc; reflexivity.
      * rewrite map_app; simpl. rewrite <- app_assoc; simpl. exact H.
    + apply NoDup_remove_2 in H. intros Hin. apply H.
      apply in_or_app; left; exact Hin.
Qed.

Lemma to_dict_nodup {V} (l : list (string * V)) :
  NoDup (map fst l) -> to_dict l = l.
Proof. intros H. unfold to_dict. rewrite to_dict_fold; auto. Qed.

Lemma dict_get_In {V} (d : Py.dict V) (k : string) (v : V) :
  NoDup (map fst d) -> In (k, v) d -> Py.dict_get d k = Some v.
Proof.
  induction d as [|[k' v'] d IH]; simpl; intros Hnd Hin; [contradiction|].
  inversion Hnd as [|? ? Hnot Hnd']; subst.
  destruct Hin as [E|Hin].
  - injection E as -> ->. rewrite String.eqb_refl; reflexivity.
  - destruct (String.eqb_spec k' k) as [E|E].
    + subst k'. exfalso. apply Hnot.
      change k with (fst (k, v)). apply in_map; exact Hin.
    + apply IH; auto.
Qed.

Lemma dict_get_map_values {V W} (g : V -> W) (d : Py.dict V) (k : string) :
  Py.dict_get (map (fun kv => (fst kv, g (snd kv))) d) k
  = option_map g (Py.dict_get d k).
Proof.
  induction d as [|[k' v'] d IH]; simpl; auto.
  destruct (String.eqb k' k); auto.
Qed.

Lemma map_nth_seq {A} (l : list A) (d : A) :
  map (fun j => nth j l d) (seq 0 (length l)) = l.
Proof.
  induction l as [|x l IH]; simpl; auto.
  rewrite <- seq_shift, map_map. simpl. rewrite IH; reflexivity.
Qed.

Lemma numeric_names_nodup (df : DataFrame) :
  NoDup (column_names df) ->
  NoDup (map (fun j => name_at j df) (numeric_cols df)).
Proof.
  intros H. apply NoDup_map_NoDup_ForallPairs.
  - intros j k Hj Hk E. unfold numeric_cols in Hj, Hk.
    apply filter_In in Hj, Hk. destruct Hj as [Hj _], Hk as [Hk _].
    apply in_seq in Hj, Hk.
    destruct (Nat.eq_dec j k) as [|N]; auto.
    exfalso. apply (@names_differ df k j H); auto; lia.
  - unfold numeric_cols. apply NoDup_filter, seq_NoDup.
Qed.

Section CorrelationsReport.

Variable F : Type.
Variable describe_to_dict : list string -> list (list Cell) -> PyObj F.
Variable corr : list (list Cell) -> list (list (pyfloat F)).
Variable top_values : list Cell -> PyObj F.

Lemma report_correlations (df : DataFrame) :
  Py.dict_get
    (match generate_statistics describe_to_dict corr top_values df with
     | PDict d => d
     | _ => []
     end) "correlations"
  = Some (convert_numpy (correlations_of corr df)).
Proof. reflexivity. Qed.

Lemma generate_statistics_is_dict (df : DataFrame) :
  exists d, generate_statistics describe_to_dict corr top_values df = PDict d.
Proof. eexists; reflexivity. Qed.

(** The emitted correlations: the keys are the names of the numeric
    columns, and the entry under column [a] and row [b] is the entry
    [b][a] of the matrix, as a native float. *)
Lemma correlations_dict (df : DataFrame) :
  NoDup (column_names df) ->
  (2 <= length (numeric_cols df))%nat ->
  let cols := numeric_cols df in
  let names := map (fun j => name_at j df) cols in
  let m := corr (map (fun j => column j df) cols) in
  let report := generate_statistics describe_to_dict corr top_values df in
  correlation_keys report = names /\
  forall a b, (a < length cols)%nat -> (b < length cols)%nat ->
    report_entry report (nth a names EmptyString) (nth b names EmptyString)
    = Some (PFloat (nth a (nth b m []) FNaN)).
Proof.
  intros Hnd Hlen cols names m report.
  change (2 <= length cols)%nat in Hlen.
  assert (Hnames : NoDup names) by (apply numeric_names_nodup; exact Hnd).
  assert (Hn : length names = length cols) by (unfold names; apply length_map).
  set (inner := fun j : nat =>
         map (fun i => (nth i names EmptyString, PNpFloat (nth j (nth i m []) FNaN)))
             (seq 0 (length names))).
  set (outer := map (fun j => (nth j names EmptyString, PDict (to_dict (inner j))))
                    (seq 0 (length names))).
  assert (Hinner_keys : forall j, map fst (inner j) = names).
  { intros j. unfold inner. rewrite map_map; simpl. apply map_nth_seq. }
  assert (Houter_keys : map fst outer = names).
  { unfold outer. rewrite map_map; simpl. apply map_nth_seq. }
  assert (Hcorr : correlations_of corr df = PDict outer).
  { unfold correlations_of. fold cols.
    replace (1 <? length cols)%nat with true
      by (symmetry; apply Nat.ltb_lt; lia).
    change (matrix_to_dict (map (fun j => name_at j df) cols)
              (corr (map (fun j => column j df) cols)))
      with (PDict (to_dict outer)).
    rewrite to_dict_nodup; [reflexivity|].
    rewrite Houter_keys; exact Hnames. }
  assert (Hrep : forall c r,
    report_entry report c r =
    match Py.dict_get
            (map (fun kv => (fst kv, convert_numpy (snd kv))) outer) c with
    | Some (PDict col) => Py.dict_get col r
    | _ => None
    end).
  { intros c r. unfold report_entry, report.
    destruct (generate_statistics_is_dict df) as [d Hd].
    pose proof (report_correlations df) as Hc. rewrite Hd in *.
    rewrite Hc, Hcorr. reflexivity. }
  split.
  - unfold correlation_keys, report.
    destruct (generate_statistics_is_dict df) as [d Hd].
    pose proof (report_correlations df) as Hc. rewrite Hd in *.
    rewrite Hc, Hcorr. simpl. rewrite map_map; simpl. exact Houter_keys.
  - intros a b Ha Hb. rewrite Hrep, dict_get_map_values.
    rewrite (@dict_get_In _ outer (nth a names EmptyString)
               (PDict (to_dict (inner a)))).
    + simpl. rewrite to_dict_nodup by (rewrite Hinner_keys; exact Hnames).
      rewrite dict_get_map_values.
      rewrite (@dict_get_In _ (inner a) (nth b names EmptyString)
                 (PNpFloat (nth a (nth b m []) FNaN))).
      * reflexivity.
      * rewrite Hinner_keys; exact Hnames.
      * unfold inner. apply in_map_iff. exists b. split; auto.
        apply in_seq. lia.
    + rewrite Houter_keys; exact Hnames.
    + unfold outer. apply in_map_iff. exists a. split; auto.
      apply in_seq. lia.
Qed.

End CorrelationsReport.

Lemma corr_entry (cs : list (list Cell)) (a b : nat) :
  (a < length cs)%nat -> (b < length cs)%nat ->
  nth a (nth b (Pearson.corr cs) []) FNaN
  = Pearson.pearson (nth b cs []) (nth a cs []).
Proof.
  intros Ha Hb. unfold Pearson.corr.
  rewrite (nth_indep _ [] (map (fun y => Pearson.pearson [] y) cs))
    by (rewrite length_map; exact Hb).
  rewrite (map_nth (fun x => map (fun y => Pearson.pearson x y) cs) cs []).
  rewrite (nth_indep _ FNaN (Pearson.pearson (nth b cs []) []))
    by (rewrite length_map; exact Ha).
  rewrite (map_nth (fun y => Pearson.pearson (nth b cs []) y) cs []).
  reflexivity.
Qed.


Lemma Q2R_1 : Q2R 1 = 1%R.
Proof. unfold Q2R; simpl. Lra.lra. Qed.

Lemma Q2R_2 : Q2R 2 = 2%R.
Proof. unfold Q2R; simpl. Lra.lra. Qed.

(** The first column of the example is constant: the divisor is zero. *)
Lemma constant_column_divisor :
  Pearson.divisor_sq (column 1 Example.constant_column)
                     (column 0 Example.constant_column) = 0%R.
Proof.
  unfold Pearson.divisor_sq, Pearson.ssq_x, Pearson.ssq_y, Pearson.mean,
    Pearson.sum; simpl.
  rewrite Q2R_1, Q2R_2. field.
Qed.



(* ================================================================== *)
(** * A second run of the Cleaner *)
(* ================================================================== *)

Lemma rstrip_cons (c : ascii) (s : string) :
  Py.rstrip (String c s) =
  match Py.rstrip s with
  | EmptyString => if Py.isspace c then EmptyString else String c EmptyString
  | r => String c r
  end.
Proof. reflexivity. Qed.

Lemma lstrip_rstrip_comm (s : string) :
  Py.rstrip (Py.lstrip s) = Py.lstrip (Py.rstrip s).
Proof.
  induction s as [|c s IH]; [reflexivity|].
  cbn [Py.lstrip]. rewrite rstrip_cons.
  destruct (Py.isspace c) eqn:E.
  - rewrite IH. destruct (Py.rstrip s) as [|c' r] eqn:Er.
    + reflexivity.
    + cbn [Py.lstrip]. rewrite E. reflexivity.
  - rewrite rstrip_cons.
    destruct (Py.rstrip s) as [|c' r]; rewrite ?E; cbn [Py.lstrip];
      rewrite E; reflexivity.
Qed.

Lemma lstrip_idem (s : string) : Py.lstrip (Py.lstrip s) = Py.lstrip s.
Proof.
  induction s as [|c s IH]; [reflexivity|].
  cbn [Py.lstrip]. destruct (Py.isspace c) eqn:E; auto.
  cbn [Py.lstrip]. rewrite E. reflexivity.
Qed.

Lemma rstrip_idem (s : string) : Py.rstrip (Py.rstrip s) = Py.rstrip s.
Proof.
  induction s as [|c s IH]; [reflexivity|].
  rewrite rstrip_cons.
  destruct (Py.rstrip s) as [|c' r] eqn:Er.
  - destruct (Py.isspace c) eqn:E; [reflexivity|].
    rewrite rstrip_cons. cbn [Py.rstrip]. rewrite E. reflexivity.
  - rewrite rstrip_cons. rewrite IH. reflexivity.
Qed.

Lemma strip_idem (s : string) : Py.strip (Py.strip s) = Py.strip s.
Proof.
  unfold Py.strip.
  rewrite <- (lstrip_rstrip_comm (Py.lstrip (Py.rstrip s))).
  rewrite lstrip_idem, lstrip_rstrip_comm, rstrip_idem. reflexivity.
Qed.

Lemma strip_cell_stripped (c : Cell) : stripped (strip_cell c).
Proof.
  unfold stripped. destruct c; simpl; auto. rewrite strip_idem; reflexivity.
Qed.

(* ---------- positional lemmas ---------- *)

Lemma nth_nil {A} (p : nat) (d : A) : nth p [] d = d.
Proof. destruct p; reflexivity. Qed.

Lemma column_nth (df : DataFrame) (i p : nat) :
  nth i (column p df) NA = nth p (snd (nth i (df_rows df) (0%Z, []))) NA.
Proof.
  unfold column.
  rewrite <- (map_nth (fun r : Z * list Cell => nth p (snd r) NA)
                (df_rows df) (0%Z, []) i).
  f_equal. simpl. symmetry; apply nth_nil.
Qed.

Lemma row_lengths_nth (df : DataFrame) (i : nat) :
  nth i (row_lengths df) O = length (snd (nth i (df_rows df) (0%Z, []))).
Proof.
  unfold row_lengths.
  rewrite <- (map_nth (fun r : Z * list Cell => length (snd r))
                (df_rows df) (0%Z, []) i).
  reflexivity.
Qed.

Lemma set_column_map_row_lengths (j : nat) (dt : DType) (f : Cell -> Cell)
  (df : DataFrame) :
  row_lengths (set_column j dt (map f (column j df)) df) = row_lengths df.
Proof.
  unfold row_lengths. rewrite set_column_map_rows, map_map.
  apply map_ext. intros r; simpl. apply set_nth_length.
Qed.

Lemma set_column_map_nth (j : nat) (dt : DType) (f : Cell -> Cell)
  (df : DataFrame) (i : nat) :
  nth i (column j (set_column j dt (map f (column j df)) df)) NA =
  if (j <? nth i (row_lengths df) O)%nat
  then f (nth i (column j df) NA) else NA.
Proof.
  rewrite column_nth, set_column_map_rows, row_lengths_nth, column_nth.
  set (g := fun r : Z * list Cell =>
              (fst r, set_nth j (f (nth j (snd r) NA)) (snd r))).
  assert (E : nth i (map g (df_rows df)) (0%Z, [])
              = g (nth i (df_rows df) (0%Z, []))).
  { assert (Eg : g (0%Z, []) = (0%Z, [])) by (unfold g; destruct j; reflexivity).
    rewrite <- Eg at 1. apply map_nth. }
  rewrite E. unfold g; simpl.
  destruct (Nat.ltb_spec j (length (snd (nth i (df_rows df) (0%Z, []))))).
  - apply nth_set_nth_same; auto.
  - rewrite set_nth_out by auto. apply nth_overflow; auto.
Qed.

Lemma In_rows_nth (df : DataFrame) (r : Z * list Cell) :
  In r (df_rows df) ->
  exists i, (i < nrows df)%nat /\ nth i (df_rows df) (0%Z, []) = r.
Proof. intros H. apply In_nth; exact H. Qed.

Lemma nth_not_NA_In (p : nat) (l : list Cell) :
  nth p l NA <> NA -> (p < length l)%nat /\ In (nth p l NA) l.
Proof.
  intros H. destruct (Nat.lt_ge_cases p (length l)) as [L|G].
  - split; auto. apply nth_In; exact L.
  - exfalso. apply H. apply nth_overflow; exact G.
Qed.

Lemma has_value_not_all_null (l : list Cell) (p : nat) :
  nth p l NA <> NA -> forallb isnull l = false.
Proof.
  intros H. destruct (nth_not_NA_In _ _ H) as [_ Hin].
  destruct (forallb isnull l) eqn:E; auto.
  rewrite forallb_forall in E. specialize (E _ Hin).
  destruct (nth p l NA); simpl in E; try discriminate. congruence.
Qed.

Lemma not_all_null_has_value (l : list Cell) :
  forallb isnull l = false -> exists p, nth p l NA <> NA.
Proof.
  induction l as [|c l IH]; simpl; [discriminate|].
  destruct c; simpl; try (intros _; exists O; simpl; discriminate).
  intros H. destruct (IH H) as [p Hp]. exists (S p). exact Hp.
Qed.

Lemma nrows_row_lengths (df : DataFrame) : nrows df = length (row_lengths df).
Proof. unfold nrows, row_lengths. symmetry; apply length_map. Qed.

Lemma strip_cell_null (c : Cell) : strip_cell c = NA -> c = NA.
Proof. destruct c; simpl; auto; discriminate. Qed.

(** After steps 1 and 2 every row holds a value. *)
Lemma stripped_rows_have_value (raw : DataFrame) (r : Z * list Cell) :
  In r (df_rows (applymap strip_cell (dropna_all raw))) ->
  exists p, nth p (snd r) NA <> NA.
Proof.
  unfold applymap, dropna_all; simpl. intros H.
  apply in_map_iff in H. destruct H as (r0 & <- & H0).
  apply filter_In in H0. destruct H0 as [_ H0].
  apply negb_true_iff in H0.
  destruct (not_all_null_has_value _ H0) as [p Hp].
  exists p. simpl.
  change NA with (strip_cell NA) at 1. rewrite map_nth.
  intros E. apply Hp. apply strip_cell_null; exact E.
Qed.

Section Idempotence.

Variable parse_number : string -> option Q.

Lemma to_numeric_cell_cases (c : Cell) :
  to_numeric_cell parse_number c = NA \/
  exists q, to_numeric_cell parse_number c = Num q.
Proof.
  destruct c; simpl; eauto. destruct (parse_number s); eauto.
Qed.

Lemma coerce_column_row_lengths (df : DataFrame) (j : nat) :
  row_lengths (coerce_column parse_number df j) = row_lengths df.
Proof.
  unfold coerce_column, to_numeric.
  destruct (DType_eqb _ _); auto.
  destruct (0 <? _)%nat; auto. apply set_column_map_row_lengths.
Qed.

Lemma fold_coerce_row_lengths (js : list nat) (df : DataFrame) :
  row_lengths (fold_left (coerce_column parse_number) js df) = row_lengths df.
Proof.
  revert df; induction js as [|j js IH]; intros df; simpl; auto.
  rewrite IH. apply coerce_column_row_lengths.
Qed.

Lemma coerce_numeric_column_out (df : DataFrame) (p : nat) :
  (ncols df <= p)%nat ->
  column p (coerce_numeric parse_number df) = column p df.
Proof.
  intros H. unfold coerce_numeric.
  apply fold_coerce_other. rewrite in_seq. lia.
Qed.

Lemma filter_pos_In {A} (f : A -> bool) (l : list A) :
  (0 <? length (filter f l))%nat = true ->
  exists x, In x l /\ f x = true.
Proof.
  intros H. apply Nat.ltb_lt in H.
  destruct (filter f l) as [|x t] eqn:E; simpl in H; [lia|].
  exists x. apply filter_In. rewrite E. left; reflexivity.
Qed.

(** The frame of the report: every row holds a value, or has a null in a
    numeric column that holds a number somewhere. *)
Lemma prepared_rows_rescuable (raw : DataFrame) (r : Z * list Cell) :
  In r (df_rows (prepare parse_number raw)) ->
  rescuable (prepare parse_number raw) (snd r).
Proof.
  unfold prepare.
  set (pre := applymap strip_cell (dropna_all raw)).
  set (T1 := coerce_numeric parse_number pre).
  intros Hr.
  assert (Hlens : row_lengths T1 = row_lengths pre)
    by apply fold_coerce_row_lengths.
  destruct (In_rows_nth _ _ Hr) as (i & Hi & Er).
  assert (Hi0 : (i < nrows pre)%nat).
  { rewrite nrows_row_lengths, <- Hlens, <- nrows_row_lengths. exact Hi. }
  set (r0 := nth i (df_rows pre) (0%Z, [])).
  assert (Hr0 : In r0 (df_rows pre)) by (apply nth_In; exact Hi0).
  destruct (stripped_rows_have_value raw r0 Hr0) as [p Hp].
  assert (Hc0 : nth i (column p pre) NA <> NA)
    by (rewrite column_nth; exact Hp).
  assert (Hlen0 : (p < nth i (row_lengths pre) O)%nat).
  { rewrite row_lengths_nth. apply nth_not_NA_In; exact Hp. }
  assert (Hcell : nth p (snd r) NA = nth i (column p T1) NA)
    by (rewrite column_nth, Er; reflexivity).
  assert (Hlen : length (snd r) = nth i (row_lengths pre) O).
  { rewrite <- Hlens, row_lengths_nth, Er. reflexivity. }
  exists p.
  destruct (Nat.lt_ge_cases p (ncols pre)) as [Hp1|Hp1].
  2:{ left. rewrite Hcell. unfold T1.
      rewrite coerce_numeric_column_out by exact Hp1. exact Hc0. }
  destruct (coerce_numeric_at parse_number pre Hp1) as (H1 & H2 & H3).
  fold T1 in H1, H2.
  destruct (DType_eqb (dtype_at p pre) Object
            && (0 <? length (filter notna
                       (to_numeric parse_number (column p pre))))%nat)
    eqn:Hcond.
  2:{ left. rewrite Hcell, H1, H3. exact Hc0. }
  apply andb_true_iff in Hcond. destruct Hcond as [Hobj Hpos].
  assert (Hstep : coerce_column parse_number pre p =
                  set_column p Float64
                    (map (to_numeric_cell parse_number) (column p pre)) pre).
  { unfold coerce_column. rewrite Hobj, Hpos. reflexivity. }
  assert (Hnth : forall k,
    nth k (column p T1) NA =
    if (p <? nth k (row_lengths pre) O)%nat
    then to_numeric_cell parse_number (nth k (column p pre) NA) else NA).
  { intros k. rewrite H1, Hstep. apply set_column_map_nth. }
  destruct (to_numeric_cell_cases (nth i (column p pre) NA)) as [En|[q En]].
  - right. split; [rewrite Hlen; exact Hlen0|]. split.
    + rewrite H2, Hstep, set_column_dtype_same by exact Hp1. reflexivity.
    + apply filter_pos_In in Hpos. destruct Hpos as (x & Hx & Hnn).
      unfold to_numeric in Hx. apply in_map_iff in Hx.
      destruct Hx as (c & <- & Hc).
      destruct (In_nth _ _ NA Hc) as (k & Hk & Ek).
      assert (Hcn : c <> NA).
      { intros ->. simpl in Hnn. discriminate. }
      assert (Hkl : (p < nth k (row_lengths pre) O)%nat).
      { rewrite row_lengths_nth. apply nth_not_NA_In.
        rewrite <- column_nth, Ek. exact Hcn. }
      exists (to_numeric_cell parse_number c). split.
      * rewrite <- Ek.
        replace (to_numeric_cell parse_number (nth k (column p pre) NA))
          with (nth k (column p T1) NA).
        -- apply nth_In. rewrite column_length.
           rewrite column_length in Hk.
           rewrite nrows_row_lengths, Hlens, <- nrows_row_lengths. exact Hk.
        -- rewrite Hnth. apply Nat.ltb_lt in Hkl. rewrite Hkl. reflexivity.
      * destruct (to_numeric_cell_cases c) as [E|[q E]]; rewrite E in *;
          simpl in *; [discriminate|discriminate].
  - left. rewrite Hcell, Hnth.
    apply Nat.ltb_lt in Hlen0. rewrite Hlen0, En. discriminate.
Qed.


Lemma cell_eqb_refl (c : Cell) : cell_eqb c c = true.
Proof.
  destruct c; simpl; auto.
  - apply Qeq_bool_iff. apply Qeq_refl.
  - apply String.eqb_refl.
  - destruct b; reflexivity.
Qed.

Lemma cell_eqb_trans (a b c : Cell) :
  cell_eqb a b = true -> cell_eqb b c = true -> cell_eqb a c = true.
Proof.
  destruct a, b, c; simpl; try discriminate; auto.
  - intros H1 H2. apply Qeq_bool_iff in H1, H2. apply Qeq_bool_iff.
    eapply Qeq_trans; eauto.
  - intros H1 H2. apply String.eqb_eq in H1, H2. subst.
    apply String.eqb_refl.
  - intros H1 H2. apply Bool.eqb_prop in H1, H2. subst.
    apply Bool.eqb_reflx.
Qed.

Lemma row_eqb_refl (r : list Cell) : row_eqb r r = true.
Proof.
  induction r as [|c r IH]; simpl; auto.
  rewrite cell_eqb_refl, IH. reflexivity.
Qed.

Lemma row_eqb_trans (a b c : list Cell) :
  row_eqb a b = true -> row_eqb b c = true -> row_eqb a c = true.
Proof.
  revert b c; induction a as [|x a IH]; intros [|y b] [|z c]; simpl;
    try discriminate; auto.
  rewrite !andb_true_iff. intros [H1 H2] [H3 H4]. split.
  - eapply cell_eqb_trans; eauto.
  - eapply IH; eauto.
Qed.

Lemma row_eqb_nth (a b : list Cell) (p : nat) :
  row_eqb a b = true -> cell_eqb (nth p a NA) (nth p b NA) = true.
Proof.
  revert b p; induction a as [|x a IH]; intros [|y b] p; simpl;
    try discriminate.
  - intros _. destruct p; reflexivity.
  - rewrite andb_true_iff. intros [H1 H2]. destruct p; auto.
Qed.

Lemma cell_eqb_value (a b : Cell) :
  cell_eqb a b = true -> cell_value a <> None -> cell_value b <> None.
Proof. destruct a, b; simpl; try discriminate; auto. Qed.

(** Every row has an equal row among the rows [drop_duplicates] keeps. *)
Lemma kept_representative (seen : list (list Cell))
  (rows : list (Z * list Cell)) (r : Z * list Cell) :
  In r rows ->
  (exists r', In r' (select (map negb (duplicated_from seen (map snd rows)))
                       rows)
              /\ row_eqb (snd r) (snd r') = true) \/
  (exists e, In e seen /\ row_eqb (snd r) e = true).
Proof.
  revert seen; induction rows as [|x rows IH]; intros seen Hr;
    [contradiction|].
  simpl. destruct Hr as [->|Hr].
  - destruct (existsb (row_eqb (snd r)) seen) eqn:E; simpl.
    + right. apply existsb_exists in E. exact E.
    + left. exists r. split; [left; reflexivity|apply row_eqb_refl].
  - destruct (IH (snd x :: seen) Hr) as [(r' & H1 & H2)|(e & H1 & H2)].
    + left. exists r'. split; auto.
      destruct (existsb (row_eqb (snd x)) seen); simpl; auto.
    + destruct H1 as [<-|H1].
      * destruct (existsb (row_eqb (snd x)) seen) eqn:E; simpl.
        -- right. apply existsb_exists in E. destruct E as (e & He1 & He2).
           exists e. split; auto. eapply row_eqb_trans; eauto.
        -- left. exists x. split; [left; reflexivity|exact H2].
      * right. exists e. split; auto.
Qed.

Lemma drop_duplicates_representative (df : DataFrame) (r : Z * list Cell) :
  In r (df_rows df) ->
  exists r', In r' (df_rows (drop_duplicates df)) /\
             row_eqb (snd r) (snd r') = true.
Proof.
  intros Hr. unfold drop_duplicates, df_select, duplicated; simpl.
  destruct (kept_representative [] _ _ Hr) as [H|(e & [] & _)]. exact H.
Qed.

Lemma drop_duplicates_rescuable (df : DataFrame) :
  (forall r, In r (df_rows df) -> rescuable df (snd r)) ->
  forall r, In r (df_rows (drop_duplicates df)) ->
            rescuable (drop_duplicates df) (snd r).
Proof.
  intros H r Hr.
  assert (Hr1 : In r (df_rows df)).
  { unfold drop_duplicates, df_select in Hr; simpl in Hr.
    eapply select_In; eauto. }
  destruct (H r Hr1) as [p [Hp|(Hlen & Hdt & c & Hc & Hv)]].
  - exists p. left; exact Hp.
  - exists p. right. split; auto. split; [exact Hdt|].
    unfold column in Hc. apply in_map_iff in Hc.
    destruct Hc as (r2 & <- & Hr2).
    destruct (drop_duplicates_representative df r2 Hr2) as (r2' & H1 & H2).
    exists (nth p (snd r2') NA). split.
    + unfold column. apply in_map_iff. exists r2'. auto.
    + eapply cell_eqb_value; [|exact Hv]. apply row_eqb_nth; exact H2.
Qed.

(* ---------- imputation, cell by cell ---------- *)

Lemma impute_column_eq (df : DataFrame) (j : nat) :
  impute_column df j =
  set_column j (dtype_at j df)
    (map (fun c => if isnull c
                   then fill_value (dtype_at j df) (column j df) else c)
         (column j df)) df.
Proof.
  unfold impute_column, fill_value, fillna.
  destruct (is_float_or_int (dtype_at j df)); reflexivity.
Qed.

Lemma impute_column_row_lengths (df : DataFrame) (j : nat) :
  row_lengths (impute_column df j) = row_lengths df.
Proof. rewrite impute_column_eq. apply set_column_map_row_lengths. Qed.

Lemma fold_impute_row_lengths (js : list nat) (df : DataFrame) :
  row_lengths (fold_left impute_column js df) = row_lengths df.
Proof.
  revert df; induction js as [|j js IH]; intros df; simpl; auto.
  rewrite IH. apply impute_column_row_lengths.
Qed.

Lemma dtype_at_out (df : DataFrame) (p : nat) :
  (ncols df <= p)%nat -> dtype_at p df = Object.
Proof.
  intros H. unfold dtype_at. apply nth_overflow.
  rewrite length_map. exact H.
Qed.

(** The cell at row [i] of the column at [p] after the imputation loop. *)
Lemma impute_nth (df : DataFrame) (p i : nat) :
  (p < ncols df)%nat ->
  nth i (column p (impute df)) NA =
  if (p <? nth i (row_lengths df) O)%nat
  then (if isnull (nth i (column p df) NA)
        then fill_value (dtype_at p df) (column p df)
        else nth i (column p df) NA)
  else NA.
Proof.
  intros Hp. unfold impute.
  rewrite (seq_split Hp), fold_left_app; simpl.
  rewrite fold_impute_other by (rewrite in_seq; lia).
  set (df1 := fold_left impute_column (seq 0 p) df).
  assert (H1 : column p df1 = column p df)
    by (apply fold_impute_other; rewrite in_seq; lia).
  assert (H2 : dtype_at p df1 = dtype_at p df) by apply fold_impute_dtype.
  assert (H3 : row_lengths df1 = row_lengths df)
    by apply fold_impute_row_lengths.
  rewrite impute_column_eq, set_column_map_nth, H1, H2, H3. reflexivity.
Qed.

Lemma impute_column_out (df : DataFrame) (p : nat) :
  (ncols df <= p)%nat -> column p (impute df) = column p df.
Proof.
  intros H. unfold impute. apply fold_impute_other. rewrite in_seq. lia.
Qed.

Lemma insert_sorted_length {A} (leb : A -> A -> bool) (x : A) (l : list A) :
  length (insert_sorted leb x l) = S (length l).
Proof.
  induction l as [|y l IH]; simpl; auto.
  destruct (leb x y); simpl; auto.
Qed.

Lemma sort_by_length {A} (leb : A -> A -> bool) (l : list A) :
  length (sort_by leb l) = length l.
Proof.
  induction l as [|x l IH]; simpl; auto.
  rewrite insert_sorted_length, IH. reflexivity.
Qed.

Lemma numbers_has_number (cells : list Cell) :
  has_number cells -> numbers cells <> [].
Proof.
  intros (c & Hc & Hv). induction cells as [|d cells IH]; [contradiction|].
  destruct Hc as [->|Hc].
  - destruct c; simpl in *; try congruence; discriminate.
  - destruct d; simpl; auto; discriminate.
Qed.

Lemma median_has_number (cells : list Cell) :
  has_number cells -> median cells <> NA.
Proof.
  intros H. apply numbers_has_number in H.
  unfold median, sorted_numbers. cbv zeta. rewrite sort_by_length.
  destruct (numbers cells) as [|q t]; [congruence|]. simpl length.
  destruct (Nat.even (S (length t))); discriminate.
Qed.

Lemma imputed_rows_have_value (df : DataFrame) :
  (forall r, In r (df_rows df) -> rescuable df (snd r)) ->
  forall r, In r (df_rows (impute df)) -> exists p, nth p (snd r) NA <> NA.
Proof.
  intros H r' Hr'.
  assert (Hlens : row_lengths (impute df) = row_lengths df)
    by apply fold_impute_row_lengths.
  destruct (In_rows_nth _ _ Hr') as (i & Hi & Er).
  assert (Hi0 : (i < nrows df)%nat).
  { rewrite nrows_row_lengths, <- Hlens, <- nrows_row_lengths. exact Hi. }
  set (r := nth i (df_rows df) (0%Z, [])).
  assert (Hr : In r (df_rows df)) by (apply nth_In; exact Hi0).
  assert (Hcell : forall p, nth p (snd r') NA = nth i (column p (impute df)) NA)
    by (intros p; rewrite column_nth, Er; reflexivity).
  assert (Hcell0 : forall p, nth p (snd r) NA = nth i (column p df) NA)
    by (intros p; rewrite column_nth; reflexivity).
  assert (Hlen : length (snd r) = nth i (row_lengths df) O)
    by (rewrite row_lengths_nth; reflexivity).
  destruct (H r Hr) as [p [Hp|(Hl & Hdt & Hnum)]]; exists p; rewrite Hcell.
  - destruct (Nat.lt_ge_cases p (ncols df)) as [Hp1|Hp1].
    + rewrite impute_nth by exact Hp1.
      destruct (nth_not_NA_In _ _ Hp) as [Hl _].
      rewrite Hlen in Hl. apply Nat.ltb_lt in Hl. rewrite Hl.
      rewrite <- Hcell0.
      destruct (nth p (snd r) NA); simpl; congruence.
    + rewrite impute_column_out by exact Hp1. rewrite <- Hcell0. exact Hp.
  - assert (Hp1 : (p < ncols df)%nat).
    { destruct (Nat.lt_ge_cases p (ncols df)) as [L|G]; auto.
      rewrite (dtype_at_out df G) in Hdt. discriminate. }
    rewrite impute_nth by exact Hp1.
    rewrite Hlen in Hl. apply Nat.ltb_lt in Hl. rewrite Hl.
    destruct (nth i (column p df) NA) eqn:E; simpl; try discriminate.
    unfold fill_value. rewrite Hdt. apply median_has_number; exact Hnum.
Qed.

Lemma filter_all_true {A} (f : A -> bool) (l : list A) :
  (forall x, In x l -> f x = true) -> filter f l = l.
Proof.
  induction l as [|x l IH]; simpl; intros H; auto.
  rewrite (H x) by (left; reflexivity). rewrite IH; auto.
Qed.

Lemma dropna_all_id (df : DataFrame) :
  (forall r, In r (df_rows df) -> exists p, nth p (snd r) NA <> NA) ->
  dropna_all df = df.
Proof.
  intros H. unfold dropna_all. rewrite filter_all_true.
  - destruct df; reflexivity.
  - intros r Hr. destruct (H r Hr) as [p Hp].
    rewrite (has_value_not_all_null _ _ Hp). reflexivity.
Qed.

(* ---------- the cleaned frame is already trimmed ---------- *)

Lemma not_text_stripped (c : Cell) : not_text c -> stripped c.
Proof. destruct c; simpl; unfold stripped; simpl; tauto. Qed.

Lemma applymap_strip_column (df : DataFrame) (j : nat) :
  Forall stripped (column j (applymap strip_cell df)).
Proof.
  unfold column, applymap; simpl. rewrite map_map; simpl.
  apply Forall_forall. intros c Hc. apply in_map_iff in Hc.
  destruct Hc as (r & <- & _).
  change NA with (strip_cell NA). rewrite map_nth.
  apply strip_cell_stripped.
Qed.

Lemma coerce_numeric_forall (P : Cell -> Prop) (df : DataFrame) (j : nat) :
  P NA -> (forall c, P (to_numeric_cell parse_number c)) ->
  Forall P (column j df) ->
  Forall P (column j (coerce_numeric parse_number df)).
Proof.
  intros HNA Hnum Hcol.
  destruct (Nat.lt_ge_cases j (ncols df)) as [Hj|Hj].
  - destruct (coerce_numeric_at parse_number df Hj) as (H1 & _ & H3).
    rewrite H1, H3.
    destruct (_ && _); auto.
    unfold to_numeric. apply column_set_column_same; auto.
  - rewrite coerce_numeric_column_out by exact Hj. exact Hcol.
Qed.

Lemma insert_sorted_In_gen {A} (leb : A -> A -> bool) (x y : A) (l : list A) :
  In y (insert_sorted leb x l) -> y = x \/ In y l.
Proof.
  induction l as [|z l IH]; simpl.
  - intros [H|[]]; auto.
  - destruct (leb x z); simpl.
    + intros [H|H]; auto.
    + intros [H|H]; auto. destruct (IH H); auto.
Qed.

Lemma sort_by_In {A} (leb : A -> A -> bool) (y : A) (l : list A) :
  In y (sort_by leb l) -> In y l.
Proof.
  induction l as [|x l IH]; simpl; auto.
  intros H. apply insert_sorted_In_gen in H. destruct H; auto.
Qed.

Lemma dedup_cells_In (y : Cell) (l : list Cell) :
  In y (dedup_cells l) -> In y l.
Proof.
  induction l as [|x l IH]; simpl; auto.
  intros [H|H]; auto. apply filter_In in H. right. apply IH. tauto.
Qed.

Lemma mode_In (y : Cell) (cells : list Cell) :
  In y (mode cells) -> In y cells.
Proof.
  unfold mode. intros H. apply sort_by_In in H.
  apply filter_In in H. destruct H as [H _].
  apply dedup_cells_In in H. apply filter_In in H. tauto.
Qed.

(** The fill value of a column: its median when the dtype is numeric,
    otherwise one of its cells or the placeholder. *)
Lemma fill_value_cases (dt : DType) (col : list Cell) :
  (is_float_or_int dt = true /\ fill_value dt col = median col) \/
  (is_float_or_int dt = false /\
   (In (fill_value dt col) col \/ fill_value dt col = Str "Unknown")).
Proof.
  unfold fill_value. destruct (is_float_or_int dt); [left; auto|right].
  split; auto. destruct (mode col) as [|m t] eqn:E; auto.
  left. apply mode_In. rewrite E. left; reflexivity.
Qed.

Lemma impute_forall (P : Cell -> Prop) (df : DataFrame) (j : nat) :
  P NA -> Forall P (column j df) ->
  P (fill_value (dtype_at j df) (column j df)) ->
  Forall P (column j (impute df)).
Proof.
  intros HNA Hcol Hfill.
  destruct (Nat.lt_ge_cases j (ncols df)) as [Hj|Hj].
  - unfold impute. rewrite (seq_split Hj), fold_left_app; simpl.
    rewrite fold_impute_other by (rewrite in_seq; lia).
    set (df1 := fold_left impute_column (seq 0 j) df).
    assert (H1 : column j df1 = column j df)
      by (apply fold_impute_other; rewrite in_seq; lia).
    assert (H2 : dtype_at j df1 = dtype_at j df) by apply fold_impute_dtype.
    rewrite impute_column_eq.
    apply column_set_column_pres; auto.
    + rewrite H1; exact Hcol.
    + intros c Hc. destruct (isnull c); auto. rewrite H1, H2. exact Hfill.
  - rewrite impute_column_out by exact Hj. exact Hcol.
Qed.

Lemma median_cases (cells : list Cell) :
  median cells = NA \/ exists q, median cells = Num q.
Proof.
  unfold median. cbv zeta.
  generalize (length (sorted_numbers cells)). intros [|n]; auto.
  destruct (Nat.even (S n)); eauto.
Qed.

Lemma clean_frame_stripped (raw : DataFrame) (j : nat) :
  Forall stripped (column j (clean_frame parse_number raw)).
Proof.
  unfold clean_frame, prepare.
  set (T1 := coerce_numeric parse_number
               (applymap strip_cell (dropna_all raw))).
  assert (H1 : Forall stripped (column j T1)).
  { apply coerce_numeric_forall.
    - reflexivity.
    - intros c. apply not_text_stripped, to_numeric_not_text.
    - apply applymap_strip_column. }
  assert (H2 : Forall stripped (column j (drop_duplicates T1))).
  { unfold drop_duplicates. rewrite column_df_select.
    apply Forall_select; exact H1. }
  apply impute_forall; auto; [reflexivity|].
  destruct (fill_value_cases (dtype_at j (drop_duplicates T1))
              (column j (drop_duplicates T1)))
    as [[_ E]|[_ [E|E]]].
  - rewrite E. destruct (median_cases (column j (drop_duplicates T1)))
      as [->|[q ->]]; reflexivity.
  - rewrite Forall_forall in H2. apply H2; exact E.
  - rewrite E. reflexivity.
Qed.

Lemma map_id_in {A} (f : A -> A) (l : list A) :
  (forall x, In x l -> f x = x) -> map f l = l.
Proof.
  induction l as [|x l IH]; simpl; intros H; auto.
  rewrite (H x) by (left; reflexivity). rewrite IH; auto.
Qed.

Lemma applymap_strip_id (df : DataFrame) :
  (forall j, Forall stripped (column j df)) ->
  applymap strip_cell df = df.
Proof.
  intros H. unfold applymap. rewrite map_id_in.
  - destruct df; reflexivity.
  - intros [l r] Hr; simpl. f_equal. apply map_id_in.
    intros c Hc. destruct (In_nth _ _ NA Hc) as (p & Hp & <-).
    specialize (H p). rewrite Forall_forall in H. apply H.
    unfold column. apply in_map_iff. exists (l, r). auto.
Qed.

(* ---------- no text column of the cleaned frame parses ---------- *)

Lemma filter_zero_forall {A} (f : A -> bool) (l : list A) :
  (0 <? length (filter f l))%nat = false ->
  Forall (fun x => f x = false) l.
Proof.
  intros H. apply Nat.ltb_ge in H. apply Forall_forall. intros x Hx.
  destruct (f x) eqn:E; auto. exfalso.
  assert (Hin : In x (filter f l)) by (apply filter_In; auto).
  destruct (filter f l); [contradiction|simpl in H; lia].
Qed.

Lemma notna_false (c : Cell) : notna c = false -> c = NA.
Proof. destruct c; simpl; auto; discriminate. Qed.

Lemma DType_eqb_eq (a b : DType) : DType_eqb a b = true <-> a = b.
Proof. destruct a, b; simpl; split; auto; discriminate. Qed.

Lemma prepared_text_unparsable (df : DataFrame) (j : nat) :
  (j < ncols df)%nat ->
  dtype_at j (coerce_numeric parse_number df) = Object ->
  Forall (unparsable parse_number) (column j (coerce_numeric parse_number df)).
Proof.
  intros Hj Hdt.
  destruct (coerce_numeric_at parse_number df Hj) as (H1 & H2 & H3).
  rewrite H2 in Hdt. rewrite H1, H3.
  unfold coerce_column in Hdt.
  destruct (DType_eqb (dtype_at j df) Object) eqn:Eo; simpl.
  - destruct (0 <? length (filter notna
                     (to_numeric parse_number (column j df))))%nat eqn:Ec.
    + rewrite set_column_dtype_same in Hdt by exact Hj. discriminate.
    + apply filter_zero_forall in Ec. unfold to_numeric in Ec.
      rewrite Forall_map in Ec.
      eapply Forall_impl; [|exact Ec].
      intros c Hc. apply notna_false; exact Hc.
  - exfalso. apply DType_eqb_eq in Hdt. congruence.
Qed.

Lemma coerce_column_id (df : DataFrame) (j : nat) :
  (dtype_at j df = Object ->
   Forall (unparsable parse_number) (column j df)) ->
  coerce_column parse_number df j = df.
Proof.
  intros H. unfold coerce_column.
  destruct (DType_eqb (dtype_at j df) Object) eqn:Eo; auto.
  apply DType_eqb_eq in Eo. specialize (H Eo).
  replace (filter notna (to_numeric parse_number (column j df))) with (@nil Cell);
    [reflexivity|].
  symmetry. unfold to_numeric.
  induction H as [|c l Hc _ IH]; simpl; auto.
  rewrite Hc; simpl. exact IH.
Qed.

Lemma fold_left_id {A B} (step : A -> B -> A) (js : list B) (a : A) :
  (forall j, In j js -> step a j = a) -> fold_left step js a = a.
Proof.
  induction js as [|j js IH]; simpl; intros H; auto.
  rewrite (H j) by (left; reflexivity). apply IH.
  intros k Hk. apply H. right; exact Hk.
Qed.

Lemma clean_frame_ncols (raw : DataFrame) :
  ncols (clean_frame parse_number raw) = ncols raw.
Proof.
  rewrite !ncols_names, clean_frame_names. reflexivity.
Qed.

Lemma clean_frame_text_unparsable (raw : DataFrame) (j : nat) :
  parse_number "Unknown" = None ->
  (j < ncols raw)%nat ->
  dtype_at j (clean_frame parse_number raw) = Object ->
  Forall (unparsable parse_number) (column j (clean_frame parse_number raw)).
Proof.
  intros Hunk Hj Hdt. unfold clean_frame, prepare in *.
  set (pre := applymap strip_cell (dropna_all raw)) in *.
  set (T1 := coerce_numeric parse_number pre) in *.
  set (D := drop_duplicates T1) in *.
  assert (Hd : dtype_at j D = Object).
  { unfold impute in Hdt. rewrite fold_impute_dtype in Hdt. exact Hdt. }
  assert (H1 : Forall (unparsable parse_number) (column j T1)).
  { apply prepared_text_unparsable; [exact Hj|exact Hd]. }
  assert (H2 : Forall (unparsable parse_number) (column j D)).
  { unfold D, drop_duplicates. rewrite column_df_select.
    apply Forall_select; exact H1. }
  apply impute_forall; auto; [reflexivity|].
  destruct (fill_value_cases (dtype_at j D) (column j D))
    as [[E _]|[_ [E|E]]].
  - rewrite Hd in E. discriminate.
  - rewrite Forall_forall in H2. apply H2; exact E.
  - rewrite E. unfold unparsable; simpl. rewrite Hunk. reflexivity.
Qed.

Lemma count_true_zero (mask : list bool) :
  count_true mask = O -> Forall (fun b => b = false) mask.
Proof.
  unfold count_true. induction mask as [|b mask IH]; simpl; auto.
  destruct b; simpl; [discriminate|]. intros H. constructor; auto.
Qed.

Lemma select_all {A} (mask : list bool) (l : list A) :
  length mask = length l -> Forall (fun b => b = false) mask ->
  select (map negb mask) l = l.
Proof.
  revert l; induction mask as [|b mask IH]; intros [|x l] Hlen H;
    simpl in *; try discriminate; auto.
  inversion H as [|? ? Hb Hrest]; subst. simpl.
  rewrite IH; auto.
Qed.

Lemma drop_duplicates_id (df : DataFrame) :
  count_true (duplicated df) = O -> drop_duplicates df = df.
Proof.
  intros H. unfold drop_duplicates, df_select.
  rewrite select_all.
  - destruct df; reflexivity.
  - apply duplicated_length.
  - apply count_true_zero; exact H.
Qed.

(** On the table the Cleaner produced, steps 1 to 3 change nothing. *)
Lemma prepare_clean_frame (raw : DataFrame) :
  parse_number "Unknown" = None ->
  prepare parse_number (clean_frame parse_number raw)
  = clean_frame parse_number raw.
Proof.
  intros Hunk. unfold prepare at 1.
  rewrite dropna_all_id.
  2:{ unfold clean_frame. apply imputed_rows_have_value.
      apply drop_duplicates_rescuable.
      intros r Hr. apply prepared_rows_rescuable; exact Hr. }
  rewrite applymap_strip_id by (intros j; apply clean_frame_stripped).
  unfold coerce_numeric. apply fold_left_id.
  intros j Hj. apply in_seq in Hj. apply coerce_column_id.
  intros Hdt. apply clean_frame_text_unparsable; auto.
  rewrite clean_frame_ncols in Hj. lia.
Qed.

(** C8, as the code behaves.  Run a second time on the cleaned Table it
    produced, the Cleaner finds that table unchanged by its first three
    steps, so the second run removes exactly the rows of the cleaned
    table that are equal to an earlier row: the rows that the imputation
    of the first run made equal.  When the cleaned table has no two equal
    rows, the second run removes zero rows and leaves the shape
    unchanged.  (The parser of [pd.to_numeric] rejects the placeholder
    "Unknown".) *)
Theorem second_run_removes_new_duplicates :
  forall (raw : DataFrame) (cleaned_filename : string),
    parse_number "Unknown" = None ->
    let cleaned := clean_frame parse_number raw in
    let report2 := cleaning_report_of parse_number cleaned cleaned_filename in
    original_shape report2 = shape cleaned /\
    rows_removed report2 = Z.of_nat (count_true (duplicated cleaned)) /\
    (count_true (duplicated cleaned) = O ->
     rows_removed report2 = 0%Z /\
     cleaned_shape report2 = shape cleaned /\
     shape (clean_frame parse_number cleaned) = shape cleaned).
Proof.
  intros raw name Hunk cleaned report2.
  assert (Hprep : prepare parse_number cleaned = cleaned)
    by (apply prepare_clean_frame; exact Hunk).
  assert (Hrem : rows_removed report2
                 = Z.of_nat (count_true (duplicated cleaned))).
  { unfold report2, cleaning_report_of; simpl. rewrite Hprep.
    rewrite impute_nrows.
    pose proof (drop_duplicates_count cleaned). lia. }
  split; [|split].
  - unfold report2, cleaning_report_of; simpl. rewrite Hprep. reflexivity.
  - exact Hrem.
  - intros Hnd.
    assert (Hshape : shape (impute (drop_duplicates cleaned)) = shape cleaned).
    { rewrite (drop_duplicates_id cleaned Hnd). unfold shape.
      rewrite impute_nrows, impute_ncols. reflexivity. }
    split; [rewrite Hrem, Hnd; reflexivity|]. split.
    + unfold report2, cleaning_report_of; simpl. rewrite Hprep. exact Hshape.
    + unfold clean_frame at 1. rewrite Hprep. exact Hshape.
Qed.

End Idempotence.

(** The hypotheses of [second_run_removes_new_duplicates] are met on the
    scenario table: the parser of the examples rejects "Unknown" and the
    cleaned table has no two equal rows. *)
Lemma second_run_removes_new_duplicates_witness :
  let cleaned := clean_frame Example.parse_number Example.scenario in
  let report2 := cleaning_report_of Example.parse_number cleaned "c" in
  Example.parse_number "Unknown" = None /\
  count_true (duplicated cleaned) = O /\
  rows_removed report2 = 0%Z /\
  cleaned_shape report2 = shape cleaned /\
  shape (clean_frame Example.parse_number cleaned) = shape cleaned.
Proof.
  intros cleaned report2.
  assert (H1 : Example.parse_number "Unknown" = None) by reflexivity.
  assert (H2 : count_true (duplicated cleaned) = O) by reflexivity.
  split; [exact H1|]. split; [exact H2|].
  exact (proj2 (proj2 (@second_run_removes_new_duplicates
                         Example.parse_number Example.scenario "c" H1)) H2).
Defined.

(** C8, as stated, fails.  The two rows of the table differ by a null;
    the first run keeps both and fills the null with the median, which
    makes them equal; the second run removes one of them, and the shape
    goes from (2, 2) to (1, 2). *)
Lemma second_run_removes_a_row :
  let cleaned := clean_frame Example.parse_number Example.null_then_equal in
  let report2 := cleaning_report_of Example.parse_number cleaned "c" in
  rows_removed (cleaning_report_of Example.parse_number
                  Example.null_then_equal "c") = 0%Z /\
  shape cleaned = (2%Z, 2%Z) /\
  rows_removed report2 = 1%Z /\
  rows_removed report2 <> 0%Z /\
  shape (clean_frame Example.parse_number cleaned) = (1%Z, 2%Z) /\
  shape (clean_frame Example.parse_number cleaned) <> shape cleaned.
Proof.
  repeat split; try reflexivity; discriminate.
Qed.

(* ================================================================== *)
(** * What the imputation loop does fill *)
(* ================================================================== *)

Lemma mode_notna (y : Cell) (cells : list Cell) :
  In y (mode cells) -> y <> NA.
Proof.
  unfold mode. intros H. apply sort_by_In in H.
  apply filter_In in H. destruct H as [H _].
  apply dedup_cells_In in H. apply filter_In in H.
  destruct H as [_ H]. intros ->. discriminate H.
Qed.

(** Apart from the numeric columns that hold no number, a cell of the
    imputed frame is not null: the categorical branch always has a fill
    value, the numeric branch has one as soon as the column holds a
    number. *)
Lemma impute_fills (df : DataFrame) (p i : nat) :
  (p < ncols df)%nat ->
  (p < nth i (row_lengths df) O)%nat ->
  is_float_or_int (dtype_at p df) = false \/ has_number (column p df) ->
  nth i (column p (impute df)) NA <> NA.
Proof.
  intros Hp Hlen Hfill. rewrite impute_nth by exact Hp.
  apply Nat.ltb_lt in Hlen. rewrite Hlen.
  destruct (nth i (column p df) NA) eqn:E; simpl; try discriminate.
  unfold fill_value.
  destruct (is_float_or_int (dtype_at p df)) eqn:Edt.
  - destruct Hfill as [Hf|Hf]; [discriminate|].
    apply median_has_number; exact Hf.
  - destruct (mode (column p df)) as [|m t] eqn:Em; [discriminate|].
    apply (@mode_notna m (column p df)). rewrite Em. left; reflexivity.
Qed.

(* ================================================================== *)
(** * The Cleaner: header, labels and values it keeps *)
(* ================================================================== *)

Lemma index_set_column_map (j : nat) (dt : DType) (f : Cell -> Cell)
  (df : DataFrame) :
  index (set_column j dt (map f (column j df)) df) = index df.
Proof.
  unfold index. rewrite set_column_map_rows, map_map. reflexivity.
Qed.

Lemma fold_impute_index (js : list nat) (df : DataFrame) :
  index (fold_left impute_column js df) = index df.
Proof.
  revert df; induction js as [|j js IH]; intros df; simpl; auto.
  rewrite IH, impute_column_eq. apply index_set_column_map.
Qed.

Lemma fold_coerce_index (parse_number : string -> option Q)
  (js : list nat) (df : DataFrame) :
  index (fold_left (coerce_column parse_number) js df) = index df.
Proof.
  revert df; induction js as [|j js IH]; intros df; simpl; auto.
  rewrite IH. unfold coerce_column, to_numeric.
  destruct (DType_eqb _ _); auto.
  destruct (0 <? _)%nat; auto. apply index_set_column_map.
Qed.

Lemma select_select {A} (m1 m2 : list bool) (l : list A) :
  exists m, length m = length l /\
            forall (B : Type) (g : A -> B),
              select m2 (select m1 (map g l)) = select m (map g l).
Proof.
  revert m2 l; induction m1 as [|b m1 IH]; intros m2 l.
  - exists (map (fun _ => false) l). split; [apply length_map|].
    intros B g. destruct m2; simpl.
    + induction l; simpl; auto.
    + induction l; simpl; auto.
  - destruct l as [|x l].
    + exists []. split; auto. intros B g; simpl. destruct m2; reflexivity.
    + destruct b.
      * destruct m2 as [|c m2].
        -- exists (map (fun _ => false) (x :: l)).
           split; [apply length_map|]. intros B g. simpl.
           clear. induction l; simpl; auto.
        -- destruct (IH m2 l) as (m & Hm & H).
           exists (c :: m). split; [simpl; congruence|].
           intros B g. simpl. destruct c; rewrite H; reflexivity.
      * destruct (IH m2 l) as (m & Hm & H).
        exists (false :: m). split; [simpl; congruence|].
        intros B g. simpl. apply H.
Qed.

Section CleanerKeeps.

Variable parse_number : string -> option Q.

(** X1.  The Cleaner keeps the header: the column names, in their order, and
    the dtype of every column except that a text column may have become
    numeric (int64 or float64, as [pd.to_numeric] decides). *)
Theorem cleaner_keeps_header :
  forall raw : DataFrame,
    column_names (clean_frame parse_number raw) = column_names raw /\
    forall j,
      dtype_at j (clean_frame parse_number raw) = dtype_at j raw \/
      (dtype_at j raw = Object /\
       is_float_or_int (dtype_at j (clean_frame parse_number raw)) = true).
Proof.
  intros raw. split; [apply clean_frame_names|].
  intros j. unfold clean_frame, impute. rewrite fold_impute_dtype.
  change (dtype_at j (drop_duplicates ?d)) with (dtype_at j d).
  unfold prepare.
  set (pre := applymap strip_cell (dropna_all raw)).
  change (dtype_at j raw) with (dtype_at j pre).
  destruct (Nat.lt_ge_cases j (ncols pre)) as [Hj|Hj].
  - destruct (coerce_numeric_at parse_number pre Hj) as (_ & H2 & _).
    rewrite H2. unfold coerce_column.
    destruct (DType_eqb (dtype_at j pre) Object) eqn:Eo; auto.
    destruct (0 <? _)%nat; auto.
    right. split; [apply DType_eqb_eq; exact Eo|].
    rewrite set_column_dtype_same by exact Hj. reflexivity.
  - left. unfold coerce_numeric.
    apply fold_coerce_other. rewrite in_seq. lia.
Qed.

(** X2.  The Cleaner only removes rows: the labels of the cleaned table are
    the labels of the raw table under a mask, in the same order. *)
Theorem cleaner_keeps_label_order :
  forall raw : DataFrame,
    exists mask,
      length mask = nrows raw /\
      index (clean_frame parse_number raw) = select mask (index raw).
Proof.
  intros raw. unfold clean_frame, impute. rewrite fold_impute_index.
  unfold drop_duplicates, prepare.
  set (pre := applymap strip_cell (dropna_all raw)).
  set (T1 := coerce_numeric parse_number pre).
  assert (H1 : index T1 = index pre) by apply fold_coerce_index.
  assert (H0 : index pre =
               select (map (fun r => negb (forallb isnull (snd r)))
                           (df_rows raw)) (index raw)).
  { unfold pre, index, applymap, dropna_all; simpl.
    rewrite map_map; simpl. rewrite select_map, select_map_test.
    reflexivity. }
  destruct (select_select
              (map (fun r => negb (forallb isnull (snd r))) (df_rows raw))
              (map negb (duplicated T1)) (df_rows raw)) as (m & Hm & H).
  exists m. split; [exact Hm|].
  unfold index at 1, df_select; simpl.
  rewrite <- select_map. fold (index T1). rewrite H1, H0.
  unfold index. apply H.
Qed.

End CleanerKeeps.

(** X3.  Imputation keeps every value: a cell that is not null before the
    loop is the same cell after it, and the labels are the same. *)
Theorem impute_keeps_values :
  forall (df : DataFrame) (i p : nat),
    index (impute df) = index df /\
    (nth i (column p df) NA <> NA ->
     nth i (column p (impute df)) NA = nth i (column p df) NA).
Proof.
  intros df i p. split; [apply fold_impute_index|].
  intros H.
  destruct (Nat.lt_ge_cases p (ncols df)) as [Hp|Hp].
  - rewrite impute_nth by exact Hp.
    assert (Hl : (p < nth i (row_lengths df) O)%nat).
    { rewrite row_lengths_nth. apply nth_not_NA_In.
      rewrite <- column_nth. exact H. }
    apply Nat.ltb_lt in Hl. rewrite Hl.
    destruct (nth i (column p df) NA); simpl; congruence.
  - rewrite impute_column_out by exact Hp. reflexivity.
Qed.

(* ================================================================== *)
(** * Duplicates: what [drop_duplicates] leaves and what the census counts *)
(* ================================================================== *)

Lemma cell_eqb_sym (a b : Cell) : cell_eqb a b = cell_eqb b a.
Proof.
  destruct a as [|x|s|x], b as [|y|t|y]; simpl; auto.
  - unfold Qeq_bool. rewrite Z.eqb_sym. reflexivity.
  - apply String.eqb_sym.
  - destruct x, y; reflexivity.
Qed.

Lemma row_eqb_sym (r1 r2 : list Cell) : row_eqb r1 r2 = row_eqb r2 r1.
Proof.
  revert r2; induction r1 as [|a r1 IH]; intros [|b r2]; simpl; auto.
  rewrite cell_eqb_sym, IH. reflexivity.
Qed.

Lemma count_true_map_filter {A} (f : A -> bool) (l : list A) :
  count_true (map f l) = length (filter f l).
Proof.
  unfold count_true. induction l as [|x l IH]; simpl; auto.
  destruct (f x); simpl; auto.
Qed.

Lemma count_true_all_false (mask : list bool) :
  Forall (fun b => b = false) mask -> count_true mask = O.
Proof.
  unfold count_true. induction 1 as [|b l Hb _ IH]; simpl; auto.
  subst b. exact IH.
Qed.

Lemma select_length_count {A} (mask : list bool) (l : list A) :
  length mask = length l -> length (select mask l) = count_true mask.
Proof.
  unfold count_true. revert l; induction mask as [|b m IH]; intros [|x l] H;
    simpl in *; try discriminate; auto.
  destruct b; simpl; rewrite IH; auto.
Qed.

Lemma existsb_false_incl {A} (f : A -> bool) (l l' : list A) :
  (forall x, In x l' -> In x l) ->
  existsb f l = false -> existsb f l' = false.
Proof.
  intros Hin H. destruct (existsb f l') eqn:E; auto.
  apply existsb_exists in E. destruct E as (x & Hx & Hf).
  assert (existsb f l = true) by (apply existsb_exists; eauto).
  congruence.
Qed.

Lemma duplicated_from_kept (rows seen seen' : list (list Cell)) :
  (forall x, In x seen' -> In x seen) ->
  Forall (fun b => b = false)
    (duplicated_from seen'
       (select (map negb (duplicated_from seen rows)) rows)).
Proof.
  revert seen seen'; induction rows as [|r t IH]; intros seen seen' Hin;
    simpl; [constructor|].
  destruct (existsb (row_eqb r) seen) eqn:E; simpl.
  - apply IH. intros x Hx. right. auto.
  - constructor.
    + eapply existsb_false_incl; eauto.
    + apply IH. intros x [Hx|Hx]; [left; exact Hx | right; auto].
Qed.

(** X4.  After [drop_duplicates] no row is a duplicate of an earlier one, and
    a second [drop_duplicates] changes nothing. *)
Theorem drop_duplicates_leaves_none :
  forall df : DataFrame,
    count_true (duplicated (drop_duplicates df)) = O /\
    drop_duplicates (drop_duplicates df) = drop_duplicates df.
Proof.
  intros df.
  assert (H : count_true (duplicated (drop_duplicates df)) = O).
  { apply count_true_all_false. unfold duplicated at 1, drop_duplicates,
      df_select; simpl. rewrite <- select_map. unfold duplicated.
    apply duplicated_from_kept. auto. }
  split; [exact H | apply drop_duplicates_id; exact H].
Qed.

Lemma filter_nil_forall {A} (f : A -> bool) (l : list A) :
  (forall x, In x l -> f x = false) -> filter f l = [].
Proof.
  induction l as [|x l IH]; intros H; simpl; auto.
  rewrite (H x) by (left; reflexivity). apply IH. intros; apply H; right; auto.
Qed.

Lemma filter_In_length {A} (f : A -> bool) (l : list A) (x : A) :
  In x l -> f x = true -> (1 <= length (filter f l))%nat.
Proof.
  intros Hin Hf.
  assert (Hx : In x (filter f l)) by (apply filter_In; auto).
  destruct (filter f l); [destruct Hx | simpl; lia].
Qed.

(** The test of [duplicated(keep=False)] passes from a row to every row
    equal to it. *)
Lemma group_test_closed (rows : list (list Cell)) (r x : list Cell) :
  row_eqb r x = true ->
  (length (filter (row_eqb r) rows) <= length (filter (row_eqb x) rows))%nat.
Proof.
  intros Hrx. apply filter_length_le_impl. intros y Hy.
  apply row_eqb_trans with r; auto. rewrite row_eqb_sym; exact Hrx.
Qed.

Lemma duplicated_all_not_one (rows : list (list Cell)) :
  length (filter (fun r => (2 <=? length (filter (row_eqb r) rows))%nat) rows)
  <> 1%nat.
Proof.
  set (f := fun r => (2 <=? length (filter (row_eqb r) rows))%nat).
  intros H1.
  destruct (filter f rows) as [|r l] eqn:E; [discriminate|].
  assert (Hr : In r (filter f rows)) by (rewrite E; left; reflexivity).
  apply filter_In in Hr. destruct Hr as [_ Hf].
  unfold f in Hf. apply Nat.leb_le in Hf.
  assert (Hle : (length (filter (row_eqb r) rows) <=
                 length (filter f rows))%nat).
  { apply filter_length_le_impl. intros x Hx. unfold f.
    apply Nat.leb_le. pose proof (group_test_closed rows _ _ Hx). lia. }
  rewrite E in Hle. lia.
Qed.

Lemma first_false_groups (rows seen : list (list Cell)) :
  Forall (fun b => b = false) (duplicated_from seen rows) ->
  forall r, In r rows ->
    (length (filter (row_eqb r) rows) <= 1)%nat /\
    existsb (row_eqb r) seen = false.
Proof.
  revert seen; induction rows as [|a t IH]; intros seen H r Hr;
    [destruct Hr|].
  simpl in H. inversion H as [|b l Ha Ht]; subst.
  specialize (IH _ Ht).
  assert (Hta : forall x, In x t -> row_eqb x a = false /\
                                   existsb (row_eqb x) seen = false).
  { intros x Hx. destruct (IH x Hx) as [_ He]. simpl in He.
    apply orb_false_iff in He. exact He. }
  destruct Hr as [->|Hr].
  - split; [|exact Ha]. simpl. rewrite row_eqb_refl. simpl.
    rewrite filter_nil_forall; [simpl; lia|].
    intros x Hx. rewrite row_eqb_sym. apply Hta; exact Hx.
  - destruct (Hta r Hr) as [Hra Hs]. split; [|exact Hs].
    simpl. rewrite Hra. apply IH; exact Hr.
Qed.

Lemma groups_first_false (rows seen : list (list Cell)) :
  (forall r, In r rows -> existsb (row_eqb r) seen = false) ->
  (forall r, In r rows -> (length (filter (row_eqb r) rows) < 2)%nat) ->
  Forall (fun b => b = false) (duplicated_from seen rows).
Proof.
  revert seen; induction rows as [|a t IH]; intros seen Hs Hg; simpl;
    constructor.
  - apply Hs; left; reflexivity.
  - apply IH.
    + intros r Hr. simpl. rewrite Hs by (right; exact Hr).
      rewrite orb_false_r.
      destruct (row_eqb r a) eqn:E; auto.
      specialize (Hg r (or_intror Hr)). simpl in Hg. rewrite E in Hg.
      simpl in Hg.
      pose proof (filter_In_length (row_eqb r) t r Hr (row_eqb_refl r)).
      lia.
    + intros r Hr. specialize (Hg r (or_intror Hr)). simpl in Hg.
      destruct (row_eqb r a); simpl in Hg; lia.
Qed.

Lemma duplicated_all_zero_iff (df : DataFrame) :
  count_true (duplicated_all df) = O <-> count_true (duplicated df) = O.
Proof.
  unfold duplicated_all, duplicated.
  set (rows := map snd (df_rows df)).
  rewrite count_true_map_filter. split; intros H.
  - apply count_true_all_false. apply groups_first_false.
    + reflexivity.
    + intros r Hr.
      destruct (2 <=? length (filter (row_eqb r) rows))%nat eqn:E.
      * assert (Hin : In r (filter
                  (fun r => (2 <=? length (filter (row_eqb r) rows))%nat)
                  rows)) by (apply filter_In; auto).
        destruct (filter _ rows); [destruct Hin | discriminate].
      * apply Nat.leb_gt in E. exact E.
  - apply count_true_zero in H.
    rewrite filter_nil_forall; [reflexivity|].
    intros r Hr. apply Nat.leb_gt.
    destruct (first_false_groups _ _ H r Hr) as [Hl _]. lia.
Qed.

Section Census.

Variable isolation_forest : list (list Q) -> Py.result (list bool).
Variable current_year : Z.

Lemma detect_anomalies_sections (df : DataFrame) (report : AnomalyReport) :
  detect_anomalies isolation_forest current_year df = Py.Ok report ->
  an_duplicates report = Z.of_nat (count_true (duplicated_all df)) /\
  an_rows_with_duplicates report = select (duplicated_all df) (index df) /\
  an_missing_values report =
    to_dict (filter (fun kv => (0 <? snd kv)%Z) (isnull_sum df)) /\
  an_outliers report = outliers_of df /\
  an_invalid_values report = invalid_values_of df.
Proof.
  unfold detect_anomalies.
  destruct (domain_rules current_year df); simpl; [|discriminate].
  destruct (multivariate isolation_forest df); simpl; [|discriminate].
  intros H; inversion H; subst; simpl. auto.
Qed.

(** X5.  The duplicate census of a report: the count is the number of listed
    labels, it is never 1, and it is 0 exactly when [duplicated()]
    (keep first) marks no row. *)
Theorem duplicate_census_counts_groups :
  forall (df : DataFrame) (report : AnomalyReport),
    detect_anomalies isolation_forest current_year df = Py.Ok report ->
    an_duplicates report
      = Z.of_nat (length (an_rows_with_duplicates report)) /\
    an_duplicates report <> 1%Z /\
    (an_duplicates report = 0%Z <-> count_true (duplicated df) = O).
Proof.
  intros df report H.
  destruct (detect_anomalies_sections df H) as (Hd & Hr & _).
  rewrite Hd, Hr. split; [|split].
  - rewrite select_length_count; auto.
    unfold duplicated_all, index. rewrite !length_map. reflexivity.
  - intros H1.
    assert (H2 : count_true (duplicated_all df) = 1%nat) by lia.
    unfold duplicated_all in H2. rewrite count_true_map_filter in H2.
    exact (duplicated_all_not_one _ H2).
  - rewrite <- duplicated_all_zero_iff. lia.
Qed.

End Census.

(** Witness: the three-row table of the scenario. *)
Lemma duplicate_census_counts_groups_witness :
  exists report,
    detect_anomalies Example.isolation_forest Example.current_year
      Example.scenario = Py.Ok report /\
    an_duplicates report
      = Z.of_nat (length (an_rows_with_duplicates report)) /\
    an_duplicates report <> 1%Z /\
    (an_duplicates report = 0%Z <->
     count_true (duplicated Example.scenario) = O).
Proof.
  destruct (detect_anomalies Example.isolation_forest Example.current_year
              Example.scenario) as [report|e] eqn:E;
    [|vm_compute in E; discriminate].
  exists report. split; [reflexivity|].
  exact (duplicate_census_counts_groups Example.isolation_forest
           Example.current_year Example.scenario E).
Defined.

(* ================================================================== *)
(** * The nulls the Cleaner leaves *)
(* ================================================================== *)

Lemma numbers_no_value (cells : list Cell) :
  Forall (fun c => cell_value c = None) cells -> numbers cells = [].
Proof.
  induction 1 as [|c l Hc _ IH]; simpl; auto.
  destruct c; simpl in Hc; try discriminate; exact IH.
Qed.

Lemma median_no_value (cells : list Cell) :
  Forall (fun c => cell_value c = None) cells -> median cells = NA.
Proof.
  intros H. unfold median, sorted_numbers.
  rewrite (numbers_no_value H). reflexivity.
Qed.

Lemma no_number_forall (cells : list Cell) :
  ~ has_number cells -> Forall (fun c => cell_value c = None) cells.
Proof.
  intros H. apply Forall_forall. intros c Hc.
  destruct (cell_value c) eqn:E; auto.
  exfalso. apply H. exists c. split; auto. congruence.
Qed.

Section CleanedNulls.

Variable parse_number : string -> option Q.

(** X6.  A null cell of the cleaned table lies in a column of numeric dtype
    that holds no number at all: imputation fills every other null. *)
Theorem cleaned_nulls_only_in_empty_numeric_columns :
  forall (raw : DataFrame) (i p : nat),
    (p < ncols raw)%nat ->
    (p < nth i (row_lengths (clean_frame parse_number raw)) O)%nat ->
    nth i (column p (clean_frame parse_number raw)) NA = NA ->
    is_float_or_int (dtype_at p (clean_frame parse_number raw)) = true /\
    Forall (fun c => cell_value c = None)
           (column p (clean_frame parse_number raw)).
Proof.
  intros raw i p Hp Hl Hna. unfold clean_frame in *.
  set (D := drop_duplicates (prepare parse_number raw)) in *.
  assert (HpD : (p < ncols D)%nat).
  { rewrite <- (clean_frame_ncols parse_number raw) in Hp.
    unfold clean_frame in Hp. fold D in Hp.
    rewrite impute_ncols in Hp. exact Hp. }
  assert (Hlens : row_lengths (impute D) = row_lengths D)
    by apply fold_impute_row_lengths.
  rewrite Hlens in Hl.
  assert (Hno : ~ (is_float_or_int (dtype_at p D) = false \/
                   has_number (column p D))).
  { intros H. exact (impute_fills D i HpD Hl H Hna). }
  assert (Hnum : is_float_or_int (dtype_at p D) = true).
  { destruct (is_float_or_int (dtype_at p D)) eqn:E; [reflexivity|].
    exfalso; apply Hno; left; reflexivity. }
  assert (Hall : Forall (fun c => cell_value c = None) (column p D)).
  { apply no_number_forall. intros H; apply Hno; right; exact H. }
  split.
  - unfold impute. rewrite fold_impute_dtype. exact Hnum.
  - apply impute_forall; auto.
    unfold fill_value. rewrite Hnum. rewrite median_no_value; auto.
Qed.

End CleanedNulls.

(** Witness: the table whose numeric column is null in every row. *)
Lemma cleaned_nulls_only_in_empty_numeric_columns_witness :
  is_float_or_int
    (dtype_at 1 (clean_frame Example.parse_number Example.all_null_numeric))
    = true /\
  Forall (fun c => cell_value c = None)
    (column 1 (clean_frame Example.parse_number Example.all_null_numeric)).
Proof.
  apply (@cleaned_nulls_only_in_empty_numeric_columns Example.parse_number
           Example.all_null_numeric 0 1).
  - vm_compute. lia.
  - vm_compute. lia.
  - vm_compute. reflexivity.
Defined.

(* ================================================================== *)
(** * The missing-value census of the Detector *)
(* ================================================================== *)

Lemma filter_map_fst_nodup {V} (p : string * V -> bool)
  (l : list (string * V)) :
  NoDup (map fst l) -> NoDup (map fst (filter p l)).
Proof.
  induction l as [|[k v] l IH]; simpl; intros H; [constructor|].
  inversion H as [|? ? Hk Hl]; subst.
  destruct (p (k, v)); simpl; auto.
  constructor; auto.
  intros Hin. apply Hk. apply in_map_iff in Hin.
  destruct Hin as (x & Hx & Hin). apply filter_In in Hin.
  apply in_map_iff. exists x. tauto.
Qed.

Lemma dict_get_absent {V} (d : Py.dict V) (k : string) :
  ~ In k (map fst d) -> Py.dict_get d k = None.
Proof.
  induction d as [|[k' v'] d IH]; simpl; intros H; auto.
  destruct (String.eqb k' k) eqn:E.
  - apply String.eqb_eq in E. exfalso; apply H; left; exact E.
  - apply IH. intros Hin; apply H; right; exact Hin.
Qed.

Lemma dict_get_filter {V} (p : string * V -> bool) (l : list (string * V))
  (k : string) (v : V) :
  NoDup (map fst l) -> In (k, v) l ->
  Py.dict_get (filter p l) k = if p (k, v) then Some v else None.
Proof.
  intros Hnd Hin.
  destruct (p (k, v)) eqn:E.
  - apply dict_get_In.
    + apply filter_map_fst_nodup; exact Hnd.
    + apply filter_In; auto.
  - apply dict_get_absent. intros H. apply in_map_iff in H.
    destruct H as ([k' v'] & Hk & H). simpl in Hk; subst k'.
    apply filter_In in H. destruct H as [H Hp].
    assert (v' = v).
    { clear E Hp. induction l as [|[a b] l IH]; [destruct Hin|].
      simpl in Hnd. inversion Hnd as [|? ? Ha Hl]; subst.
      destruct Hin as [Hin|Hin], H as [H|H].
      - congruence.
      - inversion Hin; subst. exfalso; apply Ha.
        apply in_map_iff. exists (k, v'); auto.
      - inversion H; subst. exfalso; apply Ha.
        apply in_map_iff. exists (k, v); auto.
      - auto. }
    subst v'. congruence.
Qed.

Lemma isnull_sum_names (df : DataFrame) :
  map fst (isnull_sum df) = column_names df.
Proof.
  unfold isnull_sum. rewrite map_map. simpl. unfold name_at.
  rewrite ncols_names. apply map_nth_seq.
Qed.

Section MissingCensus.

Variable isolation_forest : list (list Q) -> Py.result (list bool).
Variable current_year : Z.

(** X7.  The missing-value census: under distinct column names, a column is
    listed exactly when it holds a null, with its number of nulls. *)
Theorem missing_census_lists_null_columns :
  forall (df : DataFrame) (report : AnomalyReport) (j : nat),
    NoDup (column_names df) ->
    detect_anomalies isolation_forest current_year df = Py.Ok report ->
    (j < ncols df)%nat ->
    Py.dict_get (an_missing_values report) (name_at j df) =
    if (0 <? null_count (column j df))%Z
    then Some (null_count (column j df)) else None.
Proof.
  intros df report j Hnd H Hj.
  destruct (detect_anomalies_sections _ _ df H) as (_ & _ & Hm & _).
  rewrite Hm. rewrite to_dict_nodup.
  - apply (@dict_get_filter Z (fun kv => (0 <? snd kv)%Z)).
    + rewrite isnull_sum_names. exact Hnd.
    + unfold isnull_sum. apply in_map_iff. exists j. split; auto.
      apply in_seq. lia.
  - apply filter_map_fst_nodup. rewrite isnull_sum_names. exact Hnd.
Qed.

End MissingCensus.

(** Witness: the numeric column of nulls that the Cleaner leaves. *)
Lemma missing_census_lists_null_columns_witness :
  exists report,
    detect_anomalies Example.isolation_forest Example.current_year
      (clean_frame Example.parse_number Example.all_null_numeric)
      = Py.Ok report /\
    Py.dict_get (an_missing_values report)
      (name_at 1 (clean_frame Example.parse_number Example.all_null_numeric))
    = Some 2%Z.
Proof.
  destruct (detect_anomalies Example.isolation_forest Example.current_year
              (clean_frame Example.parse_number Example.all_null_numeric))
    as [report|e] eqn:E; [|vm_compute in E; discriminate].
  exists report. split; [reflexivity|].
  rewrite (@missing_census_lists_null_columns Example.isolation_forest
             Example.current_year _ report 1).
  - vm_compute. reflexivity.
  - vm_compute. repeat constructor; simpl; intuition discriminate.
  - exact E.
  - vm_compute. lia.
Defined.

(* ================================================================== *)
(** * The texts and the missing counts of the Cleaner *)
(* ================================================================== *)

Lemma column_set_column_map (j : nat) (dt : DType) (f : Cell -> Cell)
  (df : DataFrame) :
  f NA = NA ->
  column j (set_column j dt (map f (column j df)) df)
  = map f (column j df).
Proof.
  intros Hf. unfold column at 1. rewrite set_column_map_rows, map_map.
  unfold column. rewrite map_map. apply map_ext. intros r. cbn [snd].
  destruct (Nat.lt_ge_cases j (length (snd r))) as [H|H].
  - apply nth_set_nth_same; exact H.
  - rewrite set_nth_out by exact H.
    rewrite (nth_overflow (snd r) NA H). symmetry; exact Hf.
Qed.

Section CleanerReport.

Variable parse_number : string -> option Q.

(** X8.  Every text of the cleaned table, the filled ones included, is free
    of leading and trailing whitespace. *)
Theorem cleaned_texts_are_trimmed :
  forall (raw : DataFrame) (j : nat) (s : string),
    In (Str s) (column j (clean_frame parse_number raw)) ->
    Py.strip s = s.
Proof.
  intros raw j s H.
  pose proof (clean_frame_stripped parse_number raw j) as Hs.
  rewrite Forall_forall in Hs. specialize (Hs _ H).
  unfold stripped in Hs. simpl in Hs. congruence.
Qed.

(** X9.  The missing counts of the CleaningReport are taken after the
    coercion.  Under distinct column names, the count of a text column
    with a cell that parses is the number of cells that do not parse, the
    nulls of the file and the texts that are no number alike; the count
    of any other column is its number of nulls. *)
Theorem report_counts_unparsed_as_missing :
  forall (raw : DataFrame) (cleaned_filename : string) (j : nat),
    NoDup (column_names raw) ->
    (j < ncols raw)%nat ->
    let col := column j (applymap strip_cell (dropna_all raw)) in
    Py.dict_get
      (missing_values (cleaning_report_of parse_number raw cleaned_filename))
      (name_at j raw) =
    Some (if DType_eqb (dtype_at j raw) Object
             && (0 <? length (filter notna (to_numeric parse_number col)))%nat
          then null_count (to_numeric parse_number col)
          else null_count col).
Proof.
  intros raw cleaned_filename j Hnd Hj col.
  cbn [cleaning_report_of missing_values]. unfold prepare.
  unfold col. clear col.
  set (pre := applymap strip_cell (dropna_all raw)).
  assert (Hnames : column_names (coerce_numeric parse_number pre)
                   = column_names raw).
  { unfold coerce_numeric.
    destruct (fold_coerce_names parse_number (seq 0 (ncols pre)) pre)
      as [-> _]. reflexivity. }
  assert (Hncols : ncols (coerce_numeric parse_number pre) = ncols raw).
  { rewrite !ncols_names, Hnames. reflexivity. }
  rewrite to_dict_nodup by (rewrite isnull_sum_names, Hnames; exact Hnd).
  assert (Hname : name_at j (coerce_numeric parse_number pre) = name_at j raw)
    by (unfold name_at; rewrite Hnames; reflexivity).
  assert (Hjp : (j < ncols pre)%nat) by exact Hj.
  destruct (coerce_numeric_at parse_number pre Hjp) as (Hc1 & _ & Hc2).
  apply dict_get_In.
  - rewrite isnull_sum_names, Hnames. exact Hnd.
  - unfold isnull_sum. apply in_map_iff. exists j. split.
    + rewrite Hname. f_equal. rewrite Hc1, Hc2.
      change (dtype_at j pre) with (dtype_at j raw).
      destruct (DType_eqb (dtype_at j raw) Object
                && (0 <? length (filter notna
                                   (to_numeric parse_number (column j pre))))%nat);
        [|reflexivity].
      unfold to_numeric. rewrite column_set_column_map; reflexivity.
    + apply in_seq. rewrite Hncols. lia.
Qed.

End CleanerReport.

(** Witness: a text of a table with a padded city name. *)
Lemma cleaned_texts_are_trimmed_witness :
  In (Str "Oslo")
     (column 0 (clean_frame Example.parse_number Example.city_with_null)) /\
  Py.strip "Oslo" = "Oslo".
Proof.
  assert (H : In (Str "Oslo")
                (column 0 (clean_frame Example.parse_number
                             Example.city_with_null)))
    by (vm_compute; auto).
  split; [exact H|].
  exact (cleaned_texts_are_trimmed Example.parse_number
           Example.city_with_null 0 "Oslo" H).
Defined.

(** Witness: the salary column with one text that is no number. *)
Lemma report_counts_unparsed_as_missing_witness :
  Py.dict_get
    (missing_values
       (cleaning_report_of Example.parse_number Example.salary_with_null
          "cleaned_people.csv"))
    "salary" = Some 1%Z.
Proof.
  change "salary" with (name_at 0 Example.salary_with_null).
  rewrite (@report_counts_unparsed_as_missing Example.parse_number
             Example.salary_with_null "cleaned_people.csv" 0).
  - reflexivity.
  - repeat constructor; simpl; intuition.
  - vm_compute. lia.
Defined.

(* ================================================================== *)
(** * The domain rules of the Detector *)
(* ================================================================== *)

Lemma mapM_ok_map {A B} (f : A -> Py.result B) (g : A -> B) (l : list A) :
  (forall x, In x l -> f x = Py.Ok (g x)) -> Py.mapM f l = Py.Ok (map g l).
Proof.
  induction l as [|x l IH]; intros H; simpl; auto.
  rewrite (H x) by (left; reflexivity). simpl.
  rewrite IH by (intros; apply H; right; auto). reflexivity.
Qed.

Lemma mapM_ok_inv {A B} (f : A -> Py.result B) (l : list A) (bs : list B) :
  Py.mapM f l = Py.Ok bs -> forall x, In x l -> exists b, f x = Py.Ok b.
Proof.
  revert bs; induction l as [|y l IH]; intros bs H x Hx; [destruct Hx|].
  simpl in H. destruct (f y) as [b|e] eqn:E; simpl in H; [|discriminate].
  destruct (Py.mapM f l) as [bs'|e] eqn:E'; simpl in H; [|discriminate].
  destruct Hx as [<-|Hx]; eauto.
Qed.

Lemma mapM_raise {A B} (f : A -> Py.result B) (l : list A) (x : A)
  (e : string) :
  (forall y e', f y = Py.Raise e' -> e' = e) ->
  In x l -> f x = Py.Raise e -> Py.mapM f l = Py.Raise e.
Proof.
  intros Hu. induction l as [|y l IH]; intros Hx Hf; [destruct Hx|].
  simpl. destruct (f y) as [b|e'] eqn:E; simpl.
  - destruct Hx as [->|Hx]; [congruence|].
    rewrite IH; auto.
  - rewrite (Hu _ _ E). reflexivity.
Qed.

Lemma cell_lt_scalar (c : Cell) (v : Q) :
  not_text c ->
  cell_lt c (Num v) =
  Py.Ok match cell_value c with Some x => Qlt_bool x v | None => false end.
Proof. destruct c; simpl; intros H; try reflexivity. destruct H. Qed.

Lemma cell_gt_scalar (c : Cell) (v : Q) :
  not_text c ->
  cell_gt c (Num v) =
  Py.Ok match cell_value c with Some x => Qlt_bool v x | None => false end.
Proof. destruct c; simpl; intros H; try reflexivity. destruct H. Qed.

Lemma series_lt_scalar_ok (l : list Cell) (v : Q) (bs : list bool) :
  series_lt_scalar l v = Py.Ok bs ->
  Forall not_text l /\
  bs = map (fun c => match cell_value c with
                     | Some x => Qlt_bool x v | None => false end) l.
Proof.
  intros H.
  assert (Hn : Forall not_text l).
  { apply Forall_forall. intros c Hc.
    destruct (mapM_ok_inv _ _ H c Hc) as [b Hb].
    destruct c; simpl; auto. discriminate Hb. }
  split; auto.
  unfold series_lt_scalar in H.
  rewrite (@mapM_ok_map _ _ _
             (fun c => match cell_value c with
                       | Some x => Qlt_bool x v | None => false end)) in H.
  - congruence.
  - intros c Hc. apply cell_lt_scalar. rewrite Forall_forall in Hn; auto.
Qed.

Lemma series_gt_scalar_ok (l : list Cell) (v : Q) (bs : list bool) :
  series_gt_scalar l v = Py.Ok bs ->
  Forall not_text l /\
  bs = map (fun c => match cell_value c with
                     | Some x => Qlt_bool v x | None => false end) l.
Proof.
  intros H.
  assert (Hn : Forall not_text l).
  { apply Forall_forall. intros c Hc.
    destruct (mapM_ok_inv _ _ H c Hc) as [b Hb].
    destruct c; simpl; auto. discriminate Hb. }
  split; auto.
  unfold series_gt_scalar in H.
  rewrite (@mapM_ok_map _ _ _
             (fun c => match cell_value c with
                       | Some x => Qlt_bool v x | None => false end)) in H.
  - congruence.
  - intros c Hc. apply cell_gt_scalar. rewrite Forall_forall in Hn; auto.
Qed.

Lemma series_lt_scalar_text (l : list Cell) (v : Q) (s : string) :
  In (Str s) l -> series_lt_scalar l v = Py.Raise (type_error "<").
Proof.
  intros H. unfold series_lt_scalar.
  apply mapM_raise with (x := Str s); auto.
  intros [| | |] e'; simpl; congruence.
Qed.

Lemma zip_with_map {A B C D} (f : B -> C -> D) (g : A -> B) (h : A -> C)
  (l : list A) :
  zip_with f (map g l) (map h l) = map (fun x => f (g x) (h x)) l.
Proof. induction l as [|x l IH]; simpl; congruence. Qed.

(** The labels a mask over the rows selects. *)
Lemma In_select_rows (df : DataFrame) (h : Z * list Cell -> bool) (z : Z) :
  In z (select (map h (df_rows df)) (index df)) <->
  exists r, In r (df_rows df) /\ fst r = z /\ h r = true.
Proof.
  unfold index. rewrite select_map, select_map_test, in_map_iff.
  split; intros (r & H1 & H2).
  - apply filter_In in H2. exists r. tauto.
  - exists r. split; [tauto|]. apply filter_In. tauto.
Qed.

Lemma negative_key_fresh (name k : string) :
  In k ["invalid_age"; "exp_gt_age"; "future_year"] ->
  "negative_" +++ name <> k.
Proof.
  simpl. intros [<-|[<-|[<-|[]]]]; discriminate.
Qed.

Lemma negative_fold_other (df : DataFrame) (js : list nat)
  (acc : Py.dict (list Z)) (k : string) :
  (forall j, In j js -> "negative_" +++ name_at j df <> k) ->
  Py.dict_get (fold_left (negative_step df) js acc) k = Py.dict_get acc k.
Proof.
  revert acc; induction js as [|j js IH]; intros acc H; simpl; auto.
  rewrite IH by (intros j' Hj'; apply H; right; exact Hj').
  unfold negative_step.
  destruct (0 <? length _)%nat; auto.
  apply dict_get_set_other. intros E. apply (H j); [left; reflexivity|].
  symmetry; exact E.
Qed.

Lemma combine_map_same {A B C} (f : A -> B) (g : A -> C) (l : list A) :
  combine (map f l) (map g l) = map (fun x => (f x, g x)) l.
Proof. induction l as [|x l IH]; simpl; congruence. Qed.

Lemma cell_gt_numeric_right (e a : Cell) (b : bool) :
  not_text a -> cell_gt e a = Py.Ok b ->
  b = match cell_value e, cell_value a with
      | Some x, Some y => Qlt_bool y x
      | _, _ => false
      end.
Proof.
  destruct e, a; simpl; intros Ha H; try contradiction;
    unfold cell_gt in H; simpl in H; inversion H; reflexivity.
Qed.

Lemma mapM_ok_pointwise {A B} (f : A -> Py.result B) (g : A -> B)
  (l : list A) (bs : list B) :
  Py.mapM f l = Py.Ok bs ->
  (forall x b, In x l -> f x = Py.Ok b -> b = g x) ->
  bs = map g l.
Proof.
  revert bs; induction l as [|x l IH]; intros bs H Hg.
  - simpl in H. inversion H. reflexivity.
  - simpl in H. destruct (f x) as [b|] eqn:E; simpl in H; [|discriminate].
    destruct (Py.mapM f l) as [bs'|] eqn:E'; simpl in H; [|discriminate].
    inversion H; subst bs. simpl. f_equal.
    + apply Hg; [left; reflexivity | exact E].
    + apply IH; auto. intros y b' Hy. apply Hg. right; exact Hy.
Qed.

Section DomainRules.

Variable isolation_forest : list (list Q) -> Py.result (list bool).
Variable current_year : Z.

Lemma detect_domain (df : DataFrame) (report : AnomalyReport) :
  detect_anomalies isolation_forest current_year df = Py.Ok report ->
  domain_rules current_year df = Py.Ok (an_domain_anomalies report).
Proof.
  unfold detect_anomalies.
  destruct (domain_rules current_year df); simpl; [|discriminate].
  destruct (multivariate isolation_forest df); simpl; [|discriminate].
  intros H; inversion H; subst; reflexivity.
Qed.

Lemma exp_gt_age_rule_keys (df : DataFrame) (d d1 : Py.dict (list Z))
  (k : string) :
  exp_gt_age_rule df d = Py.Ok d1 -> k <> "exp_gt_age" ->
  Py.dict_get d1 k = Py.dict_get d k.
Proof.
  unfold exp_gt_age_rule. intros H Hk.
  destruct (col_pos "age" df), (col_pos "years_experience" df);
    try (inversion H; subst; reflexivity).
  destruct (series_gt _ _); [|discriminate].
  unfold Py.bind in H. inversion H; subst.
  apply dict_get_set_other; exact Hk.
Qed.

Lemma future_year_rule_keys (df : DataFrame) (d d1 : Py.dict (list Z))
  (k : string) :
  future_year_rule current_year df d = Py.Ok d1 -> k <> "future_year" ->
  Py.dict_get d1 k = Py.dict_get d k.
Proof.
  unfold future_year_rule. intros H Hk.
  destruct (col_pos "last_promotion_year" df);
    try (inversion H; subst; reflexivity).
  destruct (series_gt_scalar _ _); [|discriminate].
  unfold Py.bind in H. inversion H; subst.
  apply dict_get_set_other; exact Hk.
Qed.

Lemma domain_rules_inv (df : DataFrame) (d : Py.dict (list Z)) :
  domain_rules current_year df = Py.Ok d ->
  exists ia d2,
    invalid_age_of df = Py.Ok ia /\
    Py.dict_get d2 "invalid_age" = Some ia /\
    (forall k, ~ In k ["invalid_age"; "exp_gt_age"; "future_year"] ->
               Py.dict_get d2 k = None) /\
    d = fold_left (negative_step df) (numeric_cols df) d2.
Proof.
  unfold domain_rules.
  destruct (invalid_age_of df) as [ia|] eqn:Ea; [|discriminate].
  unfold Py.bind at 1.
  destruct (exp_gt_age_rule df [("invalid_age", ia)]) as [d1|] eqn:E1;
    [|discriminate].
  unfold Py.bind at 1.
  destruct (future_year_rule current_year df d1) as [d2|] eqn:E2;
    [|discriminate].
  unfold Py.bind. intros H; inversion H; subst d.
  exists ia, d2. split; [reflexivity|]. split; [|split; [|reflexivity]].
  - rewrite (future_year_rule_keys _ _ E2) by discriminate.
    rewrite (exp_gt_age_rule_keys _ _ E1) by discriminate.
    reflexivity.
  - intros k Hk.
    rewrite (future_year_rule_keys _ _ E2)
      by (intros ->; apply Hk; right; right; left; reflexivity).
    rewrite (exp_gt_age_rule_keys _ _ E1)
      by (intros ->; apply Hk; right; left; reflexivity).
    change (Py.dict_get [("invalid_age", ia)] k)
      with (if String.eqb "invalid_age" k then Some ia else None).
    destruct (String.eqb_spec "invalid_age" k); auto.
    exfalso; apply Hk; left; auto.
Qed.

(** X10.  The age rule of a report: the entry [invalid_age] is always there;
    with an age column it lists the labels of the rows whose age is a
    number below 18 or above 70, and without one it is empty. *)
Theorem age_rule_flags_out_of_range :
  forall (df : DataFrame) (report : AnomalyReport),
    detect_anomalies isolation_forest current_year df = Py.Ok report ->
    exists labels,
      Py.dict_get (an_domain_anomalies report) "invalid_age" = Some labels /\
      match col_pos "age" df with
      | None => labels = []
      | Some a =>
          forall z, In z labels <->
            exists r v, In r (df_rows df) /\ fst r = z /\
                        cell_value (nth a (snd r) NA) = Some v /\
                        (v < 18 \/ 70 < v)%Q
      end.
Proof.
  intros df report H. apply detect_domain in H.
  destruct (domain_rules_inv _ H) as (ia & d2 & Ha & Hg & _ & Hd).
  exists ia. split.
  - rewrite Hd. rewrite negative_fold_other; auto.
    intros j _. apply negative_key_fresh. left; reflexivity.
  - unfold invalid_age_of in Ha.
    destruct (col_pos "age" df) as [a|]; [|congruence].
    destruct (series_lt_scalar (column a df) 18) as [lt18|] eqn:E1;
      simpl in Ha; [|discriminate].
    destruct (series_gt_scalar (column a df) 70) as [gt70|] eqn:E2;
      simpl in Ha; [|discriminate].
    apply series_lt_scalar_ok in E1. destruct E1 as [_ ->].
    apply series_gt_scalar_ok in E2. destruct E2 as [_ ->].
    inversion Ha; subst ia. clear Ha.
    unfold mask_or. rewrite zip_with_map. unfold column. rewrite map_map.
    intros z. rewrite In_select_rows. split.
    + intros (r & Hr & Hz & Ht).
      destruct (cell_value (nth a (snd r) NA)) as [v|] eqn:Ev;
        [|discriminate].
      exists r, v. repeat split; auto.
      apply orb_true_iff in Ht. rewrite !Qlt_bool_iff in Ht. exact Ht.
    + intros (r & v & Hr & Hz & Hv & Ht).
      exists r. repeat split; auto. rewrite Hv.
      apply orb_true_iff. rewrite !Qlt_bool_iff. exact Ht.
Qed.

Lemma append_inj_r (p s t : string) : p +++ s = p +++ t -> s = t.
Proof. induction p; simpl; intros H; auto. inversion H; auto. Qed.

(** X11.  The negative-value rule of a report: under distinct column names, the
    entry [negative_<column>] of a numeric column lists the labels of the
    rows holding a number below zero there, and it is missing exactly
    when no row does. *)
Theorem negative_rule_flags_below_zero :
  forall (df : DataFrame) (report : AnomalyReport) (j : nat),
    NoDup (column_names df) ->
    detect_anomalies isolation_forest current_year df = Py.Ok report ->
    In j (numeric_cols df) ->
    match Py.dict_get (an_domain_anomalies report)
            ("negative_" +++ name_at j df) with
    | Some labels =>
        labels <> [] /\
        forall z, In z labels <->
          exists r v, In r (df_rows df) /\ fst r = z /\
                      cell_value (nth j (snd r) NA) = Some v /\ (v < 0)%Q
    | None =>
        forall r v, In r (df_rows df) ->
                    cell_value (nth j (snd r) NA) = Some v -> ~ (v < 0)%Q
    end.
Proof.
  intros df report j Hnd H Hj. apply detect_domain in H.
  destruct (domain_rules_inv _ H) as (ia & d2 & _ & _ & Hn & Hd).
  rewrite Hd. clear Hd H.
  assert (Hfresh : Py.dict_get d2 ("negative_" +++ name_at j df) = None).
  { apply Hn. intros Hin. exact (@negative_key_fresh _ _ Hin eq_refl). }
  assert (Hjn : (j < ncols df)%nat).
  { unfold numeric_cols in Hj. apply filter_In in Hj.
    destruct Hj as [Hj _]. apply in_seq in Hj. lia. }
  assert (Hother : forall k, In k (numeric_cols df) -> k <> j ->
            "negative_" +++ name_at k df <> "negative_" +++ name_at j df).
  { intros k Hk Hkj E. apply append_inj_r in E.
    unfold numeric_cols in Hk. apply filter_In in Hk.
    destruct Hk as [Hk _]. apply in_seq in Hk.
    apply (@names_differ df j k); auto; lia. }
  assert (Hndc : NoDup (numeric_cols df)).
  { unfold numeric_cols. apply NoDup_filter. apply seq_NoDup. }
  destruct (in_split _ _ Hj) as (l1 & l2 & El).
  rewrite El in Hother, Hndc |- *.
  apply NoDup_remove_2 in Hndc.
  rewrite fold_left_app. cbn [fold_left].
  rewrite negative_fold_other.
  2:{ intros k Hk. apply Hother; [apply in_or_app; right; right; exact Hk|].
      intros ->. apply Hndc. apply in_or_app; right; exact Hk. }
  assert (Hmask : forall z,
    In z (select (map (fun c => match cell_value c with
                                | Some v => Qlt_bool v 0 | None => false end)
                      (column j df)) (index df)) <->
    exists r v, In r (df_rows df) /\ fst r = z /\
                cell_value (nth j (snd r) NA) = Some v /\ (v < 0)%Q).
  { intros z. unfold column. rewrite map_map.
    rewrite In_select_rows. split.
    - intros (r & Hr & Hz & Ht).
      destruct (cell_value (nth j (snd r) NA)) as [v|] eqn:Ev;
        [|discriminate].
      exists r, v. repeat split; auto. apply Qlt_bool_iff; exact Ht.
    - intros (r & v & Hr & Hz & Hv & Ht).
      exists r. repeat split; auto. rewrite Hv.
      apply Qlt_bool_iff; exact Ht. }
  unfold negative_step at 1.
  match goal with
  | |- context [(0 <? length ?neg)%nat] =>
      destruct (0 <? length neg)%nat eqn:En
  end.
  - rewrite dict_get_set_same. split; [|exact Hmask].
    apply Nat.ltb_lt in En. intros E. rewrite E in En. simpl in En. lia.
  - rewrite negative_fold_other.
    2:{ intros k Hk. apply Hother; [apply in_or_app; left; exact Hk|].
        intros ->. apply Hndc. apply in_or_app; left; exact Hk. }
    rewrite Hfresh. intros r v Hr Hv Hlt.
    apply Nat.ltb_ge in En.
    assert (Hin : In (fst r) (select
              (map (fun c => match cell_value c with
                             | Some v => Qlt_bool v 0 | None => false end)
                   (column j df)) (index df))).
    { apply Hmask. exists r, v. auto. }
    destruct (select _ (index df)); [destruct Hin | simpl in En; lia].
Qed.

(** X12.  A text in the age column makes the whole block raise: no section of
    the report is produced. *)
Theorem text_age_fails_detector :
  forall (df : DataFrame) (a : nat) (s : string),
    col_pos "age" df = Some a ->
    In (Str s) (column a df) ->
    detect_anomalies isolation_forest current_year df
    = Py.Raise (type_error "<").
Proof.
  intros df a s Ha Hs. unfold detect_anomalies, domain_rules, invalid_age_of.
  rewrite Ha. rewrite (series_lt_scalar_text _ 18 _ Hs). reflexivity.
Qed.

Lemma domain_rules_entries (df : DataFrame) (d : Py.dict (list Z)) :
  domain_rules current_year df = Py.Ok d ->
  (match col_pos "age" df with
   | Some a => Forall not_text (column a df)
   | None => True
   end) /\
  (match col_pos "age" df, col_pos "years_experience" df with
   | Some a, Some x =>
       exists mask,
         series_gt (column x df) (column a df) = Py.Ok mask /\
         Py.dict_get d "exp_gt_age" = Some (select mask (index df))
   | _, _ => Py.dict_get d "exp_gt_age" = None
   end) /\
  (match col_pos "last_promotion_year" df with
   | Some p =>
       exists mask,
         series_gt_scalar (column p df) (inject_Z current_year)
           = Py.Ok mask /\
         Py.dict_get d "future_year" = Some (select mask (index df))
   | None => Py.dict_get d "future_year" = None
   end).
Proof.
  unfold domain_rules.
  destruct (invalid_age_of df) as [ia|] eqn:Ea; [|discriminate].
  unfold Py.bind at 1.
  destruct (exp_gt_age_rule df [("invalid_age", ia)]) as [d1|] eqn:E1;
    [|discriminate].
  unfold Py.bind at 1.
  destruct (future_year_rule current_year df d1) as [d2|] eqn:E2;
    [|discriminate].
  unfold Py.bind. intros H; inversion H; subst d. clear H.
  split; [|split].
  - unfold invalid_age_of in Ea.
    destruct (col_pos "age" df) as [a|]; [|exact I].
    destruct (series_lt_scalar (column a df) 18) as [lt18|] eqn:El;
      [|discriminate].
    apply series_lt_scalar_ok in El. tauto.
  - rewrite negative_fold_other
      by (intros j _; apply negative_key_fresh; right; left; reflexivity).
    rewrite (future_year_rule_keys _ _ E2) by discriminate.
    unfold exp_gt_age_rule in E1.
    destruct (col_pos "age" df) as [a|];
      [|inversion E1; subst; reflexivity].
    destruct (col_pos "years_experience" df) as [x|];
      [|inversion E1; subst; reflexivity].
    destruct (series_gt (column x df) (column a df)) as [mask|];
      [|discriminate].
    unfold Py.bind in E1. inversion E1; subst d1.
    exists mask. split; reflexivity.
  - rewrite negative_fold_other
      by (intros j _; apply negative_key_fresh; right; right; left;
          reflexivity).
    unfold future_year_rule in E2.
    destruct (col_pos "last_promotion_year" df) as [p|].
    + destruct (series_gt_scalar (column p df) (inject_Z current_year))
        as [mask|]; [|discriminate].
      unfold Py.bind in E2. inversion E2; subst d2.
      exists mask. split; [reflexivity|]. apply dict_get_set_same.
    + inversion E2; subst d2.
      assert (Hk : forall d0 d', exp_gt_age_rule df d0 = Py.Ok d' ->
                Py.dict_get d' "future_year" = Py.dict_get d0 "future_year").
      { intros d0 d' H. apply (exp_gt_age_rule_keys _ _ H). discriminate. }
      rewrite (Hk _ _ E1). reflexivity.
Qed.

(** X13.  The experience rule and the promotion-year rule of a report.  With
    both an age and an experience column, [exp_gt_age] lists the labels
    of the rows in which both cells are numbers and the experience is
    above the age; with a promotion-year column, [future_year] lists the
    labels of the rows whose year is a number above the current year.
    Without the columns the entry is missing. *)
Theorem experience_and_year_rules :
  forall (df : DataFrame) (report : AnomalyReport),
    detect_anomalies isolation_forest current_year df = Py.Ok report ->
    (match col_pos "age" df, col_pos "years_experience" df with
     | Some a, Some x =>
         exists labels,
           Py.dict_get (an_domain_anomalies report) "exp_gt_age"
             = Some labels /\
           forall z, In z labels <->
             exists r va vx, In r (df_rows df) /\ fst r = z /\
               cell_value (nth a (snd r) NA) = Some va /\
               cell_value (nth x (snd r) NA) = Some vx /\ (va < vx)%Q
     | _, _ =>
         Py.dict_get (an_domain_anomalies report) "exp_gt_age" = None
     end) /\
    (match col_pos "last_promotion_year" df with
     | Some p =>
         exists labels,
           Py.dict_get (an_domain_anomalies report) "future_year"
             = Some labels /\
           forall z, In z labels <->
             exists r v, In r (df_rows df) /\ fst r = z /\
               cell_value (nth p (snd r) NA) = Some v /\
               (inject_Z current_year < v)%Q
     | None =>
         Py.dict_get (an_domain_anomalies report) "future_year" = None
     end).
Proof.
  intros df report H. apply detect_domain in H.
  destruct (domain_rules_entries _ H) as (Hage & Hexp & Hfut).
  split.
  - destruct (col_pos "age" df) as [a|]; [|exact Hexp].
    destruct (col_pos "years_experience" df) as [x|]; [|exact Hexp].
    destruct Hexp as (mask & Hm & Hg).
    exists (select mask (index df)). split; [exact Hg|].
    unfold series_gt in Hm. unfold column in Hm at 1 2.
    rewrite combine_map_same in Hm.
    apply (@mapM_ok_pointwise _ _ _
             (fun p : Cell * Cell =>
                match cell_value (fst p), cell_value (snd p) with
                | Some vx, Some va => Qlt_bool va vx
                | _, _ => false
                end)) in Hm.
    2:{ intros [e c] b Hin Hb. simpl in *.
        apply cell_gt_numeric_right; auto.
        rewrite Forall_forall in Hage. apply Hage.
        apply in_map_iff in Hin. destruct Hin as (r & Hr & Hin).
        inversion Hr; subst. unfold column. apply in_map_iff. eauto. }
    subst mask. rewrite map_map. cbn [fst snd].
    intros z. rewrite In_select_rows. split.
    + intros (r & Hr & Hz & Ht).
      destruct (cell_value (nth x (snd r) NA)) as [vx|] eqn:Ex;
        [|discriminate].
      destruct (cell_value (nth a (snd r) NA)) as [va|] eqn:Eva;
        [|discriminate].
      exists r, va, vx. repeat split; auto. apply Qlt_bool_iff; exact Ht.
    + intros (r & va & vx & Hr & Hz & Hva & Hvx & Ht).
      exists r. repeat split; auto. rewrite Hvx, Hva.
      apply Qlt_bool_iff; exact Ht.
  - destruct (col_pos "last_promotion_year" df) as [p|]; [|exact Hfut].
    destruct Hfut as (mask & Hm & Hg).
    exists (select mask (index df)). split; [exact Hg|].
    apply series_gt_scalar_ok in Hm. destruct Hm as [_ ->].
    unfold column. rewrite map_map.
    intros z. rewrite In_select_rows. split.
    + intros (r & Hr & Hz & Ht).
      destruct (cell_value (nth p (snd r) NA)) as [v|] eqn:Ev;
        [|discriminate].
      exists r, v. repeat split; auto. apply Qlt_bool_iff; exact Ht.
    + intros (r & v & Hr & Hz & Hv & Ht).
      exists r. repeat split; auto. rewrite Hv.
      apply Qlt_bool_iff; exact Ht.
Qed.

End DomainRules.

Lemma mapM_ok_exists {A B} (f : A -> Py.result B) (l : list A) :
  (forall x, In x l -> exists b, f x = Py.Ok b) ->
  exists bs, Py.mapM f l = Py.Ok bs.
Proof.
  induction l as [|x l IH]; intros H; simpl; [eauto|].
  destruct (H x (or_introl eq_refl)) as [b ->].
  destruct IH as [bs ->]; [intros; apply H; right; auto|].
  simpl. eauto.
Qed.

Lemma cell_gt_no_text (a b : Cell) :
  not_text a -> not_text b -> exists r, cell_gt a b = Py.Ok r.
Proof.
  destruct a, b; simpl; intros Ha Hb; try contradiction;
    unfold cell_gt; simpl; eauto.
Qed.

Section DetectorReturns.

Variable isolation_forest : list (list Q) -> Py.result (list bool).
Variable current_year : Z.

(** X14.  On a table of object, float64, int64 and bool columns, the block
    returns a report when each of the columns [age], [years_experience]
    and [last_promotion_year] that is present is an int64 or float64
    column without a text, and the forest, if it is called, returns. *)
Theorem detector_returns_on_numeric_rule_columns :
  forall df : DataFrame,
    (forall name j,
       In name ["age"; "years_experience"; "last_promotion_year"] ->
       col_pos name df = Some j ->
       is_float_or_int (dtype_at j df) = true /\
       Forall not_text (column j df)) ->
    ((2 <= length (numeric_cols df))%nat ->
     exists m, isolation_forest (numeric_matrix df) = Py.Ok m) ->
    exists report,
      detect_anomalies isolation_forest current_year df = Py.Ok report.
Proof.
  intros df Hcols Hforest.
  assert (Hage : exists ia, invalid_age_of df = Py.Ok ia).
  { unfold invalid_age_of.
    destruct (col_pos "age" df) as [a|] eqn:Ea; [|eauto].
    assert (Ha : Forall not_text (column a df))
      by (apply (Hcols "age" a); simpl; auto).
    rewrite Forall_forall in Ha.
    unfold series_lt_scalar, series_gt_scalar.
    rewrite (@mapM_ok_map _ _ _ _ _
               (fun c Hc => @cell_lt_scalar c 18 (Ha c Hc))).
    rewrite (@mapM_ok_map _ _ _ _ _
               (fun c Hc => @cell_gt_scalar c 70 (Ha c Hc))).
    simpl. eauto. }
  assert (Hexp : forall d, exists d1, exp_gt_age_rule df d = Py.Ok d1).
  { intros d. unfold exp_gt_age_rule.
    destruct (col_pos "age" df) as [a|] eqn:Ea; [|eauto].
    destruct (col_pos "years_experience" df) as [e|] eqn:Ee; [|eauto].
    assert (Ha : Forall not_text (column a df))
      by (apply (Hcols "age" a); simpl; auto).
    assert (He : Forall not_text (column e df))
      by (apply (Hcols "years_experience" e); simpl; auto).
    rewrite Forall_forall in Ha, He.
    destruct (@mapM_ok_exists _ _ (fun p => cell_gt (fst p) (snd p))
                (combine (column e df) (column a df))) as [mask Hmask].
    { intros [x y] Hxy. simpl. apply cell_gt_no_text.
      - apply He. eapply in_combine_l; eauto.
      - apply Ha. eapply in_combine_r; eauto. }
    unfold series_gt. rewrite Hmask. simpl. eauto. }
  assert (Hfut : forall d, exists d2,
             future_year_rule current_year df d = Py.Ok d2).
  { intros d. unfold future_year_rule.
    destruct (col_pos "last_promotion_year" df) as [p|] eqn:Ep; [|eauto].
    assert (Hp : Forall not_text (column p df))
      by (apply (Hcols "last_promotion_year" p); simpl; auto).
    rewrite Forall_forall in Hp.
    unfold series_gt_scalar.
    rewrite (@mapM_ok_map _ _ _ _ _
               (fun c Hc => @cell_gt_scalar c (inject_Z current_year)
                              (Hp c Hc))).
    simpl. eauto. }
  unfold detect_anomalies, domain_rules.
  destruct Hage as [ia ->]. unfold Py.bind at 2.
  destruct (Hexp [("invalid_age", ia)]) as [d1 ->]. unfold Py.bind at 2.
  destruct (Hfut d1) as [d2 ->]. unfold Py.bind at 2. unfold Py.bind at 1.
  unfold multivariate.
  destruct (2 <=? length (numeric_cols df))%nat eqn:E2; [|simpl; eauto].
  apply Nat.leb_le in E2. destruct (Hforest E2) as [m ->]. simpl. eauto.
Qed.

End DetectorReturns.

(** Witness: the scenario table, with an age and an experience column. *)
Lemma detector_returns_on_numeric_rule_columns_witness :
  exists report,
    detect_anomalies Example.isolation_forest Example.current_year
      Example.scenario = Py.Ok report.
Proof.
  apply detector_returns_on_numeric_rule_columns.
  - intros name j Hn Hj.
    simpl in Hn. destruct Hn as [<-|[<-|[<-|[]]]];
      vm_compute in Hj; inversion Hj; subst;
      (split; [reflexivity | vm_compute; repeat constructor]).
  - intros _. unfold Example.isolation_forest. eauto.
Defined.

(** Witness: the age rule on the scenario table. *)
Lemma age_rule_flags_out_of_range_witness :
  exists report labels,
    detect_anomalies Example.isolation_forest Example.current_year
      Example.scenario = Py.Ok report /\
    Py.dict_get (an_domain_anomalies report) "invalid_age" = Some labels /\
    match col_pos "age" Example.scenario with
    | None => labels = []
    | Some a =>
        forall z, In z labels <->
          exists r v, In r (df_rows Example.scenario) /\ fst r = z /\
                      cell_value (nth a (snd r) NA) = Some v /\
                      (v < 18 \/ 70 < v)%Q
    end.
Proof.
  destruct (detect_anomalies Example.isolation_forest Example.current_year
              Example.scenario) as [report|e] eqn:E;
    [|vm_compute in E; discriminate].
  destruct (age_rule_flags_out_of_range Example.isolation_forest
              Example.current_year Example.scenario E) as (labels & H1 & H2).
  exists report, labels. auto.
Defined.

(** Witness: the salary column of the scenario table. *)
Lemma negative_rule_flags_below_zero_witness :
  exists report,
    detect_anomalies Example.isolation_forest Example.current_year
      Example.scenario = Py.Ok report /\
    match Py.dict_get (an_domain_anomalies report)
            ("negative_" +++ name_at 2 Example.scenario) with
    | Some labels =>
        labels <> [] /\
        forall z, In z labels <->
          exists r v, In r (df_rows Example.scenario) /\ fst r = z /\
                      cell_value (nth 2 (snd r) NA) = Some v /\ (v < 0)%Q
    | None =>
        forall r v, In r (df_rows Example.scenario) ->
                    cell_value (nth 2 (snd r) NA) = Some v -> ~ (v < 0)%Q
    end.
Proof.
  destruct (detect_anomalies Example.isolation_forest Example.current_year
              Example.scenario) as [report|e] eqn:E;
    [|vm_compute in E; discriminate].
  exists report. split; [reflexivity|].
  apply (@negative_rule_flags_below_zero Example.isolation_forest
           Example.current_year Example.scenario report 2).
  - vm_compute. repeat constructor; simpl; intuition discriminate.
  - exact E.
  - vm_compute. auto.
Defined.

(** Witness: the table whose age column is text. *)
Lemma text_age_fails_detector_witness :
  detect_anomalies Example.isolation_forest Example.current_year
    Example.text_age = Py.Raise (type_error "<").
Proof.
  apply (@text_age_fails_detector Example.isolation_forest
           Example.current_year Example.text_age 0 "young").
  - reflexivity.
  - vm_compute. auto.
Defined.

(** Witness: the scenario table has an age and an experience column and
    no promotion year. *)
Lemma experience_and_year_rules_witness :
  exists report,
    detect_anomalies Example.isolation_forest Example.current_year
      Example.scenario = Py.Ok report /\
    Py.dict_get (an_domain_anomalies report) "exp_gt_age" = Some [] /\
    Py.dict_get (an_domain_anomalies report) "future_year" = None.
Proof.
  destruct (detect_anomalies Example.isolation_forest Example.current_year
              Example.scenario) as [report|e] eqn:E;
    [|vm_compute in E; discriminate].
  exists report. split; [reflexivity|].
  pose proof (experience_and_year_rules Example.isolation_forest
                Example.current_year Example.scenario E) as [H1 H2].
  split; [|exact H2].
  vm_compute in E. inversion E. reflexivity.
Defined.

(* ================================================================== *)
(** * The outlier entries of a report *)
(* ================================================================== *)

Lemma Qlt_bool_false (x y : Q) : Qlt_bool x y = false -> (y <= x)%Q.
Proof.
  unfold Qlt_bool. rewrite negb_false_iff. apply Qle_bool_iff.
Qed.

Lemma round2_percentage (x : Q) :
  (0 <= x)%Q -> (x <= 100)%Q -> (0 <= round2 x)%Q /\ (round2 x <= 100)%Q.
Proof.
  intros H0 H100. unfold round2.
  set (y := (x * 100)%Q).
  assert (Hy0 : (0 <= y)%Q) by (unfold y; lra).
  assert (Hy1 : (y <= 10000)%Q) by (unfold y; lra).
  set (f := Qfloor y).
  assert (Hf0 : (0 <= f)%Z).
  { change 0%Z with (Qfloor 0). apply Qfloor_resp_le. exact Hy0. }
  assert (Hf1 : (f <= 10000)%Z).
  { rewrite <- (Qfloor_Z 10000). apply Qfloor_resp_le. exact Hy1. }
  assert (Hup : Qlt_bool (y - inject_Z f) (1 # 2) = false ->
                (f + 1 <= 10000)%Z).
  { intros Hr. apply Qlt_bool_false in Hr.
    pose proof (Qfloor_le y) as Hfl. fold f in Hfl.
    assert (Hlt : (inject_Z f < inject_Z 10000)%Q).
    { change (inject_Z 10000) with 10000%Q. lra. }
    rewrite <- Zlt_Qlt in Hlt. lia. }
  set (n := if Qlt_bool (y - inject_Z f) (1 # 2) then f
            else if Qlt_bool (1 # 2) (y - inject_Z f) then (f + 1)%Z
                 else if Z.even f then f else (f + 1)%Z).
  assert (Hn : (0 <= n <= 10000)%Z).
  { unfold n. destruct (Qlt_bool (y - inject_Z f) (1 # 2)) eqn:E1; [lia|].
    specialize (Hup eq_refl).
    destruct (Qlt_bool (1 # 2) (y - inject_Z f)); [lia|].
    destruct (Z.even f); lia. }
  destruct Hn as [Hn0 Hn1].
  rewrite Zle_Qle in Hn0, Hn1.
  change (inject_Z 0) with 0%Q in Hn0.
  change (inject_Z 10000) with 10000%Q in Hn1.
  split.
  - apply Qle_shift_div_l; lra.
  - apply Qle_shift_div_r; lra.
Qed.

Lemma outliers_fold_other (df : DataFrame) (js : list nat)
  (acc : Py.dict OutlierInfo) (c : string) :
  (forall k, In k js -> name_at k df <> c) ->
  Py.dict_get (fold_left (outliers_step df) js acc) c = Py.dict_get acc c.
Proof.
  revert acc; induction js as [|k js IH]; intros acc H; simpl; auto.
  rewrite IH by (intros k' Hk'; apply H; right; exact Hk').
  unfold outliers_step.
  destruct (0 <? length _)%nat; auto.
  apply dict_get_set_other. intros E. apply (H k); [left; reflexivity|].
  symmetry; exact E.
Qed.

Lemma select_forall_mask {A} (f : A -> bool) (l : list A) :
  Forall (fun x => f x = true) (select (map f l) l).
Proof.
  rewrite select_map_test. apply Forall_forall. intros x Hx.
  apply filter_In in Hx. tauto.
Qed.

Lemma firstn_forall {A} (P : A -> Prop) (n : nat) (l : list A) :
  Forall P l -> Forall P (firstn n l).
Proof.
  intros H. apply Forall_forall. intros x Hx.
  rewrite Forall_forall in H. apply H.
  rewrite <- (firstn_skipn n l). apply in_or_app; left; exact Hx.
Qed.

Section OutlierEntries.

Variable isolation_forest : list (list Q) -> Py.result (list bool).
Variable current_year : Z.

(** The entry of a numeric column in the outliers of a report. *)
Lemma outliers_entry (df : DataFrame) (report : AnomalyReport) (j : nat) :
  NoDup (column_names df) ->
  detect_anomalies isolation_forest current_year df = Py.Ok report ->
  In j (numeric_cols df) ->
  Py.dict_get (an_outliers report) (name_at j df)
  = (let outliers :=
       select (outlier_mask (3 # 2) (column j df)) (column j df) in
     if (0 <? length outliers)%nat
     then Some {| out_count := Z.of_nat (length outliers);
                  out_percentage :=
                    round2 (inject_Z (Z.of_nat (length outliers))
                            / inject_Z (Z.of_nat (nrows df)) * 100)%Q;
                  out_values := firstn 10 outliers |}
     else None).
Proof.
  intros Hnd H Hj.
  destruct (detect_anomalies_sections _ _ df H) as (_ & _ & _ & Ho & _).
  rewrite Ho. clear Ho H. unfold outliers_of.
  assert (Hjn : (j < ncols df)%nat).
  { unfold numeric_cols in Hj. apply filter_In in Hj.
    destruct Hj as [Hj _]. apply in_seq in Hj. lia. }
  assert (Hother : forall k, In k (numeric_cols df) -> k <> j ->
                             name_at k df <> name_at j df).
  { intros k Hk Hkj. unfold numeric_cols in Hk. apply filter_In in Hk.
    destruct Hk as [Hk _]. apply in_seq in Hk.
    apply names_differ; auto; lia. }
  assert (Hndc : NoDup (numeric_cols df)).
  { unfold numeric_cols. apply NoDup_filter. apply seq_NoDup. }
  destruct (in_split _ _ Hj) as (l1 & l2 & El).
  rewrite El in Hother, Hndc |- *.
  apply NoDup_remove_2 in Hndc.
  rewrite fold_left_app. cbn [fold_left].
  rewrite outliers_fold_other.
  2:{ intros k Hk. apply Hother; [apply in_or_app; right; right; exact Hk|].
      intros ->. apply Hndc. apply in_or_app; right; exact Hk. }
  unfold outliers_step at 1. cbv zeta.
  destruct (0 <? length _)%nat eqn:En.
  - apply dict_get_set_same.
  - rewrite outliers_fold_other.
    2:{ intros k Hk. apply Hother; [apply in_or_app; left; exact Hk|].
        intros ->. apply Hndc. apply in_or_app; left; exact Hk. }
    reflexivity.
Qed.



End OutlierEntries.



(* ================================================================== *)
(** * The isolation forest in the Detector *)
(* ================================================================== *)

Section Forest.

Variable current_year : Z.

(** X16.  The forest is given one row of numbers per row of the table, one
    number per numeric column.  It is called only when there are two
    numeric columns or more: below that, the report does not depend on
    the forest and lists no label.  The labels it lists are labels of the
    table. *)
Theorem forest_sees_numeric_matrix :
  forall (isolation_forest : list (list Q) -> Py.result (list bool))
         (df : DataFrame),
    length (numeric_matrix df) = nrows df /\
    Forall (fun row => length row = length (numeric_cols df))
           (numeric_matrix df) /\
    (forall report,
       detect_anomalies isolation_forest current_year df = Py.Ok report ->
       forall z, In z (an_anomaly_indices report) -> In z (index df)) /\
    ((length (numeric_cols df) < 2)%nat ->
     (forall other : list (list Q) -> Py.result (list bool),
        detect_anomalies other current_year df =
        detect_anomalies isolation_forest current_year df) /\
     forall report,
       detect_anomalies isolation_forest current_year df = Py.Ok report ->
       an_anomaly_indices report = []).
Proof.
  intros isolation_forest df. split; [|split; [|split]].
  - unfold numeric_matrix, nrows. apply length_map.
  - unfold numeric_matrix. apply Forall_forall. intros row Hrow.
    apply in_map_iff in Hrow. destruct Hrow as (r & <- & _).
    apply length_map.
  - intros report H z Hz. unfold detect_anomalies in H.
    destruct (domain_rules current_year df); [|discriminate].
    unfold Py.bind at 1 in H. unfold multivariate in H.
    destruct (2 <=? length (numeric_cols df))%nat.
    + destruct (isolation_forest (numeric_matrix df)) as [mask|];
        [|discriminate].
      unfold Py.bind in H. inversion H; subst report. simpl in Hz.
      eapply select_In; eauto.
    + unfold Py.bind in H. inversion H; subst report. destruct Hz.
  - intros Hlt.
    assert (E : (2 <=? length (numeric_cols df))%nat = false)
      by (apply Nat.leb_gt; exact Hlt).
    split.
    + intros other. unfold detect_anomalies, multivariate. rewrite E.
      reflexivity.
    + intros report H. unfold detect_anomalies, multivariate in H.
      rewrite E in H.
      destruct (domain_rules current_year df); [|discriminate].
      unfold Py.bind in H. inversion H. reflexivity.
Qed.

End Forest.

(** Witness: a table with one numeric column and a forest that fails. *)
Lemma forest_sees_numeric_matrix_witness :
  let df := mkDF [("salary", Int64)] [(0%Z, [Num 10]); (1%Z, [NA])] in
  numeric_matrix df = [[10%Q]; [0%Q]] /\
  exists report,
    detect_anomalies (fun _ => Py.Raise "forest") Example.current_year df
      = Py.Ok report /\
    an_anomaly_indices report = [].
Proof.
  intros df. split; [reflexivity|].
  destruct (detect_anomalies (fun _ => Py.Raise "forest")
              Example.current_year df) as [report|e] eqn:E;
    [|vm_compute in E; discriminate].
  exists report. split; [reflexivity|].
  destruct (forest_sees_numeric_matrix Example.current_year
              (fun _ => Py.Raise "forest") df) as (_ & _ & _ & H).
  apply H; [vm_compute; lia | exact E].
Defined.


(* ================================================================== *)
(** * [convert_numpy] and the reports *)
(* ================================================================== *)

Lemma PyObj_nested_ind {F} (P : PyObj F -> Prop) :
  P PNone -> (forall b, P (PBool b)) -> (forall n, P (PInt n)) ->
  (forall x, P (PFloat x)) -> (forall s, P (PStr s)) ->
  (forall n, P (PNpInt n)) -> (forall x, P (PNpFloat x)) ->
  (forall a, P (PNdarray a)) -> (forall r, P (PNpOther r)) ->
  (forall d, Forall (fun kv => P (snd kv)) d -> P (PDict d)) ->
  (forall l, Forall P l -> P (PList l)) ->
  (forall l, Forall P l -> P (PTuple l)) ->
  forall obj, P obj.
Proof.
  intros H1 H2 H3 H4 H5 H6 H7 H8 H9 HD HL HT.
  fix IH 1. intros [ |b|n|x|s|n|x|a|r|d|l|l].
  - exact H1.
  - apply H2.
  - apply H3.
  - apply H4.
  - apply H5.
  - apply H6.
  - apply H7.
  - apply H8.
  - apply H9.
  - apply HD. induction d as [|kv d IHd]; constructor; [apply IH | exact IHd].
  - apply HL. induction l as [|o l IHl]; constructor; [apply IH | exact IHl].
  - apply HT. induction l as [|o l IHl]; constructor; [apply IH | exact IHl].
Qed.

Lemma forallb_map_true {A B} (f : A -> B) (p : B -> bool) (l : list A) :
  Forall (fun x => p (f x) = true) l -> forallb p (map f l) = true.
Proof.
  induction 1 as [|x l Hx _ IH]; simpl; auto. rewrite Hx, IH. reflexivity.
Qed.

Lemma map_map_fixed {A} (f : A -> A) (l : list A) :
  Forall (fun x => f (f x) = f x) l -> map f (map f l) = map f l.
Proof.
  induction 1 as [|x l Hx _ IH]; simpl; auto. rewrite Hx, IH. reflexivity.
Qed.

Lemma map_fixed {A} (f : A -> A) (l : list A) :
  Forall (fun x => f x = x) l -> map f l = l.
Proof.
  induction 1 as [|x l Hx _ IH]; simpl; auto. rewrite Hx, IH. reflexivity.
Qed.

Lemma convert_numpy_listed_free {F} (obj : PyObj F) :
  listed_free (convert_numpy obj) = true.
Proof.
  induction obj using PyObj_nested_ind; simpl; auto.
  - apply forallb_map_true. apply Forall_forall. intros; reflexivity.
  - apply forallb_map_true. exact H.
  - apply forallb_map_true. exact H.
  - apply forallb_map_true. exact H.
Qed.

Lemma convert_numpy_fixes_listed_free {F} (obj : PyObj F) :
  listed_free obj = true -> convert_numpy obj = obj.
Proof.
  induction obj using PyObj_nested_ind; simpl; auto; try discriminate;
    intros Hn; f_equal.
  - rewrite forallb_forall in Hn. induction d as [|[k v] d IHd]; auto.
    inversion H; subst. simpl. f_equal.
    + f_equal. apply H2. apply (Hn (k, v)). left; reflexivity.
    + apply IHd; auto. intros x Hx. apply Hn. right; exact Hx.
  - apply map_fixed. rewrite forallb_forall in Hn.
    rewrite Forall_forall in *. auto.
  - apply map_fixed. rewrite forallb_forall in Hn.
    rewrite Forall_forall in *. auto.
Qed.

Lemma forallb_map_impl {A B} (f : A -> B) (p : A -> bool) (q : B -> bool)
  (l : list A) :
  Forall (fun x => p x = true -> q (f x) = true) l ->
  forallb p l = true -> forallb q (map f l) = true.
Proof.
  induction 1 as [|x l Hx _ IH]; simpl; auto.
  rewrite andb_true_iff. intros [H1 H2]. rewrite (Hx H1), (IH H2).
  reflexivity.
Qed.

Lemma convert_numpy_other_free {F} (obj : PyObj F) :
  other_free obj = true -> other_free (convert_numpy obj) = true.
Proof.
  induction obj using PyObj_nested_ind; simpl; auto.
  - intros _. apply forallb_map_true. apply Forall_forall.
    intros; reflexivity.
  - apply (forallb_map_impl
             (fun kv => (fst kv, convert_numpy (snd kv)))
             (fun kv => other_free (snd kv))
             (fun kv => other_free (snd kv))).
    exact H.
  - apply forallb_map_impl. exact H.
  - apply forallb_map_impl. exact H.
Qed.




(* ================================================================== *)
(** * Whole runs of the graph *)
(* ================================================================== *)

Section Runs.

Variable F : Type.
Variable parse_number : string -> option Q.
Variable isolation_forest : list (list Q) -> Py.result (list bool).
Variable current_year : Z.
Variable describe_to_dict : list string -> list (list Cell) -> PyObj F.
Variable corr : list (list Cell) -> list (list (pyfloat F)).
Variable top_values : list Cell -> PyObj F.
Variable read_csv : string -> Py.result DataFrame.
Variable read_excel : string -> Py.result DataFrame.
Variable to_csv : DataFrame -> string -> Py.result unit.
Variable render : DataFrame -> Z -> Py.result (list (string * string)).
Variable llm_invoke :
  CleaningReport -> PyObj F -> AnomalyReport -> Py.result string.
Variable generate_mock_insights : PyObj F -> AnomalyReport -> string.
Variable emit_sql : DataFrame -> string -> Py.result string.

Let invoke :=
  analysis_graph_invoke parse_number isolation_forest current_year
    describe_to_dict corr top_values read_csv read_excel to_csv render
    llm_invoke generate_mock_insights emit_sql.

Lemma invoke_steps (s : AgentState F) :
  invoke s =
  run_node (generate_sql_node emit_sql)
    (run_node (generate_insights_node llm_invoke generate_mock_insights)
       (run_node (create_visualizations_node render)
          (run_node (detect_anomalies_node isolation_forest current_year)
             (run_node
                (generate_statistics_node describe_to_dict corr top_values)
                (run_node
                   (clean_data_node parse_number read_csv read_excel to_csv)
                   s))))).
Proof. reflexivity. Qed.

Lemma clean_node_failure (s : AgentState F) (e : string) :
  (load read_csv read_excel (file_path s) = Py.Raise e \/
   exists raw,
     load read_csv read_excel (file_path s) = Py.Ok raw /\
     to_csv (clean_frame parse_number raw)
       (path_join (dirname (file_path s))
          ("cleaned_" +++ basename (file_path s))) = Py.Raise e) ->
  exists r,
    clean_data_node parse_number read_csv read_excel to_csv s =
    mkState (dataset_id s) (file_path s) (filename s) r
      (cleaned_data s) (cleaning_report s) (statistics s) (anomalies s)
      (visualizations s) (insights s) (sql_queries s)
      (errors s ++ ["Data cleaning error: " +++ e]) "failed".
Proof.
  unfold clean_data_node. intros [H|(raw & H & Hc)]; rewrite H.
  - exists (raw_data s). reflexivity.
  - change (file_path (set_raw_data raw s)) with (file_path s).
    rewrite Hc. exists (Some raw). reflexivity.
Qed.

Lemma detect_node_success (s : AgentState F) (df : DataFrame)
  (report : AnomalyReport) :
  cleaned_data s = Some df ->
  detect_anomalies isolation_forest current_year df = Py.Ok report ->
  detect_anomalies_node isolation_forest current_year s =
  set_status "anomaly_detection_completed" (set_anomalies report s).
Proof.
  intros Hc Hd. unfold detect_anomalies_node.
  rewrite Hc; simpl. rewrite Hd. reflexivity.
Qed.

Lemma viz_node_success (s : AgentState F) (df : DataFrame)
  (v : list (string * string)) :
  cleaned_data s = Some df ->
  render df (dataset_id s) = Py.Ok v ->
  create_visualizations_node render s =
  set_status "visualizations_completed"
    (set_visualizations (visualizations s ++ v) s).
Proof.
  intros Hc Hd. unfold create_visualizations_node.
  rewrite Hc; simpl. rewrite Hd. reflexivity.
Qed.

Lemma sql_node_success (s : AgentState F) (df : DataFrame) (q : string) :
  cleaned_data s = Some df ->
  emit_sql df (filename s) = Py.Ok q ->
  generate_sql_node emit_sql s =
  set_status "completed" (set_sql_queries q s).
Proof.
  intros Hc Hd. unfold generate_sql_node.
  rewrite Hc; simpl. rewrite Hd. reflexivity.
Qed.

(** The insights node on a state that holds the three reports. *)
Lemma insights_node_cases (s : AgentState F) (r : CleaningReport)
  (st : PyObj F) (a : AnomalyReport) :
  cleaning_report s = Some r -> statistics s = Some st ->
  anomalies s = Some a ->
  generate_insights_node llm_invoke generate_mock_insights s =
  match llm_invoke r st a with
  | Py.Ok text => set_status "insights_completed" (set_insights text s)
  | Py.Raise msg =>
      if is_quota_error msg
      then set_status "insights_completed"
             (set_insights (generate_mock_insights st a) s)
      else add_error "Insights generation error: " msg s
  end.
Proof.
  intros Hr Hs Ha. unfold generate_insights_node.
  rewrite Hr, Hs, Ha. simpl.
  destruct (llm_invoke r st a); reflexivity.
Qed.

(** The state after the first three nodes of a run whose Cleaner and
    Detector succeed. *)
Lemma reports_ready (id : Z) (path name : string) (raw : DataFrame)
  (report : AnomalyReport) :
  load read_csv read_excel path = Py.Ok raw ->
  to_csv (clean_frame parse_number raw)
    (path_join (dirname path) ("cleaned_" +++ basename path)) = Py.Ok tt ->
  detect_anomalies isolation_forest current_year
    (clean_frame parse_number raw) = Py.Ok report ->
  run_node (detect_anomalies_node isolation_forest current_year)
    (run_node (generate_statistics_node describe_to_dict corr top_values)
       (run_node (clean_data_node parse_number read_csv read_excel to_csv)
          (initial_state F id path name))) =
  mkState id path name (Some raw) (Some (clean_frame parse_number raw))
    (Some (cleaning_report_of parse_number raw
             ("cleaned_" +++ basename path)))
    (Some (generate_statistics describe_to_dict corr top_values
             (clean_frame parse_number raw)))
    (Some report) [] None None [] "anomaly_detection_completed".
Proof.
  intros Hload Hcsv Hdet.
  assert (H1 :
    run_node (clean_data_node parse_number read_csv read_excel to_csv)
      (initial_state F id path name) =
    mkState id path name (Some raw) (Some (clean_frame parse_number raw))
      (Some (cleaning_report_of parse_number raw
               ("cleaned_" +++ basename path)))
      None None [] None None [] "cleaning_completed").
  { unfold run_node.
    rewrite (@clean_node_success F parse_number read_csv read_excel to_csv
               (initial_state F id path name) raw Hload Hcsv).
    reflexivity. }
  rewrite H1. clear H1.
  match goal with
  | |- run_node _ (run_node ?n ?s) = _ =>
      assert (H2 : run_node n s =
        mkState id path name (Some raw) (Some (clean_frame parse_number raw))
          (Some (cleaning_report_of parse_number raw
                   ("cleaned_" +++ basename path)))
          (Some (generate_statistics describe_to_dict corr top_values
                   (clean_frame parse_number raw)))
          None [] None None [] "statistics_completed") by reflexivity
  end.
  rewrite H2. clear H2.
  unfold run_node.
  match goal with
  | |- context [detect_anomalies_node _ _ ?s] =>
      rewrite (@detect_node_success s (clean_frame parse_number raw) report
                 eq_refl Hdet)
  end.
  reflexivity.
Qed.

(** X18.  A run in which every stage succeeds, the text generation being
    allowed to fail with a quota message: the error list is empty, the
    status is [completed], every report is stored, the insights are the
    answer of the text generation or else the templated text, and the
    analysis is recorded as completed.  The descriptors returned by the
    renderer are in the result four times: the renderer adds them to the
    channel once, and the channel is added to itself after each of the
    two later nodes. *)
Theorem run_completes_with_all_reports :
  forall (id : Z) (path name : string) (raw : DataFrame)
         (report : AnomalyReport) (v : list (string * string)) (q : string),
    let cleaned := clean_frame parse_number raw in
    let creport :=
      cleaning_report_of parse_number raw ("cleaned_" +++ basename path) in
    let stats :=
      generate_statistics describe_to_dict corr top_values cleaned in
    load read_csv read_excel path = Py.Ok raw ->
    to_csv cleaned (path_join (dirname path) ("cleaned_" +++ basename path))
      = Py.Ok tt ->
    detect_anomalies isolation_forest current_year cleaned = Py.Ok report ->
    render cleaned id = Py.Ok v ->
    (forall msg, llm_invoke creport stats report = Py.Raise msg ->
                 is_quota_error msg = true) ->
    emit_sql cleaned name = Py.Ok q ->
    let result := invoke (initial_state F id path name) in
    errors result = [] /\
    status result = "completed" /\
    cleaned_data result = Some cleaned /\
    cleaning_report result = Some creport /\
    statistics result = Some stats /\
    anomalies result = Some report /\
    insights result =
      Some match llm_invoke creport stats report with
           | Py.Ok text => text
           | Py.Raise _ => generate_mock_insights stats report
           end /\
    sql_queries result = Some q /\
    visualizations result = (v ++ v) ++ (v ++ v) /\
    analysis_outcome result = mkOutcome "completed" None 200.
Proof.
  intros id path name raw report v q cleaned creport stats
         Hload Hcsv Hdet Hviz Hllm Hsql result.
  unfold result. rewrite invoke_steps.
  rewrite (@reports_ready id path name raw report Hload Hcsv Hdet).
  fold cleaned creport stats.
  set (s3 := mkState id path name (Some raw) (Some cleaned) (Some creport)
               (Some stats) (Some report) [] None None []
               "anomaly_detection_completed").
  assert (H4 : run_node (create_visualizations_node render) s3 =
    mkState id path name (Some raw) (Some cleaned) (Some creport)
      (Some stats) (Some report) v None None []
      "visualizations_completed").
  { unfold run_node.
    rewrite (@viz_node_success s3 cleaned v eq_refl Hviz). reflexivity. }
  rewrite H4. clear H4 s3.
  set (s4 := mkState id path name (Some raw) (Some cleaned) (Some creport)
               (Some stats) (Some report) v None None []
               "visualizations_completed").
  set (text := match llm_invoke creport stats report with
               | Py.Ok text => text
               | Py.Raise _ => generate_mock_insights stats report
               end).
  assert (H5 :
    run_node (generate_insights_node llm_invoke generate_mock_insights) s4 =
    mkState id path name (Some raw) (Some cleaned) (Some creport)
      (Some stats) (Some report) (v ++ v) (Some text) None []
      "insights_completed").
  { unfold run_node.
    rewrite (@insights_node_cases s4 creport stats report
               eq_refl eq_refl eq_refl).
    unfold text.
    destruct (llm_invoke creport stats report) as [t|msg] eqn:E;
      [reflexivity|].
    rewrite (Hllm msg eq_refl). reflexivity. }
  rewrite H5. clear H5 s4.
  unfold run_node.
  match goal with
  | |- context [generate_sql_node emit_sql ?s] =>
      rewrite (@sql_node_success s cleaned q eq_refl Hsql)
  end.
  simpl. repeat split; reflexivity.
Qed.

(** X19.  A failure of the text generation that is not a quota message fails
    the analysis although every report was produced: the run ends with
    the status key [completed] and a non-empty error list, the insights
    are missing, and the analysis is recorded as failed. *)
Theorem insights_failure_fails_run :
  forall (id : Z) (path name : string) (raw : DataFrame)
         (report : AnomalyReport) (v : list (string * string)) (q msg : string),
    let cleaned := clean_frame parse_number raw in
    let creport :=
      cleaning_report_of parse_number raw ("cleaned_" +++ basename path) in
    let stats :=
      generate_statistics describe_to_dict corr top_values cleaned in
    load read_csv read_excel path = Py.Ok raw ->
    to_csv cleaned (path_join (dirname path) ("cleaned_" +++ basename path))
      = Py.Ok tt ->
    detect_anomalies isolation_forest current_year cleaned = Py.Ok report ->
    render cleaned id = Py.Ok v ->
    llm_invoke creport stats report = Py.Raise msg ->
    is_quota_error msg = false ->
    emit_sql cleaned name = Py.Ok q ->
    let result := invoke (initial_state F id path name) in
    status result = "completed" /\
    insights result = None /\
    sql_queries result = Some q /\
    anomalies result = Some report /\
    (forall m, In m (errors result) <->
               m = "Insights generation error: " +++ msg) /\
    analysis_status (analysis_outcome result) = "failed" /\
    http_status (analysis_outcome result) = 500%Z.
Proof.
  intros id path name raw report v q msg cleaned creport stats
         Hload Hcsv Hdet Hviz Hllm Hq Hsql result.
  unfold result. rewrite invoke_steps.
  rewrite (@reports_ready id path name raw report Hload Hcsv Hdet).
  fold cleaned creport stats.
  set (s3 := mkState id path name (Some raw) (Some cleaned) (Some creport)
               (Some stats) (Some report) [] None None []
               "anomaly_detection_completed").
  assert (H4 : run_node (create_visualizations_node render) s3 =
    mkState id path name (Some raw) (Some cleaned) (Some creport)
      (Some stats) (Some report) v None None []
      "visualizations_completed").
  { unfold run_node.
    rewrite (@viz_node_success s3 cleaned v eq_refl Hviz). reflexivity. }
  rewrite H4. clear H4 s3.
  set (s4 := mkState id path name (Some raw) (Some cleaned) (Some creport)
               (Some stats) (Some report) v None None []
               "visualizations_completed").
  assert (H5 :
    run_node (generate_insights_node llm_invoke generate_mock_insights) s4 =
    mkState id path name (Some raw) (Some cleaned) (Some creport)
      (Some stats) (Some report) (v ++ v) None None
      ["Insights generation error: " +++ msg]
      "visualizations_completed").
  { unfold run_node.
    rewrite (@insights_node_cases s4 creport stats report
               eq_refl eq_refl eq_refl).
    rewrite Hllm, Hq. reflexivity. }
  rewrite H5. clear H5 s4.
  unfold run_node.
  match goal with
  | |- context [generate_sql_node emit_sql ?s] =>
      rewrite (@sql_node_success s cleaned q eq_refl Hsql)
  end.
  cbn [status insights sql_queries anomalies errors set_status
       set_sql_queries set_errors set_visualizations app analysis_outcome
       analysis_status http_status].
  repeat split; try reflexivity.
  - intros [H|[H|[]]]; auto.
  - intros ->. left; reflexivity.
Qed.

(** X20.  When the Cleaner fails, on the load or on the write of the cleaned
    file, the later nodes still run: each of them fails on a missing key
    and adds its message.  The run ends with the status [failed], without
    any report, and these six messages are the error list (some of them
    more than once). *)
Theorem cleaner_failure_runs_every_node :
  forall (id : Z) (path name e : string),
    (load read_csv read_excel path = Py.Raise e \/
     exists raw,
       load read_csv read_excel path = Py.Ok raw /\
       to_csv (clean_frame parse_number raw)
         (path_join (dirname path) ("cleaned_" +++ basename path))
       = Py.Raise e) ->
    let result := invoke (initial_state F id path name) in
    status result = "failed" /\
    cleaned_data result = None /\
    cleaning_report result = None /\
    statistics result = None /\
    anomalies result = None /\
    insights result = None /\
    sql_queries result = None /\
    visualizations result = [] /\
    (forall m, In m (errors result) <->
       In m ["Data cleaning error: " +++ e;
             "Statistics generation error: 'cleaned_data'";
             "Anomaly detection error: 'cleaned_data'";
             "Visualization error: 'cleaned_data'";
             "Insights generation error: 'statistics'";
             "SQL generation error: 'cleaned_data'"]) /\
    analysis_status (analysis_outcome result) = "failed" /\
    http_status (analysis_outcome result) = 500%Z.
Proof.
  intros id path name e H result.
  destruct (@clean_node_failure (initial_state F id path name) e H)
    as [r Hclean].
  unfold result. rewrite invoke_steps.
  set (m1 := "Data cleaning error: " +++ e) in *.
  assert (H1 :
    run_node (clean_data_node parse_number read_csv read_excel to_csv)
      (initial_state F id path name) =
    mkState id path name r None None None None [] None None [m1] "failed").
  { unfold run_node. rewrite Hclean. reflexivity. }
  rewrite H1. clear H1 Hclean H. clearbody m1.
  repeat split; try reflexivity.
  - cbv. intros Hin.
    repeat (destruct Hin as [<-|Hin]; [tauto|]). destruct Hin.
  - cbv. intros Hin.
    repeat (destruct Hin as [<-|Hin]; [tauto|]). destruct Hin.
Qed.

End Runs.

(* ================================================================== *)
(** * The SQL emitter *)
(* ================================================================== *)

Lemma prefix_empty (s : string) : String.prefix EmptyString s = true.
Proof. destruct s; reflexivity. Qed.

Lemma escape_quotes_cons (c : ascii) (s : string) :
  escape_quotes (String c s) =
  if Ascii.eqb c "'" then "''" +++ escape_quotes s
  else String c (escape_quotes s).
Proof.
  unfold escape_quotes, replace. cbn [replace_go String.prefix].
  destruct (ascii_dec "'" c) as [<-|Hc].
  - rewrite prefix_empty. reflexivity.
  - destruct (Ascii.eqb_spec c "'"); [congruence|reflexivity].
Qed.

Lemma unescape_quotes_pair (s : string) :
  unescape_quotes ("''" +++ s) = String "'" (unescape_quotes s).
Proof.
  unfold unescape_quotes, replace. cbn [append replace_go String.prefix].
  destruct (ascii_dec "'" "'") as [_|H]; [|congruence].
  rewrite prefix_empty. cbn [String.length Nat.sub append].
  destruct s; reflexivity.
Qed.

Lemma unescape_quotes_other (c : ascii) (s : string) :
  c <> "'"%char ->
  unescape_quotes (String c s) = String c (unescape_quotes s).
Proof.
  intros Hc. unfold unescape_quotes, replace. cbn [replace_go String.prefix].
  destruct (ascii_dec "'" c) as [E|_]; [congruence|reflexivity].
Qed.

(** X21.  Escaping loses nothing: reading each doubled quote of the escaped
    text as one quote gives the text back, so two different texts never
    have the same escaped form. *)
Theorem escape_quotes_round_trip :
  forall s t : string,
    unescape_quotes (escape_quotes s) = s /\
    (escape_quotes s = escape_quotes t -> s = t).
Proof.
  assert (H : forall s, unescape_quotes (escape_quotes s) = s).
  { induction s as [|c s IH]; [reflexivity|].
    rewrite escape_quotes_cons.
    destruct (Ascii.eqb_spec c "'") as [->|Hc].
    - rewrite unescape_quotes_pair, IH. reflexivity.
    - rewrite unescape_quotes_other, IH; auto. }
  intros s t. split; [apply H|].
  intros E. rewrite <- (H s), <- (H t), E. reflexivity.
Qed.

Lemma lower_char_not_upper (c : ascii) : is_upper (Py.lower_char c) = false.
Proof. destruct c as [[] [] [] [] [] [] [] []]; reflexivity. Qed.

Lemma lower_char_space (c : ascii) :
  Ascii.eqb (Py.lower_char c) " " = Ascii.eqb c " ".
Proof. destruct c as [[] [] [] [] [] [] [] []]; reflexivity. Qed.

Lemma replace_space_none (s : string) :
  all_chars (fun c => negb (Ascii.eqb c " ")) (replace s " " "_") = true.
Proof.
  unfold replace. induction s as [|c s IH]; [reflexivity|].
  cbn [replace_go String.prefix String.length Nat.sub].
  destruct (ascii_dec " " c) as [<-|Hc].
  - rewrite prefix_empty. cbn [append all_chars]. exact IH.
  - cbn [all_chars]. rewrite IH.
    destruct (Ascii.eqb_spec c " "); [congruence|reflexivity].
Qed.

Lemma lower_normalised (s : string) :
  all_chars (fun c => negb (Ascii.eqb c " ")) s = true ->
  all_chars (fun c => negb (is_upper c) && negb (Ascii.eqb c " "))
            (Py.lower s) = true.
Proof.
  induction s as [|c s IH]; [reflexivity|].
  cbn [all_chars Py.lower]. intros H. apply andb_true_iff in H.
  destruct H as [Hc Hs].
  rewrite lower_char_not_upper, lower_char_space, Hc, IH; auto.
Qed.

(** X22.  The names the emitter writes hold no space and no upper-case letter,
    whatever the file and the columns are called. *)
Theorem sql_names_normalised :
  forall filename col : string,
    all_chars (fun c => negb (is_upper c) && negb (Ascii.eqb c " "))
              (sql_table_name filename) = true /\
    all_chars (fun c => negb (is_upper c) && negb (Ascii.eqb c " "))
              (sql_column_name col) = true.
Proof.
  intros filename col. unfold sql_table_name, sql_column_name.
  split; apply lower_normalised; apply replace_space_none.
Qed.

Lemma rstrip_chars_comma (s : string) :
  Py.endswith (rstrip_chars [","%char] s) "," = false.
Proof.
  induction s as [|c s IH]; [reflexivity|].
  cbn [rstrip_chars].
  destruct (rstrip_chars [","%char] s) as [|d r] eqn:E.
  - cbn [existsb]. rewrite orb_false_r.
    destruct (Ascii.eqb_spec c ","); [reflexivity|].
    rewrite endswith_cons.
    destruct (String.eqb_spec (String c EmptyString) ",") as [H|_];
      [inversion H; congruence | reflexivity].
  - rewrite endswith_cons.
    destruct (String.eqb_spec (String c (String d r)) ",") as [H|_];
      [discriminate H | exact IH].
Qed.

Lemma update_last_length {A} (f : A -> A) (l : list A) :
  length (update_last f l) = length l.
Proof.
  induction l as [|x [|y t] IH]; auto.
  change (S (length (update_last f (y :: t))) = S (length (y :: t))).
  rewrite IH. reflexivity.
Qed.

Lemma update_last_snoc {A} (f : A -> A) (l : list A) (x : A) :
  update_last f (l ++ [x]) = l ++ [f x].
Proof.
  induction l as [|y l IH]; [reflexivity|].
  change (update_last f (y :: (l ++ [x])) = y :: (l ++ [f x])).
  rewrite <- IH. destruct (l ++ [x]) eqn:E; [|reflexivity].
  destruct l; discriminate.
Qed.

Section SqlScript.

Variable str_of_value : Cell -> string.

(** X23.  The script holds one line per column, closed without a comma before
    the parenthesis, and one INSERT statement for each of the first five
    rows at most. *)
Theorem sql_script_shape :
  forall (df : DataFrame) (filename : string),
    let parts := sql_parts str_of_value df filename in
    length parts = (5 + ncols df + Nat.min 5 (nrows df))%nat /\
    Py.endswith (nth (2 + ncols df) parts EmptyString) "," = false /\
    nth (3 + ncols df) parts EmptyString = ");" +++ nl /\
    forall k, (k < Nat.min 5 (nrows df))%nat ->
      nth (5 + ncols df + k) parts EmptyString =
      insert_line str_of_value (sql_table_name filename)
        (String.concat ", " (map sql_column_name (column_names df)))
        (nth k (df_rows df) (0%Z, [])).
Proof.
  intros df filename parts. unfold parts, sql_parts.
  set (head0 := [_; _; _] ++ map column_line (df_columns df)).
  assert (Hlen : length (update_last (rstrip_chars [","%char]) head0)
                 = (3 + ncols df)%nat).
  { rewrite update_last_length. unfold head0.
    rewrite length_app, length_map. reflexivity. }
  assert (Hlast : exists l x, head0 = l ++ [x] /\ length l = (2 + ncols df)%nat).
  { destruct (exists_last (l := head0)) as (l & x & E).
    - unfold head0. discriminate.
    - exists l, x. split; auto.
      assert (H : length head0 = (3 + ncols df)%nat).
      { unfold head0. rewrite length_app, length_map. reflexivity. }
      rewrite E, length_app in H. simpl in H. lia. }
  destruct Hlast as (l & x & El & Hl).
  split; [|split; [|split]].
  - rewrite !length_app, Hlen, length_map, length_firstn.
    unfold nrows. simpl. lia.
  - rewrite app_nth1 by lia. rewrite El, update_last_snoc.
    rewrite app_nth2 by lia. rewrite Hl, Nat.sub_diag. simpl.
    apply rstrip_chars_comma.
  - rewrite app_nth2 by lia. rewrite Hlen, Nat.sub_diag. reflexivity.
  - intros k Hk. rewrite app_nth2 by lia. rewrite Hlen.
    replace (5 + ncols df + k - (3 + ncols df))%nat with (2 + k)%nat by lia.
    cbn [Nat.add nth app].
    rewrite (@nth_indep _ _ _ EmptyString
               (insert_line str_of_value (sql_table_name filename)
                  (String.concat ", " (map sql_column_name (column_names df)))
                  (0%Z, []))).
    + rewrite map_nth. f_equal. rewrite nth_firstn.
      destruct (Nat.ltb_spec k 5); [reflexivity | lia].
    + rewrite length_map, length_firstn. unfold nrows in Hk. lia.
Qed.

End SqlScript.

(* ================================================================== *)
(** * The chart renderer *)
(* ================================================================== *)

Lemma chart_plan_length (df : DataFrame) (id : Z) :
  (length (chart_plan df id) <= 6)%nat.
Proof.
  unfold chart_plan. rewrite !length_app.
  match goal with
  | |- (length ?h + _ <= _)%nat =>
      assert (H1 : (length h <= 3)%nat);
      [destruct (0 <? length (numeric_cols df))%nat;
       [rewrite length_map, length_firstn; lia | simpl; lia]
      | generalize dependent (length h); intros n Hn]
  end.
  destruct (1 <? _)%nat, (categorical_cols df), (2 <=? _)%nat; simpl; lia.
Qed.

Section ChartsFacts.

Variable clock : nat -> string.
Variable draw : DataFrame -> Chart -> string -> Py.result unit.

Lemma draw_all_ok (df : DataFrame) (plan : list Chart) (k : nat)
  (v : list (string * string)) :
  draw_all clock draw df k plan = Py.Ok v ->
  v = map (fun ic => (chart_type (snd ic),
                      chart_filename clock (fst ic) (snd ic)))
          (combine (seq k (length plan)) plan) /\
  forall i c, nth_error plan i = Some c ->
    draw df c (chart_filename clock (k + i) c) = Py.Ok tt.
Proof.
  revert k v; induction plan as [|c rest IH]; intros k v H.
  - simpl in H. inversion H. split; [reflexivity|].
    intros [|i] c' Hn; discriminate.
  - simpl in H.
    destruct (draw df c (chart_filename clock k c)) as [[]|] eqn:Ed;
      [|discriminate].
    simpl in H.
    destruct (draw_all clock draw df (S k) rest) as [done|] eqn:Er;
      [|discriminate].
    simpl in H. inversion H; subst v. clear H.
    destruct (IH _ _ Er) as [-> Hall]. split; [reflexivity|].
    intros [|i] c' Hn.
    + simpl in Hn. inversion Hn; subst. rewrite Nat.add_0_r. exact Ed.
    + simpl in Hn. replace (k + S i)%nat with (S k + i)%nat by lia.
      apply Hall; exact Hn.
Qed.

Lemma draw_all_raise (df : DataFrame) (plan : list Chart) (k i : nat)
  (c : Chart) (e : string) :
  nth_error plan i = Some c ->
  draw df c (chart_filename clock (k + i) c) = Py.Raise e ->
  exists e', draw_all clock draw df k plan = Py.Raise e'.
Proof.
  revert k i; induction plan as [|c0 rest IH]; intros k i Hn Hd.
  - destruct i; discriminate.
  - simpl. destruct i as [|i].
    + simpl in Hn. inversion Hn; subst. rewrite Nat.add_0_r in Hd.
      rewrite Hd. simpl. eauto.
    + simpl in Hn.
      destruct (draw df c0 (chart_filename clock k c0)); simpl; [|eauto].
      replace (k + S i)%nat with (S k + i)%nat in Hd by lia.
      destruct (IH _ _ Hn Hd) as [e' ->]. simpl. eauto.
Qed.

(** X24.  The renderer is all or nothing.  When it returns, every planned chart
    was drawn and the descriptors are those of the plan, in its order, at
    most six of them; when one drawing raises, the renderer raises and
    returns no descriptor, not even for the charts drawn before. *)
Theorem render_charts_all_or_nothing :
  forall (df : DataFrame) (id : Z),
    let plan := chart_plan df id in
    (forall v, render_charts clock draw df id = Py.Ok v ->
       map fst v = map chart_type plan /\
       (length v <= 6)%nat /\
       forall i c, nth_error plan i = Some c ->
         draw df c (chart_filename clock i c) = Py.Ok tt) /\
    (forall i c e, nth_error plan i = Some c ->
       draw df c (chart_filename clock i c) = Py.Raise e ->
       exists e', render_charts clock draw df id = Py.Raise e').
Proof.
  intros df id plan. unfold render_charts. fold plan. split.
  - intros v H. destruct (draw_all_ok _ _ _ H) as [-> Hall].
    split; [|split].
    + rewrite map_map. simpl.
      rewrite <- (map_map snd chart_type). f_equal.
      clear. generalize 0%nat. induction plan; intros n; simpl; congruence.
    + rewrite length_map, length_combine, length_seq, Nat.min_id.
      apply chart_plan_length.
    + exact Hall.
  - intros i c e Hn Hd. eapply draw_all_raise; eauto.
Qed.

End ChartsFacts.

(* ================================================================== *)
(** * Text to SQL *)
(* ================================================================== *)

Lemma str_in_In (x : string) (xs : list string) :
  Py.str_in x xs = true <-> In x xs.
Proof.
  unfold Py.str_in. rewrite existsb_exists. split.
  - intros (y & Hy & E). apply String.eqb_eq in E. subst; auto.
  - intros H. exists x. split; auto. apply String.eqb_refl.
Qed.

Lemma lower_char_idem (c : ascii) :
  Py.lower_char (Py.lower_char c) = Py.lower_char c.
Proof. destruct c as [[] [] [] [] [] [] [] []]; reflexivity. Qed.

Lemma lower_idem (s : string) : Py.lower (Py.lower s) = Py.lower s.
Proof.
  induction s as [|c s IH]; simpl; auto. rewrite lower_char_idem, IH.
  reflexivity.
Qed.

(** What a passed validation means for the words of the query. *)
Lemma validate_true (sql : string) (cols : list string) :
  fst (validate_sql_columns sql cols) = true ->
  forall w, In w (potential_columns (Py.lower sql)) ->
    In w sql_keywords \/ In w (map Py.lower cols) \/
    String.prefix "dataset_" w = true.
Proof.
  unfold validate_sql_columns. cbn [fst]. intros H w Hw.
  apply Nat.eqb_eq in H. apply length_zero_iff_nil in H.
  assert (Hf : is_invalid_column (map Py.lower cols) w = false).
  { destruct (is_invalid_column (map Py.lower cols) w) eqn:E; auto.
    assert (Hin : In w (filter (is_invalid_column (map Py.lower cols))
                          (potential_columns (Py.lower sql))))
      by (apply filter_In; auto).
    rewrite H in Hin. destruct Hin. }
  unfold is_invalid_column in Hf.
  destruct (Py.str_in w sql_keywords) eqn:E1;
    [left; apply str_in_In; exact E1|].
  destruct (Py.str_in w (map Py.lower cols)) eqn:E2;
    [right; left; apply str_in_In; exact E2|].
  destruct (String.prefix "dataset_" w) eqn:E3; [auto|discriminate].
Qed.

Lemma validate_pair (sql : string) (cols : list string) :
  validate_sql_columns sql cols =
  (fst (validate_sql_columns sql cols), snd (validate_sql_columns sql cols)).
Proof. reflexivity. Qed.

Section TextToSqlFacts.

Variable read_csv : string -> Py.result DataFrame.
Variable read_excel : string -> Py.result DataFrame.
Variable llm : string -> string -> string -> string -> Py.result string.

(** X25.  The answer is a query or a clarification, never both and never
    neither; and a query is returned only after it passed the column
    check against the schema of the file: each of its identifier-like
    words, in lower case, is a keyword of the list, the name of a column
    of the file in lower case, or starts with [dataset_]. *)
Theorem returned_query_is_validated :
  forall (question : string) (dataset_id : Z) (file_path : string)
         (table_name : option string),
    let answer :=
      generate_sql_query read_csv read_excel llm question dataset_id
        file_path table_name in
    let schema := extract_schema_from_dataset read_csv read_excel file_path in
    match sql_query answer with
    | Some q =>
        needs_clarification answer = false /\
        clarification_message answer = None /\
        answer_schema answer = Some schema /\
        schema <> [] /\
        forall w, In w (potential_columns (Py.lower q)) ->
          In w sql_keywords \/ In w (map Py.lower (map fst schema)) \/
          String.prefix "dataset_" w = true
    | None =>
        needs_clarification answer = true /\
        clarification_message answer <> None
    end.
Proof.
  intros question dataset_id file_path table_name answer schema.
  unfold answer, generate_sql_query. fold schema.
  destruct schema as [|kv rest] eqn:Es; [simpl; split; congruence|].
  match goal with
  | |- context [llm ?a ?b ?c ?d] => destruct (llm a b c d) as [content|msg]
  end.
  2:{ destruct (is_api_error msg); simpl; split; congruence. }
  destruct (String.prefix "CLARIFICATION NEEDED:" (Py.strip content));
    [simpl; split; congruence|].
  match goal with
  | |- context [validate_sql_columns ?s ?c] =>
      rewrite (validate_pair s c);
      destruct (fst (validate_sql_columns s c)) eqn:Ev
  end.
  - cbn [sql_query needs_clarification clarification_message answer_schema].
    repeat split; try congruence.
    intros w Hw. exact (validate_true _ _ Ev w Hw).
  - simpl; split; congruence.
Qed.

(** X26.  A path that ends with none of the three suffixes gives the empty
    schema, and the answer is the fixed clarification about the schema:
    the readers and the model are not consulted. *)
Theorem unsupported_path_asks_no_model :
  forall (question : string) (dataset_id : Z) (file_path : string)
         (table_name : option string),
    Py.endswith_any file_path [".csv"; ".xlsx"; ".xls"] = false ->
    extract_schema_from_dataset read_csv read_excel file_path = [] /\
    generate_sql_query read_csv read_excel llm question dataset_id
      file_path table_name =
    clarification
      "Unable to extract schema from dataset. Please ensure the file is valid.".
Proof.
  intros question dataset_id file_path table_name H.
  assert (Hs : extract_schema_from_dataset read_csv read_excel file_path = []).
  { unfold extract_schema_from_dataset.
    unfold Py.endswith_any in *. cbn [existsb] in *.
    apply orb_false_iff in H. destruct H as [H1 H2].
    rewrite H1, H2. reflexivity. }
  split; [exact Hs|].
  unfold generate_sql_query. rewrite Hs. reflexivity.
Qed.

End TextToSqlFacts.

Lemma filter_ext_in {A} (f g : A -> bool) (l : list A) :
  (forall x, In x l -> f x = g x) -> filter f l = filter g l.
Proof.
  induction l as [|x l IH]; intros H; simpl; auto.
  rewrite (H x) by (left; reflexivity).
  rewrite IH by (intros; apply H; right; auto). reflexivity.
Qed.

(** X27.  The column check does not depend on the letter case of the query or
    of the column names, and a query that passes it still passes when the
    table has more columns. *)
Theorem validation_ignores_case :
  forall (sql : string) (cols more : list string),
    validate_sql_columns (Py.lower sql) cols = validate_sql_columns sql cols /\
    validate_sql_columns sql (map Py.lower cols)
      = validate_sql_columns sql cols /\
    (fst (validate_sql_columns sql cols) = true ->
     fst (validate_sql_columns sql (cols ++ more)) = true).
Proof.
  intros sql cols more. split; [|split].
  - unfold validate_sql_columns. rewrite lower_idem. reflexivity.
  - unfold validate_sql_columns. rewrite map_map.
    rewrite (map_ext (fun x => Py.lower (Py.lower x)) Py.lower)
      by (intros; apply lower_idem).
    reflexivity.
  - unfold validate_sql_columns. cbn [fst]. intros H.
    apply Nat.eqb_eq in H. apply length_zero_iff_nil in H.
    apply Nat.eqb_eq. apply length_zero_iff_nil.
    apply filter_nil_forall. intros w Hw.
    assert (Hf : is_invalid_column (map Py.lower cols) w = false).
    { destruct (is_invalid_column (map Py.lower cols) w) eqn:E; auto.
      assert (Hin : In w (filter (is_invalid_column (map Py.lower cols))
                            (potential_columns (Py.lower sql))))
        by (apply filter_In; auto).
      rewrite H in Hin. destruct Hin. }
    unfold is_invalid_column in *.
    destruct (Py.str_in w sql_keywords); [reflexivity|].
    destruct (String.prefix "dataset_" w);
      [rewrite andb_false_r; reflexivity|].
    destruct (Py.str_in w (map Py.lower cols)) eqn:E2; [|discriminate Hf].
    apply str_in_In in E2.
    assert (E3 : Py.str_in w (map Py.lower (cols ++ more)) = true).
    { apply str_in_In. rewrite map_app. apply in_or_app; auto. }
    rewrite E3. reflexivity.
Qed.

(* ================================================================== *)
(** * The analysis records *)
(* ================================================================== *)

Lemma find_snoc {A} (f : A -> bool) (l : list A) (x : A) :
  find f (l ++ [x]) =
  match find f l with
  | Some y => Some y
  | None => if f x then Some x else None
  end.
Proof.
  induction l as [|y l IH]; simpl; [destruct (f x); reflexivity|].
  destruct (f y); auto.
Qed.

Lemma filter_tagged {A} (id aid : Z) (l : list A) :
  filter (fun v : Z * A => Z.eqb (fst v) aid) (map (fun x => (id, x)) l) =
  if Z.eqb id aid then map (fun x => (id, x)) l else [].
Proof.
  induction l as [|x l IH]; simpl; [destruct (Z.eqb id aid); reflexivity|].
  rewrite IH. destruct (Z.eqb id aid); reflexivity.
Qed.

Section AnalysisRecordsFacts.

Variable F : Type.
Variable invoke : AgentState F -> AgentState F.
Variable new_analysis_id : Database F -> Z.


(** X29.  A request to analyse never changes what is stored of the datasets or
    what [get_analysis] shows of an analysis with another id; for an
    unknown dataset it answers 404 and stores nothing. *)
Theorem analyze_keeps_other_records :
  forall (db : Database F) (dataset_id analysis_id : Z),
    let out := fst (analyze_dataset_db invoke new_analysis_id db dataset_id) in
    let db' := snd (analyze_dataset_db invoke new_analysis_id db dataset_id) in
    db_datasets db' = db_datasets db /\
    (find_dataset db dataset_id = None ->
     out = Throw (HTTPException 404 "Dataset not found") /\ db' = db) /\
    (analysis_id <> new_analysis_id db ->
     get_analysis db' analysis_id = get_analysis db analysis_id).
Proof.
  intros db dataset_id analysis_id out db'.
  unfold out, db', analyze_dataset_db.
  destruct (find_dataset db dataset_id) as [dataset|];
    [|cbn [fst snd]; repeat split; congruence].
  match goal with
  | |- context [errors ?r] => destruct (errors r) as [|m ms]
  end; cbn [fst snd db_datasets]; (split; [reflexivity|]);
    (split; [discriminate|]); intros Hne;
    unfold get_analysis, find_analysis;
    cbn [db_analyses db_visualizations];
    rewrite find_snoc; cbn [a_id];
    (destruct (Z.eqb_spec (new_analysis_id db) analysis_id) as [E|_];
       [congruence|]).
  - rewrite filter_app, filter_tagged.
    destruct (Z.eqb_spec (new_analysis_id db) analysis_id) as [E|_];
      [congruence|].
    rewrite app_nil_r.
    destruct (find _ (db_analyses db)); reflexivity.
  - destruct (find _ (db_analyses db)); reflexivity.
Qed.

End AnalysisRecordsFacts.

(* ================================================================== *)
(** * A successful upload *)
(* ================================================================== *)

Section UploadSuccess.

Variable UPLOAD_DIR : string.
Variable timestamp : string.
Variable save : string -> Py.result Z.
Variable read_csv : string -> Py.result DataFrame.
Variable read_excel : string -> Py.result DataFrame.
Variable db_add : Dataset -> Py.result Z.
Variable str_of_exn : exn -> string.

(** X30.  A response of [upload_file] means that the name passed the suffix
    test, the upload was written to the stored path, the reader chosen by
    the suffix read a table from that path, and the dataset was recorded
    under the returned id with the numbers of rows and columns of that
    table, the same numbers as in the response. *)
Theorem upload_response_matches_record :
  forall (filename : string) (r : UploadResponse),
    upload_file UPLOAD_DIR timestamp save read_csv read_excel db_add
      str_of_exn filename = Return r ->
    let path := stored_path UPLOAD_DIR timestamp filename in
    Py.endswith_any filename [".csv"; ".xlsx"; ".xls"] = true /\
    exists size df,
      save path = Py.Ok size /\
      (if Py.endswith filename ".csv" then read_csv path
       else read_excel path) = Py.Ok df /\
      db_add (mkDataset (timestamp +++ "_" +++ filename) filename path size
                (Z.of_nat (nrows df)) (Z.of_nat (ncols df))
                (column_names df))
        = Py.Ok (up_dataset_id r) /\
      up_filename r = filename /\
      up_rows r = Z.of_nat (nrows df) /\
      up_columns r = Z.of_nat (ncols df).
Proof.
  intros filename r H path. unfold upload_file in H.
  destruct (upload_body UPLOAD_DIR timestamp save read_csv read_excel db_add
              filename) as [r'|e] eqn:E; [|discriminate].
  inversion H; subst r'. clear H.
  unfold upload_body in E.
  destruct (Py.endswith_any filename [".csv"; ".xlsx"; ".xls"]);
    [|discriminate]. cbn [negb] in E.
  split; [reflexivity|].
  fold (stored_path UPLOAD_DIR timestamp filename) in E. fold path in E.
  destruct (save path) as [size|]; [|discriminate]. cbn [lift and_then] in E.
  destruct (if Py.endswith filename ".csv" then read_csv path
            else read_excel path) as [df|]; [|discriminate].
  cbn [lift and_then] in E.
  match type of E with
  | and_then (lift (db_add ?d)) _ = _ =>
      destruct (db_add d) as [id|] eqn:Ed; [|discriminate]
  end.
  cbn [lift and_then] in E. inversion E; subst r.
  exists size, df. repeat split; auto.
Qed.

End UploadSuccess.

(** Witness: the upload of the scenario table as a spreadsheet. *)
Lemma upload_response_matches_record_witness :
  upload_file "./uploads" "20240101_120000" (fun _ => Py.Ok 64%Z)
    Example.read_fail (Example.read_const Example.scenario)
    (fun _ => Py.Ok 1%Z) Example.str_of_exn "people.xlsx"
  = Return (mkUploadResponse 1 "people.xlsx" 3 3 "File uploaded successfully")
  /\ Py.endswith_any "people.xlsx" [".csv"; ".xlsx"; ".xls"] = true.
Proof.
  split; [reflexivity|].
  exact (proj1 (@upload_response_matches_record "./uploads"
                  "20240101_120000" (fun _ => Py.Ok 64%Z)
                  Example.read_fail (Example.read_const Example.scenario)
                  (fun _ => Py.Ok 1%Z) Example.str_of_exn "people.xlsx"
                  (mkUploadResponse 1 "people.xlsx" 3 3
                     "File uploaded successfully") eq_refl)).
Defined.

(* ================================================================== *)
(** * The statements above on sample inputs *)
(* ================================================================== *)

(** Witness: the filled and the kept cell of a column with a null. *)
Lemma impute_keeps_values_witness :
  nth 0 (column 1 (impute Example.null_then_equal)) NA = Num 2.
Proof.
  apply (proj2 (impute_keeps_values Example.null_then_equal 0 1)).
  vm_compute. discriminate.
Defined.

(** Witness: a run over the scenario table in which the text generation
    fails with a quota message. *)
Lemma run_completes_with_all_reports_witness :
  let result :=
    analysis_graph_invoke Example.parse_number Example.isolation_forest
      Example.current_year Example.describe_to_dict Pearson.corr
      Example.top_values (Example.read_const Example.scenario)
      Example.read_fail Example.to_csv
      (render_charts Sample.clock Sample.draw)
      Sample.llm_quota Example.generate_mock_insights Example.emit_sql
      (initial_state R 1 "uploads/people.csv" "people.csv") in
  errors result = [] /\
  status result = "completed" /\
  insights result = Some "### Data Analysis Insights (Mock Mode)" /\
  length (visualizations result) = 20%nat.
Proof.
  intros result.
  destruct (detect_anomalies Example.isolation_forest Example.current_year
              (clean_frame Example.parse_number Example.scenario))
    as [report|e] eqn:Hdet; [|vm_compute in Hdet; discriminate].
  destruct (render_charts Sample.clock Sample.draw
              (clean_frame Example.parse_number Example.scenario) 1)
    as [v|e] eqn:Hviz; [|vm_compute in Hviz; discriminate].
  assert (Hv : length v = 5%nat).
  { vm_compute in Hviz. inversion Hviz. reflexivity. }
  destruct (@run_completes_with_all_reports R Example.parse_number
              Example.isolation_forest Example.current_year
              Example.describe_to_dict Pearson.corr Example.top_values
              (Example.read_const Example.scenario) Example.read_fail
              Example.to_csv (render_charts Sample.clock Sample.draw)
              Sample.llm_quota Example.generate_mock_insights
              Example.emit_sql 1%Z "uploads/people.csv" "people.csv"
              Example.scenario report v "-- SQL"
              eq_refl eq_refl Hdet Hviz)
    as (He & Hs & _ & _ & _ & _ & Hi & _ & Hz & _).
  - intros msg H. unfold Sample.llm_quota in H. inversion H. reflexivity.
  - reflexivity.
  - fold result in He, Hs, Hi, Hz.
    split; [exact He|]. split; [exact Hs|]. split; [exact Hi|].
    rewrite Hz, !length_app, Hv. reflexivity.
Defined.

(** Witness: the same run with a text generation that times out. *)
Lemma insights_failure_fails_run_witness :
  let result :=
    analysis_graph_invoke Example.parse_number Example.isolation_forest
      Example.current_year Example.describe_to_dict Pearson.corr
      Example.top_values (Example.read_const Example.scenario)
      Example.read_fail Example.to_csv Example.render
      Sample.llm_timeout Example.generate_mock_insights Example.emit_sql
      (initial_state R 1 "uploads/people.csv" "people.csv") in
  status result = "completed" /\
  insights result = None /\
  analysis_status (analysis_outcome result) = "failed".
Proof.
  intros result.
  destruct (detect_anomalies Example.isolation_forest Example.current_year
              (clean_frame Example.parse_number Example.scenario))
    as [report|e] eqn:Hdet; [|vm_compute in Hdet; discriminate].
  destruct (@insights_failure_fails_run R Example.parse_number
              Example.isolation_forest Example.current_year
              Example.describe_to_dict Pearson.corr Example.top_values
              (Example.read_const Example.scenario) Example.read_fail
              Example.to_csv Example.render
              Sample.llm_timeout Example.generate_mock_insights
              Example.emit_sql 1%Z "uploads/people.csv" "people.csv"
              Example.scenario report [] "-- SQL" "Request timed out."
              eq_refl eq_refl Hdet eq_refl eq_refl eq_refl eq_refl)
    as (Hs & Hi & _ & _ & _ & Ho & _).
  fold result in Hs, Hi, Ho. auto.
Defined.

(** Witness: a run on a file that cannot be read. *)
Lemma cleaner_failure_runs_every_node_witness :
  let result :=
    analysis_graph_invoke Example.parse_number Example.isolation_forest
      Example.current_year Example.describe_to_dict Pearson.corr
      Example.top_values Example.read_fail Example.read_fail
      Example.to_csv Example.render Example.llm_invoke
      Example.generate_mock_insights Example.emit_sql
      (initial_state R 1 "uploads/people.csv" "people.csv") in
  status result = "failed" /\
  cleaned_data result = None /\
  In "SQL generation error: 'cleaned_data'" (errors result).
Proof.
  intros result.
  destruct (@cleaner_failure_runs_every_node R Example.parse_number
              Example.isolation_forest Example.current_year
              Example.describe_to_dict Pearson.corr Example.top_values
              Example.read_fail Example.read_fail
              Example.to_csv Example.render Example.llm_invoke
              Example.generate_mock_insights Example.emit_sql
              1%Z "uploads/people.csv" "people.csv"
              "Excel file format cannot be determined"
              (or_introl eq_refl))
    as (Hs & Hc & _ & _ & _ & _ & _ & _ & He & _).
  fold result in Hs, Hc, He.
  split; [exact Hs|]. split; [exact Hc|].
  apply He. simpl. tauto.
Defined.

(** Witness: a text with a quote. *)
Lemma escape_quotes_round_trip_witness :
  escape_quotes "it's" = "it''s" /\
  unescape_quotes (escape_quotes "it's") = "it's".
Proof.
  split; [reflexivity|].
  exact (proj1 (escape_quotes_round_trip "it's" EmptyString)).
Defined.

(** Witness: the script of the scenario table, which has three rows. *)
Lemma sql_script_shape_witness :
  nth 10 (sql_parts Sample.str_of_value Example.scenario "people.csv")
      EmptyString =
  "INSERT INTO people (age, years_experience, salary) VALUES (200, 1, -10);".
Proof.
  destruct (sql_script_shape Sample.str_of_value Example.scenario
              "people.csv") as (_ & _ & _ & H).
  change 10%nat with (5 + ncols Example.scenario + 2)%nat.
  rewrite (H 2%nat); [reflexivity|].
  vm_compute. lia.
Defined.

(** Witness: the charts of the scenario table, drawn by a plotter that
    draws everything and by one that fails on the heatmap. *)
Lemma render_charts_all_or_nothing_witness :
  (exists v,
     render_charts Sample.clock Sample.draw Example.scenario 1 = Py.Ok v /\
     map fst v = ["histogram"; "histogram"; "histogram"; "correlation";
                  "scatter"]) /\
  (exists e,
     render_charts Sample.clock Sample.draw_no_heatmap Example.scenario 1
     = Py.Raise e).
Proof.
  split.
  - destruct (render_charts Sample.clock Sample.draw Example.scenario 1)
      as [v|e] eqn:E; [|vm_compute in E; discriminate].
    exists v. split; [reflexivity|].
    destruct (proj1 (render_charts_all_or_nothing Sample.clock Sample.draw
                       Example.scenario 1) v E) as (H & _).
    rewrite H. reflexivity.
  - apply (proj2 (render_charts_all_or_nothing Sample.clock
                    Sample.draw_no_heatmap Example.scenario 1)
             3%nat (mkChart "correlation" [] "corr_1")
             "could not convert string to float");
      reflexivity.
Defined.

(** Witness: a question about the stored scenario table. *)
Lemma returned_query_is_validated_witness :
  sql_query
    (generate_sql_query (Example.read_const Example.scenario)
       Example.read_fail Sample.llm_select "How old are they?" 1
       "uploads/people.csv" None)
  = Some "SELECT age FROM dataset_1;" /\
  forall w, In w (potential_columns (Py.lower "SELECT age FROM dataset_1;")) ->
    In w sql_keywords \/
    In w (map Py.lower ["age"; "years_experience"; "salary"]) \/
    String.prefix "dataset_" w = true.
Proof.
  split; [reflexivity|].
  pose proof (returned_query_is_validated
                (Example.read_const Example.scenario) Example.read_fail
                Sample.llm_select "How old are they?" 1
                "uploads/people.csv" None) as H.
  cbv zeta in H.
  change (sql_query _) with (Some "SELECT age FROM dataset_1;") in H.
  destruct H as (_ & _ & _ & _ & H). exact H.
Defined.

(** Witness: a path to a JSON file. *)
Lemma unsupported_path_asks_no_model_witness :
  generate_sql_query (Example.read_const Example.scenario)
    (Example.read_const Example.scenario) Sample.llm_select
    "How old are they?" 1 "uploads/people.json" None =
  clarification
    "Unable to extract schema from dataset. Please ensure the file is valid.".
Proof.
  apply (proj2 (unsupported_path_asks_no_model
                  (Example.read_const Example.scenario)
                  (Example.read_const Example.scenario) Sample.llm_select
                  "How old are they?" 1 "uploads/people.json" None
                  eq_refl)).
Defined.

(** Witness: a query over one column of a table that gets a second. *)
Lemma validation_ignores_case_witness :
  fst (validate_sql_columns "SELECT Age FROM dataset_1;" ["AGE"]) = true /\
  fst (validate_sql_columns "SELECT Age FROM dataset_1;" (["AGE"] ++ ["salary"]))
  = true.
Proof.
  split; [reflexivity|].
  apply (proj2 (proj2 (validation_ignores_case "SELECT Age FROM dataset_1;"
                         ["AGE"] ["salary"]))).
  reflexivity.
Defined.


(** Witness: the sample database after a request for an unknown dataset
    and the view of an analysis that does not exist. *)
Lemma analyze_keeps_other_records_witness :
  snd (analyze_dataset_db (fun s : AgentState R => s)
         Sample.new_analysis_id Sample.database 7) = Sample.database /\
  get_analysis
    (snd (analyze_dataset_db (fun s : AgentState R => s)
            Sample.new_analysis_id Sample.database 1)) 5 =
  get_analysis Sample.database 5.
Proof.
  pose proof (@analyze_keeps_other_records R (fun s => s)
                Sample.new_analysis_id Sample.database 7%Z 5%Z) as H7.
  pose proof (@analyze_keeps_other_records R (fun s => s)
                Sample.new_analysis_id Sample.database 1%Z 5%Z) as H1.
  cbv zeta in H7, H1.
  destruct H7 as (_ & H7 & _). destruct H1 as (_ & _ & H1).
  split.
  - apply H7. reflexivity.
  - apply H1. vm_compute. discriminate.
Defined.
